(** * SalesTrainerAI: the chat client script and the signup password meter

    A shallow embedding of
      - [static/js/chat.js]: [handleSendMessage], [addMessage], [showError],
        [updateStatus], [toggleVoiceInput], [stopVoiceInput] and the
        recognizer callbacks; [requestFeedback], [showFeedbackModal],
        [closeFeedbackModal], the click listener of the document and
        [downloadFeedback];
      - [templates/signup.html]: [checkPasswordStrength], the submit
        listener with [showError], and the password toggle;
      - [templates/landing.html]: the testimonial carousel.

    JavaScript strings are modelled as [string], i.e. sequences of 8-bit code
    units (the Latin-1 range of the UTF-16 code units of the script);
    globals of the script are fields of an explicit state record; the
    promise chain of [fetch] is an explicit list of pending requests that a
    later event settles, and an exception inside its [then] handler leads
    to its [catch] handler.  What the browser decides ([Date], the
    selector engine behind [querySelector], the HTML parser behind
    [innerHTML]) is a parameter of the handlers. *)

From Stdlib Require Import String Ascii List Bool Arith ZArith Lia.
Import ListNotations.
Local Open Scope string_scope.
Local Open Scope nat_scope.

(* ------------------------------------------------------------------ *)
(** ** The parts of the JavaScript string library the scripts use *)

Module JS.

Definition code (c : ascii) : nat := nat_of_ascii c.

Definition inRange (lo hi : nat) (c : ascii) : bool :=
  (lo <=? code c) && (code c <=? hi).

(** WhiteSpace and LineTerminator code points below 256: TAB, LF, VT, FF,
    CR, SP and NBSP.  This is the set [String.prototype.trim] strips. *)
Definition isWhiteSpace (c : ascii) : bool :=
  inRange 9 13 c || (code c =? 32) || (code c =? 160).

(** LineTerminator code points below 256: the characters [.] refuses. *)
Definition isLineTerminator (c : ascii) : bool :=
  (code c =? 10) || (code c =? 13).

Definition isEmpty (s : string) : bool :=
  match s with EmptyString => true | String _ _ => false end.

(** [!s] for a string: the empty string is the only falsy one. *)
Definition truthy (s : string) : bool := negb (isEmpty s).

Fixpoint trimStart (s : string) : string :=
  match s with
  | EmptyString => EmptyString
  | String c r => if isWhiteSpace c then trimStart r else s
  end.

Fixpoint trimEnd (s : string) : string :=
  match s with
  | EmptyString => EmptyString
  | String c r =>
      let r' := trimEnd r in
      if isWhiteSpace c && isEmpty r' then EmptyString else String c r'
  end.

(** [s.trim()] *)
Definition trim (s : string) : string := trimEnd (trimStart s).

(** [s.split(sep)] for a one-character separator: every occurrence of the
    separator cuts, so adjacent separators give empty pieces, and the
    result is never the empty array. *)
Fixpoint split (sep : ascii) (s : string) : list string :=
  match s with
  | EmptyString => [EmptyString]
  | String c r =>
      if Ascii.eqb c sep then EmptyString :: split sep r
      else match split sep r with
           | w :: ws => String c w :: ws
           | [] => [String c EmptyString]
           end
  end.

(** [a.slice(0, n)] *)
Definition slice0 {A} (n : nat) (a : list A) : list A := firstn n a.

(** [a.join(sep)] *)
Definition join (sep : string) (a : list string) : string :=
  String.concat sep a.

(** [re.test(s)] for a regular expression that is one character class. *)
Fixpoint testClass (cls : ascii -> bool) (s : string) : bool :=
  match s with
  | EmptyString => false
  | String c r => cls c || testClass cls r
  end.

(** [s.includes(t)] *)
Fixpoint includes (t s : string) : bool :=
  String.prefix t s ||
  match s with
  | EmptyString => false
  | String _ r => includes t r
  end.

(** *** Regular expressions

    The constructs the scripts' patterns are built from, matched the way
    the language prescribes: by backtracking, leftmost alternative first,
    a lazy quantifier trying the continuation before it consumes. *)

Inductive regex : Type :=
| Lit (t : string)              (* a run of literal characters *)
| LazyDot                       (* [.*?] *)
| Group (n : nat) (r : regex)   (* [( r )], the capture group number [n] *)
| Opt (r : regex)               (* [r?], greedy *)
| Alt (r1 r2 : regex)           (* [r1|r2] *)
| EndOfInput                    (* [$] without the [m] flag *)
| Seq (r1 r2 : regex).

(** Capture groups that took part in the match, latest first. *)
Definition captures := list (nat * string).

Fixpoint capture (n : nat) (caps : captures) : option string :=
  match caps with
  | [] => None
  | (m, t) :: rest => if m =? n then Some t else capture n rest
  end.

(** [$n] in a replacement string: a group that did not take part gives the
    empty string. *)
Definition dollar (n : nat) (caps : captures) : string :=
  match capture n caps with Some t => t | None => EmptyString end.

Fixpoint dropPrefix (t s : string) : option string :=
  match t, s with
  | EmptyString, _ => Some s
  | String a t', String b s' => if Ascii.eqb a b then dropPrefix t' s' else None
  | String _ _, EmptyString => None
  end.

(** The text between a position [s] and a later position [s'] of the same
    input, both given as the remaining input. *)
Definition consumed (s s' : string) : string :=
  substring 0 (String.length s - String.length s') s.

Section Matcher.
Context {R : Type}.

(** [.*?] followed by the continuation [k]: the shortest extension first. *)
Fixpoint lazyDot (s : string) (k : string -> option R) : option R :=
  match k s with
  | Some x => Some x
  | None =>
      match s with
      | EmptyString => None
      | String c s' => if isLineTerminator c then None else lazyDot s' k
      end
  end.

Fixpoint matchAt (r : regex) (s : string) (caps : captures)
    (k : string -> captures -> option R) : option R :=
  match r with
  | Lit t =>
      match dropPrefix t s with Some s' => k s' caps | None => None end
  | LazyDot => lazyDot s (fun s' => k s' caps)
  | Group n r1 =>
      matchAt r1 s caps (fun s' caps' => k s' ((n, consumed s s') :: caps'))
  | Opt r1 =>
      match matchAt r1 s caps k with Some x => Some x | None => k s caps end
  | Alt r1 r2 =>
      match matchAt r1 s caps k with
      | Some x => Some x
      | None => matchAt r2 s caps k
      end
  | EndOfInput => if isEmpty s then k s caps else None
  | Seq r1 r2 => matchAt r1 s caps (fun s' caps' => matchAt r2 s' caps' k)
  end.

End Matcher.

(** A match attempt anchored at the start of [s]: the input left after the
    match and the captures. *)
Definition exec (r : regex) (s : string) : option (string * captures) :=
  matchAt r s [] (fun s' caps => Some (s', caps)).

(** [s.replace(/r/g, f)]: matches are sought left to right, each search
    resuming where the previous match ended (one character further after
    an empty match); [f] receives the matched text and the captures.
    [skip] counts the characters of [s] that the previous match still
    covers. *)
Fixpoint replaceFrom (r : regex) (f : string -> captures -> string)
    (skip : nat) (s : string) {struct s} : string :=
  match skip with
  | S n =>
      match s with
      | EmptyString => EmptyString
      | String _ s' => replaceFrom r f n s'
      end
  | O =>
      match exec r s with
      | Some (rest, caps) =>
          let m := consumed s rest in
          match s with
          | EmptyString => f m caps
          | String c s' =>
              if isEmpty m then f m caps ++ String c (replaceFrom r f 0 s')
              else f m caps ++ replaceFrom r f (String.length m - 1) s'
          end
      | None =>
          match s with
          | EmptyString => EmptyString
          | String c s' => String c (replaceFrom r f 0 s')
          end
      end
  end.

Definition replaceAll (r : regex) (f : string -> captures -> string)
    (s : string) : string :=
  replaceFrom r f 0 s.

Definition LF : string := String (ascii_of_nat 10) EmptyString.

End JS.

(* ------------------------------------------------------------------ *)
(** ** signup.html: the password strength meter *)

Module Signup.

Definition isUpper (c : ascii) : bool := JS.inRange 65 90 c.
Definition isLower (c : ascii) : bool := JS.inRange 97 122 c.
Definition isDigit (c : ascii) : bool := JS.inRange 48 57 c.
Definition isOther (c : ascii) : bool :=
  negb (isUpper c || isLower c || isDigit c).

Definition b2n (b : bool) : nat := if b then 1 else 0.

(** The local [strength] of [checkPasswordStrength] after the six checks. *)
Definition strength (password : string) : nat :=
  b2n (8 <=? String.length password)
  + b2n (12 <=? String.length password)
  + b2n (JS.testClass isUpper password)
  + b2n (JS.testClass isLower password)
  + b2n (JS.testClass isDigit password)
  + b2n (JS.testClass isOther password).

(** The pair [(strengthLevel, strengthClass)]. *)
Definition level_of (s : nat) : string * string :=
  if 5 <=? s then ("Strong", "strong")
  else if 3 <=? s then ("Medium", "medium")
  else ("Weak", "weak").

(** The class added to the meter segment number [index], if any. *)
Definition segmentClass (s : nat) (strengthClass : string) (index : nat)
  : option string :=
  if (index =? 0) && (1 <=? s) then
    Some (if 3 <=? s then strengthClass else "weak")
  else if (index =? 1) && (3 <=? s) then
    Some (if 5 <=? s then strengthClass else "medium")
  else if (index =? 2) && (5 <=? s) then Some "strong"
  else None.

(** What the function writes: the text of [strengthText] and, for each of
    the [n] elements of [strengthSegments], the class added to it. *)
Record Meter := { strengthText : string; segments : list (option string) }.

Definition checkPasswordStrength (n : nat) (password : string) : Meter :=
  let s := strength password in
  let '(strengthLevel, strengthClass) := level_of s in
  {| strengthText := strengthLevel;
     segments := map (segmentClass s strengthClass) (seq 0 n) |}.

End Signup.

(* ------------------------------------------------------------------ *)
(** ** chat.js: the message renderer *)

Module Chat.
Import JS.

(** A message record, as [handleSendMessage] builds it for the user's text
    and as the server sends it in [data.message]. *)
Record Message := {
  role : string;
  content : string;
  timestamp : string
}.

(** *** The markup patterns of [addMessage] *)

(** [/### (.*?)( ###)?/g] *)
Definition reHeader : regex :=
  Seq (Lit "### ") (Seq (Group 1 LazyDot) (Opt (Group 2 (Lit " ###")))).

(** [/- (.*?)(\n|$)/g] *)
Definition reBullet : regex :=
  Seq (Lit "- ") (Seq (Group 1 LazyDot) (Group 2 (Alt (Lit LF) EndOfInput))).

(** [/<li>(.*?)<\/li>/g] *)
Definition reItem : regex :=
  Seq (Lit "<li>") (Seq (Group 1 LazyDot) (Lit "</li>")).

(** [.replace(/### (.*?)( ###)?/g, '<h3>$1</h3>')] *)
Definition convertHeaders (s : string) : string :=
  replaceAll reHeader (fun _ caps => "<h3>" ++ dollar 1 caps ++ "</h3>") s.

(** [.replace(/- (.*?)(\n|$)/g, '<li>$1</li>')] *)
Definition convertBullets (s : string) : string :=
  replaceAll reBullet (fun _ caps => "<li>" ++ dollar 1 caps ++ "</li>") s.

(** The [if (formattedContent.includes('<li>'))] block. *)
Definition wrapLists (s : string) : string :=
  if includes "<li>" s then
    replaceAll (Lit "</ul><ul>") (fun _ _ => EmptyString)
      (replaceAll reItem (fun m _ => "<ul>" ++ m ++ "</ul>") s)
  else s.

(** [.replace(/\n\n/g, '<br><br>').replace(/\n/g, '<br>')] *)
Definition convertLineBreaks (s : string) : string :=
  replaceAll (Lit LF) (fun _ _ => "<br>")
    (replaceAll (Lit (LF ++ LF)) (fun _ _ => "<br><br>") s).

(** The four rewriting steps applied to an assistant message. *)
Definition formatContent (s : string) : string :=
  convertLineBreaks (wrapLists (convertBullets (convertHeaders s))).


(** The completion of an expression: a value, or an exception with its
    message. *)
Inductive completion (A : Type) : Type :=
| Normal (a : A)
| Throw (e : string).
Arguments Normal {A} a.
Arguments Throw {A} e.

(** *** The host platform

    [Date], the locale formatting, the selector engine and the HTML parser
    belong to the browser.  A time value is a number of milliseconds;
    [None] is the time value NaN of an invalid date.

    [querySelector sel ids] is [document.querySelector(sel)] on a page
    whose conversation items carry the [data-id] values [ids], in document
    order: the exception of a selector the engine refuses, or the position
    of the item found, or [None] for [null].  The conversation items of
    the sidebar are taken to be the only elements such a lookup finds.

    [messageElementsIn html] is the number of elements of class [message]
    among the elements the parser builds when [html] is assigned to
    [innerHTML]; [elsewhere] is the number of such elements on the page
    outside the chat list. *)
Record Platform := {
  dateParse : string -> option Z;   (* time value of [new Date(s)] *)
  localeTime : Z -> string;         (* [toLocaleTimeString([], {hour, minute})]
                                       of a valid date *)
  isoString : Z -> string;          (* [toISOString()] of a valid date *)
  querySelector : string -> list string -> completion (option nat);
  messageElementsIn : string -> nat;
  elsewhere : nat
}.

Definition andThen {A B} (c : completion A) (f : A -> completion B)
  : completion B :=
  match c with Normal a => f a | Throw e => Throw e end.

(** [try { x = c } catch (e) { x = h }] *)
Definition tryCatch {A} (c : completion A) (h : A) : A :=
  match c with Normal a => a | Throw _ => h end.

(** [new Date(s)] for a string [s] completes normally, with an invalid date
    when [s] does not parse. *)
Definition newDate (P : Platform) (s : string) : completion (option Z) :=
  Normal (dateParse P s).

(** [d.toLocaleTimeString(...)] completes normally as well: for the time
    value NaN the language prescribes the result ["Invalid Date"]. *)
Definition toLocaleTimeString (P : Platform) (d : option Z)
  : completion string :=
  Normal (match d with
          | Some t => localeTime P t
          | None => "Invalid Date"
          end).

(** The [try]/[catch] that computes [timestampStr]; [now] is the time value
    of [new Date()] in the handler. *)
Definition formatTimestamp (P : Platform) (now : Z) (ts : string) : string :=
  tryCatch (andThen (newDate P ts) (toLocaleTimeString P))
           (localeTime P now).

(** *** The page *)

(** The element [addMessage] creates.  Of the template assigned to
    [innerHTML] the record keeps the interpolated parts: [contentHTML] is
    the markup placed inside [<div class="message-content">]. *)
Record MessageElement := {
  className : string;
  avatarClass : string;
  iconClass : string;
  contentHTML : string;
  timestampText : string
}.

(** Children of [chatMessages]: message elements, and the elements of
    [showError], numbered so that their removal timers can find them; an
    error node keeps the message interpolated into its markup. *)
Inductive Node : Type :=
| MessageNode (el : MessageElement)
| ErrorNode (id : nat) (html : string).

Definition doubleQuote : string := String (ascii_of_nat 34) EmptyString.

(** A line break of a template literal and the indentation after it. *)
Fixpoint spaces (n : nat) : string :=
  match n with
  | O => EmptyString
  | S k => String " "%char (spaces k)
  end.

Definition line (n : nat) (s : string) : string := LF ++ spaces n ++ s.

Definition classAttr (v : string) : string :=
  "class=" ++ doubleQuote ++ v ++ doubleQuote.

(** The template literal assigned to [messageElement.innerHTML]. *)
Definition innerHTML (el : MessageElement) : string :=
  line 8 ("<div " ++ classAttr "message-avatar" ++ ">")
  ++ line 12 ("<div " ++ classAttr ("avatar " ++ avatarClass el) ++ ">")
  ++ line 16 ("<i " ++ classAttr ("fas " ++ iconClass el) ++ "></i>")
  ++ line 12 "</div>"
  ++ line 8 "</div>"
  ++ line 8 ("<div " ++ classAttr "message-bubble" ++ ">")
  ++ line 12 ("<div " ++ classAttr "message-content" ++ ">"
              ++ contentHTML el ++ "</div>")
  ++ line 12 ("<div " ++ classAttr "message-timestamp" ++ ">"
              ++ timestampText el ++ "</div>")
  ++ line 8 "</div>"
  ++ line 4 EmptyString.

(** The template literal assigned to [errorElement.innerHTML]. *)
Definition errorHTML (msg : string) : string :=
  line 8 ("<i " ++ classAttr "fas fa-exclamation-circle" ++ "></i>")
  ++ line 8 ("<span>" ++ msg ++ "</span>")
  ++ line 4 EmptyString.

(** The markup inside a child of the chat list; an error node keeps the
    message of [showError]. *)
Definition markup (n : Node) : string :=
  match n with
  | MessageNode el => innerHTML el
  | ErrorNode _ msg => errorHTML msg
  end.

(** The selector of the sidebar lookup. *)
Definition itemSelector (id : string) : string :=
  ".conversation-item[data-id=" ++ doubleQuote ++ id ++ doubleQuote ++ "]".

Record SidebarItem := {
  dataId : string;                  (* [data-id] of a [.conversation-item] *)
  itemTitle : option string         (* text of its [.conversation-title] *)
}.

Record Status := { statusState : string; statusMessage : string }.

(** The request [fetch] sends: the URL and the [message] of the body. *)
Record Request := { url : string; message : string }.

(** The parsed response, [data]. *)
Record Response := {
  status : string;
  reply : option Message;           (* [data.message] *)
  error : option string             (* [data.error] *)
}.

(** How the promise chain of a request ends: [fetch] and [response.json()]
    fulfil with [data], or one of them rejects with [error.message]. *)
Inductive Outcome : Type :=
| Fulfilled (data : Response)
| Rejected (errorMessage : string).

Inductive TimerAction : Type :=
| SubmitForm                        (* [messageForm.dispatchEvent(submit)] *)
| FadeOutError (id : nat)
| RemoveError (id : nat).

Record Timer := { delay : nat; action : TimerAction }.

(** Observable effects, in the order they happen. *)
Inductive Effect : Type :=
| Rendered (el : MessageElement)    (* [chatMessages.appendChild] of a message *)
| Fetched (req : Request)           (* [fetch] called *)
| Settled (req : Request) (o : Outcome)
| ErrorShown (html : string)
| RecognitionStart
| RecognitionStop.

(** The globals of the script and the parts of the page it reads and
    writes.  Scrolling, focus, the input's height, the icons of the status
    indicator and the animation classes (with the timer that adds one to a
    new message) are left out. *)
Record State := {
  inputValue : string;              (* [messageInput.value] *)
  inputDisabled : bool;             (* [messageInput.disabled] *)
  isWaitingForResponse : bool;
  currentConversationId : option string;
  chatTitle : string;               (* [chatTitle.textContent] *)
  sidebar : list SidebarItem;
  chatMessages : list Node;
  emptyStateActive : bool;
  feedbackDisabled : bool;          (* [feedbackBtn.disabled] *)
  statusIndicator : option Status;  (* [None]: the element is missing *)
  pending : list Request;           (* requests whose promise is unsettled *)
  timers : list Timer;              (* [setTimeout] callbacks not yet run *)
  nextError : nat;
  recognition : bool;               (* the recognizer object exists *)
  isRecording : bool;
  trace : list Effect
}.

Definition set_inputValue (v : string) (st : State) : State :=
  {| inputValue := v; inputDisabled := inputDisabled st;
     isWaitingForResponse := isWaitingForResponse st;
     currentConversationId := currentConversationId st;
     chatTitle := chatTitle st; sidebar := sidebar st;
     chatMessages := chatMessages st;
     emptyStateActive := emptyStateActive st;
     feedbackDisabled := feedbackDisabled st;
     statusIndicator := statusIndicator st; pending := pending st;
     timers := timers st; nextError := nextError st;
     recognition := recognition st; isRecording := isRecording st;
     trace := trace st |}.

Definition set_inputDisabled (v : bool) (st : State) : State :=
  {| inputValue := inputValue st; inputDisabled := v;
     isWaitingForResponse := isWaitingForResponse st;
     currentConversationId := currentConversationId st;
     chatTitle := chatTitle st; sidebar := sidebar st;
     chatMessages := chatMessages st;
     emptyStateActive := emptyStateActive st;
     feedbackDisabled := feedbackDisabled st;
     statusIndicator := statusIndicator st; pending := pending st;
     timers := timers st; nextError := nextError st;
     recognition := recognition st; isRecording := isRecording st;
     trace := trace st |}.

Definition set_isWaitingForResponse (v : bool) (st : State) : State :=
  {| inputValue := inputValue st; inputDisabled := inputDisabled st;
     isWaitingForResponse := v;
     currentConversationId := currentConversationId st;
     chatTitle := chatTitle st; sidebar := sidebar st;
     chatMessages := chatMessages st;
     emptyStateActive := emptyStateActive st;
     feedbackDisabled := feedbackDisabled st;
     statusIndicator := statusIndicator st; pending := pending st;
     timers := timers st; nextError := nextError st;
     recognition := recognition st; isRecording := isRecording st;
     trace := trace st |}.

Definition set_chatTitle (v : string) (st : State) : State :=
  {| inputValue := inputValue st; inputDisabled := inputDisabled st;
     isWaitingForResponse := isWaitingForResponse st;
     currentConversationId := currentConversationId st; chatTitle := v;
     sidebar := sidebar st; chatMessages := chatMessages st;
     emptyStateActive := emptyStateActive st;
     feedbackDisabled := feedbackDisabled st;
     statusIndicator := statusIndicator st; pending := pending st;
     timers := timers st; nextError := nextError st;
     recognition := recognition st; isRecording := isRecording st;
     trace := trace st |}.

Definition set_sidebar (v : list SidebarItem) (st : State) : State :=
  {| inputValue := inputValue st; inputDisabled := inputDisabled st;
     isWaitingForResponse := isWaitingForResponse st;
     currentConversationId := currentConversationId st;
     chatTitle := chatTitle st; sidebar := v;
     chatMessages := chatMessages st;
     emptyStateActive := emptyStateActive st;
     feedbackDisabled := feedbackDisabled st;
     statusIndicator := statusIndicator st; pending := pending st;
     timers := timers st; nextError := nextError st;
     recognition := recognition st; isRecording := isRecording st;
     trace := trace st |}.

Definition set_chatMessages (v : list Node) (st : State) : State :=
  {| inputValue := inputValue st; inputDisabled := inputDisabled st;
     isWaitingForResponse := isWaitingForResponse st;
     currentConversationId := currentConversationId st;
     chatTitle := chatTitle st; sidebar := sidebar st; chatMessages := v;
     emptyStateActive := emptyStateActive st;
     feedbackDisabled := feedbackDisabled st;
     statusIndicator := statusIndicator st; pending := pending st;
     timers := timers st; nextError := nextError st;
     recognition := recognition st; isRecording := isRecording st;
     trace := trace st |}.

Definition set_emptyStateActive (v : bool) (st : State) : State :=
  {| inputValue := inputValue st; inputDisabled := inputDisabled st;
     isWaitingForResponse := isWaitingForResponse st;
     currentConversationId := currentConversationId st;
     chatTitle := chatTitle st; sidebar := sidebar st;
     chatMessages := chatMessages st; emptyStateActive := v;
     feedbackDisabled := feedbackDisabled st;
     statusIndicator := statusIndicator st; pending := pending st;
     timers := timers st; nextError := nextError st;
     recognition := recognition st; isRecording := isRecording st;
     trace := trace st |}.

Definition set_feedbackDisabled (v : bool) (st : State) : State :=
  {| inputValue := inputValue st; inputDisabled := inputDisabled st;
     isWaitingForResponse := isWaitingForResponse st;
     currentConversationId := currentConversationId st;
     chatTitle := chatTitle st; sidebar := sidebar st;
     chatMessages := chatMessages st;
     emptyStateActive := emptyStateActive st; feedbackDisabled := v;
     statusIndicator := statusIndicator st; pending := pending st;
     timers := timers st; nextError := nextError st;
     recognition := recognition st; isRecording := isRecording st;
     trace := trace st |}.

Definition set_statusIndicator (v : option Status) (st : State) : State :=
  {| inputValue := inputValue st; inputDisabled := inputDisabled st;
     isWaitingForResponse := isWaitingForResponse st;
     currentConversationId := currentConversationId st;
     chatTitle := chatTitle st; sidebar := sidebar st;
     chatMessages := chatMessages st;
     emptyStateActive := emptyStateActive st;
     feedbackDisabled := feedbackDisabled st; statusIndicator := v;
     pending := pending st; timers := timers st; nextError := nextError st;
     recognition := recognition st; isRecording := isRecording st;
     trace := trace st |}.

Definition set_pending (v : list Request) (st : State) : State :=
  {| inputValue := inputValue st; inputDisabled := inputDisabled st;
     isWaitingForResponse := isWaitingForResponse st;
     currentConversationId := currentConversationId st;
     chatTitle := chatTitle st; sidebar := sidebar st;
     chatMessages := chatMessages st;
     emptyStateActive := emptyStateActive st;
     feedbackDisabled := feedbackDisabled st;
     statusIndicator := statusIndicator st; pending := v;
     timers := timers st; nextError := nextError st;
     recognition := recognition st; isRecording := isRecording st;
     trace := trace st |}.

Definition set_timers (v : list Timer) (st : State) : State :=
  {| inputValue := inputValue st; inputDisabled := inputDisabled st;
     isWaitingForResponse := isWaitingForResponse st;
     currentConversationId := currentConversationId st;
     chatTitle := chatTitle st; sidebar := sidebar st;
     chatMessages := chatMessages st;
     emptyStateActive := emptyStateActive st;
     feedbackDisabled := feedbackDisabled st;
     statusIndicator := statusIndicator st; pending := pending st;
     timers := v; nextError := nextError st; recognition := recognition st;
     isRecording := isRecording st; trace := trace st |}.

Definition set_nextError (v : nat) (st : State) : State :=
  {| inputValue := inputValue st; inputDisabled := inputDisabled st;
     isWaitingForResponse := isWaitingForResponse st;
     currentConversationId := currentConversationId st;
     chatTitle := chatTitle st; sidebar := sidebar st;
     chatMessages := chatMessages st;
     emptyStateActive := emptyStateActive st;
     feedbackDisabled := feedbackDisabled st;
     statusIndicator := statusIndicator st; pending := pending st;
     timers := timers st; nextError := v; recognition := recognition st;
     isRecording := isRecording st; trace := trace st |}.

Definition set_isRecording (v : bool) (st : State) : State :=
  {| inputValue := inputValue st; inputDisabled := inputDisabled st;
     isWaitingForResponse := isWaitingForResponse st;
     currentConversationId := currentConversationId st;
     chatTitle := chatTitle st; sidebar := sidebar st;
     chatMessages := chatMessages st;
     emptyStateActive := emptyStateActive st;
     feedbackDisabled := feedbackDisabled st;
     statusIndicator := statusIndicator st; pending := pending st;
     timers := timers st; nextError := nextError st;
     recognition := recognition st; isRecording := v; trace := trace st |}.

Definition set_trace (v : list Effect) (st : State) : State :=
  {| inputValue := inputValue st; inputDisabled := inputDisabled st;
     isWaitingForResponse := isWaitingForResponse st;
     currentConversationId := currentConversationId st;
     chatTitle := chatTitle st; sidebar := sidebar st;
     chatMessages := chatMessages st;
     emptyStateActive := emptyStateActive st;
     feedbackDisabled := feedbackDisabled st;
     statusIndicator := statusIndicator st; pending := pending st;
     timers := timers st; nextError := nextError st;
     recognition := recognition st; isRecording := isRecording st;
     trace := v |}.

Definition log (e : Effect) (st : State) : State :=
  set_trace (trace st ++ [e]) st.

Definition setTimeout (a : TimerAction) (ms : nat) (st : State) : State :=
  set_timers (timers st ++ [{| delay := ms; action := a |}]) st.

(** [!currentConversationId]: [null] and the empty string are falsy. *)
Definition idTruthy (id : option string) : bool :=
  match id with Some s => truthy s | None => false end.

(** The identifier interpolated into a template literal. *)
Definition idString (id : option string) : string :=
  match id with Some s => s | None => "null" end.

(** [a || b] on an optional string. *)
Definition orElse (a : option string) (b : string) : string :=
  match a with
  | Some s => if truthy s then s else b
  | None => b
  end.

(* ------------------------------------------------------------------ *)
(** ** chat.js: the handlers *)

Section Handlers.
Variable P : Platform.

Definition updateStatus (msg state : string) (st : State) : State :=
  match statusIndicator st with
  | None => st
  | Some _ =>
      set_statusIndicator
        (Some {| statusState := state; statusMessage := msg |}) st
  end.

(** The element is appended at once; a timer of 5 seconds starts its
    fade-out, and a further half second later it is removed. *)
Definition showError (msg : string) (st : State) : State :=
  let id := nextError st in
  let st := set_nextError (S id) st in
  let st := set_chatMessages (chatMessages st ++ [ErrorNode id msg]) st in
  let st := log (ErrorShown msg) st in
  setTimeout (FadeOutError id) 5000 st.

Definition isAssistant (m : Message) : bool :=
  String.eqb (role m) "assistant".

Definition createMessageElement (now : Z) (m : Message) : MessageElement :=
  {| className := "message " ++ role m;
     avatarClass := if isAssistant m then "assistant" else "user";
     iconClass := if isAssistant m then "fa-robot" else "fa-user";
     contentHTML :=
       if isAssistant m then formatContent (content m) else content m;
     timestampText := formatTimestamp P now (timestamp m) |}.

(** [addMessage(message)]; [None] is a falsy argument. *)
Definition addMessage (now : Z) (msg : option Message) (st : State) : State :=
  match msg with
  | None => st
  | Some m =>
      let st := set_emptyStateActive false st in
      let el := createMessageElement now m in
      let st := set_chatMessages (chatMessages st ++ [MessageNode el]) st in
      log (Rendered el) st
  end.

Definition fetch (req : Request) (st : State) : State :=
  log (Fetched req) (set_pending (pending st ++ [req]) st).

Definition handleSendMessage (now : Z) (st : State) : State :=
  let messageText := trim (inputValue st) in
  if negb (truthy messageText)
     || isWaitingForResponse st
     || negb (idTruthy (currentConversationId st))
  then st
  else
    let st := set_inputDisabled true st in
    let st := set_isWaitingForResponse true st in
    let st := updateStatus "Thinking..." "loading" st in
    let st :=
      addMessage now
        (Some {| role := "user"; content := messageText;
                 timestamp := isoString P now |}) st in
    let st := set_inputValue EmptyString st in
    fetch {| url := "/chat/" ++ idString (currentConversationId st)
                    ++ "/message";
             message := messageText |} st.

(** The write of lines 53 to 58 on the item found: its title is written
    only if the title element exists. *)
Fixpoint retitle (i : nat) (newTitle : string) (items : list SidebarItem)
  {struct items} : list SidebarItem :=
  match items, i with
  | [], _ => []
  | it :: rest, O =>
      match itemTitle it with
      | Some _ => {| dataId := dataId it; itemTitle := Some newTitle |}
      | None => it
      end :: rest
  | it :: rest, S j => it :: retitle j newTitle rest
  end.

(** Lines 52 to 58: [document.querySelector] with the identifier
    interpolated into the selector, then the write.  A selector that the
    engine refuses ends the block with its exception. *)
Definition updateSidebar (id newTitle : string) (items : list SidebarItem)
  : completion (list SidebarItem) :=
  match querySelector P (itemSelector id) (map dataId items) with
  | Throw e => Throw e
  | Normal None => Normal items
  | Normal (Some i) => Normal (retitle i newTitle items)
  end.

Definition isMessageNode (n : Node) : bool :=
  match n with MessageNode _ => true | ErrorNode _ _ => false end.

(** The elements of class [message] a child of the chat list brings: the
    element of [addMessage] itself, and what the parser built from the
    markup assigned to its [innerHTML]. *)
Definition messageElements (n : Node) : nat :=
  (if isMessageNode n then 1 else 0) + messageElementsIn P (markup n).

(** [document.querySelectorAll('.message').length] *)
Definition messageCount (st : State) : nat :=
  list_sum (map messageElements (chatMessages st)) + elsewhere P.

(** The title block of the success branch; [messageText] is the variable
    captured by the handler's closure.  The result is the state the block
    leaves and, if it threw, the message of the exception. *)
Definition updateTitle (messageText : string) (st : State)
  : State * option string :=
  if String.eqb (chatTitle st) "New Conversation" then
    let words := split " "%char messageText in
    if 2 <? length words then
      let newTitle := join " " (slice0 5 words) ++ "..." in
      let st := set_chatTitle newTitle st in
      match updateSidebar (idString (currentConversationId st)) newTitle
              (sidebar st) with
      | Normal items => (set_sidebar items st, None)
      | Throw e => (st, Some e)
      end
    else (st, None)
  else (st, None).

(** [.then(data => ...)]: the state the handler leaves and, if it threw,
    the message of the exception. *)
Definition onData (now : Z) (req : Request) (data : Response) (st : State)
  : State * option string :=
  let st := set_inputDisabled false st in
  let st := set_isWaitingForResponse false st in
  if String.eqb (status data) "success" then
    let st := addMessage now (reply data) st in
    match updateTitle (message req) st with
    | (st, Some e) => (st, Some e)
    | (st, None) =>
        let st :=
          if 4 <=? messageCount st then set_feedbackDisabled false st
          else st in
        (updateStatus "Ready" "ready" st, None)
    end
  else
    let st := showError (orElse (error data) "Failed to send message") st in
    (updateStatus "Error" "error" st, None).

(** [.catch(error => ...)] *)
Definition onError (errorMessage : string) (st : State) : State :=
  let st := set_inputDisabled false st in
  let st := set_isWaitingForResponse false st in
  let st := showError ("Error sending message: " ++ errorMessage) st in
  updateStatus "Error" "error" st.

(** The promise chain of [req] runs: an exception of the [then] handler
    rejects its promise, and the [catch] handler runs on the state the
    handler left. *)
Definition settle (now : Z) (req : Request) (o : Outcome) (st : State)
  : State :=
  let st := log (Settled req o) st in
  match o with
  | Fulfilled data =>
      match onData now req data st with
      | (st, None) => st
      | (st, Some e) => onError e st
      end
  | Rejected e => onError e st
  end.

Definition stopVoiceInput (st : State) : State :=
  if negb (recognition st) || negb (isRecording st) then st
  else
    let st := log RecognitionStop st in
    if truthy (trim (inputValue st)) then setTimeout SubmitForm 300 st
    else st.

Definition toggleVoiceInput (st : State) : State :=
  if negb (recognition st) then st
  else if negb (isRecording st) then log RecognitionStart st
  else stopVoiceInput st.

Definition onRecognitionError (err : string) (st : State) : State :=
  let st :=
    if String.eqb err "not-allowed" then
      showError
        "Microphone access denied. Please check your browser permissions." st
    else showError ("Voice recognition error: " ++ err) st in
  set_isRecording false st.

Definition isErrorNode (id : nat) (n : Node) : bool :=
  match n with MessageNode _ => false | ErrorNode i _ => i =? id end.

Definition runTimer (now : Z) (a : TimerAction) (st : State) : State :=
  match a with
  | SubmitForm => handleSendMessage now st
  | FadeOutError id => setTimeout (RemoveError id) 500 st
  | RemoveError id =>
      set_chatMessages
        (filter (fun n => negb (isErrorNode id n)) (chatMessages st)) st
  end.

(** *** The event loop *)

Inductive Event : Type :=
| SubmitEvent                          (* [submit] on the form *)
| InputEvent (text : string)           (* the user edits the field *)
| SettleEvent (i : nat) (o : Outcome)  (* the [i]-th pending request settles *)
| TimerEvent (i : nat)                 (* the [i]-th timer fires *)
| VoiceClick                           (* click on the voice button *)
| StopVoiceClick                       (* click on the stop button *)
| RecognitionOnStart
| RecognitionOnEnd
| RecognitionOnResult (transcript : string)
| RecognitionOnError (err : string).

Fixpoint removeAt {A} (i : nat) (l : list A) : list A :=
  match l, i with
  | [], _ => []
  | _ :: r, O => r
  | x :: r, S j => x :: removeAt j r
  end.

(** One turn of the event loop, at time [now]. *)
Definition step (now : Z) (e : Event) (st : State) : State :=
  match e with
  | SubmitEvent => handleSendMessage now st
  | InputEvent text =>
      if inputDisabled st then st else set_inputValue text st
  | SettleEvent i o =>
      match nth_error (pending st) i with
      | Some req => settle now req o (set_pending (removeAt i (pending st)) st)
      | None => st
      end
  | TimerEvent i =>
      match nth_error (timers st) i with
      | Some t =>
          runTimer now (action t) (set_timers (removeAt i (timers st)) st)
      | None => st
      end
  | VoiceClick => toggleVoiceInput st
  | StopVoiceClick => stopVoiceInput st
  | RecognitionOnStart => set_isRecording true st
  | RecognitionOnEnd => set_isRecording false st
  | RecognitionOnResult transcript => set_inputValue transcript st
  | RecognitionOnError err => onRecognitionError err st
  end.

Fixpoint run (evs : list (Z * Event)) (st : State) : State :=
  match evs with
  | [] => st
  | (now, e) :: rest => run rest (step now e st)
  end.

(** Names for the two values [handleSendMessage] builds from a state: the
    message record of the user's entry and the request. *)
Definition userMessage (now : Z) (st : State) : Message :=
  {| role := "user"; content := trim (inputValue st);
     timestamp := isoString P now |}.

Definition requestOf (st : State) : Request :=
  {| url := "/chat/" ++ idString (currentConversationId st) ++ "/message";
     message := trim (inputValue st) |}.

End Handlers.

(** The page as loaded: the input enabled and nothing in flight. *)
Definition quiet (st : State) : Prop :=
  inputDisabled st = false /\ isWaitingForResponse st = false
  /\ pending st = [].

(** *** Reference notions the specification speaks of *)

(** Whitespace-separated tokens of a text: maximal runs of characters that
    are not whitespace. *)
Fixpoint tokensFrom (cur : string) (s : string) : list string :=
  match s with
  | EmptyString => if isEmpty cur then [] else [cur]
  | String c r =>
      if isWhiteSpace c then
        if isEmpty cur then tokensFrom EmptyString r
        else cur :: tokensFrom EmptyString r
      else tokensFrom (cur ++ String c EmptyString) r
  end.

Definition tokens (s : string) : list string := tokensFrom EmptyString s.

(** A text whose words are separated by single spaces and that holds no
    other whitespace; [word] tells whether a word is in progress. *)
Fixpoint spaced (word : bool) (s : string) : bool :=
  match s with
  | EmptyString => word
  | String c r =>
      if Ascii.eqb c " "%char then word && spaced false r
      else if isWhiteSpace c then false
      else spaced true r
  end.

Definition singleSpaced (s : string) : bool := spaced false s.

(** The markup that shows a text literally when assigned to [innerHTML]:
    the characters that start a tag or a character reference are
    escaped. *)
Fixpoint escapeHtml (s : string) : string :=
  match s with
  | EmptyString => EmptyString
  | String c r =>
      (if Ascii.eqb c "<"%char then "&lt;"
       else if Ascii.eqb c "&"%char then "&amp;"
       else String c EmptyString) ++ escapeHtml r
  end.

(** The lookup of line 52 in a state: what [document.querySelector]
    answers for the selector of the current conversation. *)
Definition itemLookup (P : Platform) (st : State)
  : completion (option nat) :=
  querySelector P (itemSelector (idString (currentConversationId st)))
    (map dataId (sidebar st)).

(** The title derived from a message text: its first five pieces, joined
    by single spaces, and three dots. *)
Definition derivedTitle (messageText : string) : string :=
  join " " (slice0 5 (split " "%char messageText)) ++ "...".

(** A successful reply to [messageText] derives a title in [st]: the title
    is still the default one and the text has more than two pieces. *)
Definition derivesTitle (messageText : string) (st : State) : bool :=
  String.eqb (chatTitle st) "New Conversation"
  && (2 <? length (split " "%char messageText)).

(** The exception that ends the success handler of a reply to
    [messageText] early, if there is one: a title is derived and the
    selector engine refuses the selector of the sidebar lookup. *)
Definition refusal (P : Platform) (messageText : string) (st : State)
  : option string :=
  if derivesTitle messageText st then
    match itemLookup P st with
    | Throw e => Some e
    | Normal _ => None
    end
  else None.

(** The position of the first of [ids] equal to [id]: the item a selector
    names when its string denotes [id] itself. *)
Fixpoint indexOf (id : string) (ids : list string) : option nat :=
  match ids with
  | [] => None
  | x :: rest =>
      if String.eqb x id then Some 0 else option_map S (indexOf id rest)
  end.

(** A text made of whitespace only. *)
Definition allWhite (s : string) : bool :=
  negb (testClass (fun c => negb (isWhiteSpace c)) s).

(** The characters that [escapeHtml] rewrites. *)
Definition htmlSpecial (c : ascii) : bool :=
  Ascii.eqb c "<"%char || Ascii.eqb c "&"%char.

(** A failed submission: a response whose status is not ["success"], or a
    rejected promise. *)
Definition failed (o : Outcome) : Prop :=
  match o with
  | Fulfilled data => status data <> "success"
  | Rejected _ => True
  end.

(** *** The order of the effects of sends

    A checker for traces: every send is the rendering of the user's entry,
    then the request, then the settlement of that request, then the
    rendering of the reply if the settlement carries one; the next send
    starts only after that.  Error elements and recognizer calls may fall
    anywhere. *)
Inductive Phase : Type :=
| Idle
| Echoed (el : MessageElement)
| InFlight (req : Request)
| AwaitReply.

Definition rendersReply (o : Outcome) : bool :=
  match o with
  | Fulfilled data =>
      String.eqb (status data) "success"
      && match reply data with Some _ => true | None => false end
  | Rejected _ => false
  end.

Definition requestEqb (a b : Request) : bool :=
  String.eqb (url a) (url b) && String.eqb (message a) (message b).

Definition phaseStep (ph : Phase) (e : Effect) : option Phase :=
  match e with
  | Rendered el =>
      match ph with
      | Idle => Some (Echoed el)
      | AwaitReply => Some Idle
      | _ => None
      end
  | Fetched req =>
      match ph with
      | Echoed el =>
          if String.eqb (className el) "message user"
             && String.eqb (contentHTML el) (message req)
          then Some (InFlight req) else None
      | _ => None
      end
  | Settled req o =>
      match ph with
      | InFlight req' =>
          if requestEqb req req'
          then Some (if rendersReply o then AwaitReply else Idle)
          else None
      | _ => None
      end
  | ErrorShown _ | RecognitionStart | RecognitionStop => Some ph
  end.

Fixpoint phaseAfter (ph : Phase) (tr : list Effect) : option Phase :=
  match tr with
  | [] => Some ph
  | e :: rest =>
      match phaseStep ph e with
      | Some ph' => phaseAfter ph' rest
      | None => None
      end
  end.

Definition serial (tr : list Effect) : bool :=
  match phaseAfter Idle tr with Some _ => true | None => false end.

(** The script's flags agree with the phase of the trace. *)
Definition sync (ph : Phase) (st : State) : Prop :=
  match ph with
  | Idle =>
      pending st = [] /\ isWaitingForResponse st = false
      /\ inputDisabled st = false
  | InFlight req =>
      pending st = [req] /\ isWaitingForResponse st = true
      /\ inputDisabled st = true
  | Echoed _ | AwaitReply => False
  end.

(** [st] was reached from a quiet page whose trace was [tr0]. *)
Definition tracked (tr0 : list Effect) (st : State) : Prop :=
  exists tr ph,
    trace st = (tr0 ++ tr)%list /\ phaseAfter Idle tr = Some ph /\ sync ph st.

(** At most one request is outstanding, and the input is disabled, and the
    flag set, exactly then. *)
Definition oneInFlight (st : State) : Prop :=
  length (pending st) <= 1
  /\ (inputDisabled st = true <-> pending st <> [])
  /\ isWaitingForResponse st = inputDisabled st.

(** The example text of the specification: a header line, two bullet
    lines, an empty line and the word End. *)
Definition example : string :=
  "### Title" ++ LF ++ "- a" ++ LF ++ "- b" ++ LF ++ LF ++ "End".

(** A sample platform and page for concrete runs.  The sample clock shows
    hours and minutes of the UTC day, and the only date string it
    recognises is the start of the year 2024. *)
Definition twoDigits (n : Z) : string :=
  let digit (d : Z) := String (ascii_of_nat (48 + Z.to_nat d)) EmptyString in
  digit ((n / 10) mod 10)%Z ++ digit (n mod 10)%Z.

Definition newYear2024 : Z := 1704067200000%Z.

(** The sample selector engine takes a selector apart only when it is the
    one of the sidebar lookup for an identifier without double quote,
    backslash and control character; it then finds the first item with
    this [data-id].  Every other selector it refuses. *)
Definition selectorSafe (id : string) : bool :=
  negb (testClass
          (fun c => (code c <? 32) || (code c =? 34) || Ascii.eqb c "\"%char)
          id).

Definition sampleEngine (sel : string) (ids : list string)
  : completion (option nat) :=
  let refused :=
    Throw ("Failed to execute 'querySelector' on 'Document': '" ++ sel
           ++ "' is not a valid selector.") in
  match dropPrefix (".conversation-item[data-id=" ++ doubleQuote) sel with
  | Some rest =>
      let id := substring 0 (String.length rest - 2) rest in
      if selectorSafe id && String.eqb rest (id ++ doubleQuote ++ "]")
      then Normal (indexOf id ids)
      else refused
  | None => refused
  end.

(** The sample markup is taken to hold no element of class [message], and
    the sample page none outside the chat list. *)
Definition samplePlatform : Platform :=
  {| dateParse := fun s =>
       if String.eqb s "2024-01-01T00:00:00.000Z" then Some newYear2024
       else None;
     localeTime := fun t =>
       twoDigits ((t / 3600000) mod 24)%Z ++ ":"
       ++ twoDigits ((t / 60000) mod 60)%Z;
     isoString := fun _ => "2024-01-01T00:00:00.000Z";
     querySelector := sampleEngine;
     messageElementsIn := fun _ => 0;
     elsewhere := 0 |}.

Definition samplePage : State :=
  {| inputValue := EmptyString; inputDisabled := false;
     isWaitingForResponse := false;
     currentConversationId := Some "42";
     chatTitle := "New Conversation";
     sidebar := [{| dataId := "42"; itemTitle := Some "New Conversation" |}];
     chatMessages := []; emptyStateActive := true;
     feedbackDisabled := true;
     statusIndicator := Some {| statusState := "ready";
                                statusMessage := "Ready" |};
     pending := []; timers := []; nextError := 0;
     recognition := true; isRecording := false; trace := [] |}.

(** The sample page for a conversation whose identifier holds a double
    quote. *)
Definition quotedId : string := "a" ++ doubleQuote ++ "b".

Definition pageWithQuotedId : State :=
  {| inputValue := EmptyString; inputDisabled := false;
     isWaitingForResponse := false;
     currentConversationId := Some quotedId;
     chatTitle := "New Conversation";
     sidebar := [{| dataId := quotedId;
                    itemTitle := Some "New Conversation" |}];
     chatMessages := []; emptyStateActive := true;
     feedbackDisabled := true;
     statusIndicator := Some {| statusState := "ready";
                                statusMessage := "Ready" |};
     pending := []; timers := []; nextError := 0;
     recognition := true; isRecording := false; trace := [] |}.

(** The sample page before any conversation is selected, with text typed
    into the field. *)
Definition pageWithoutConversation : State :=
  {| inputValue := "hi"; inputDisabled := false;
     isWaitingForResponse := false;
     currentConversationId := None;
     chatTitle := "New Conversation";
     sidebar := []; chatMessages := []; emptyStateActive := true;
     feedbackDisabled := true;
     statusIndicator := Some {| statusState := "ready";
                                statusMessage := "Ready" |};
     pending := []; timers := []; nextError := 0;
     recognition := true; isRecording := false; trace := [] |}.


(** *** Reference notions for the renderer *)

Definition isLineFeed (c : ascii) : bool := Ascii.eqb c (ascii_of_nat 10).

(** Every line feed of a text replaced by the markup of a line break. *)
Fixpoint lineBreaks (s : string) : string :=
  match s with
  | EmptyString => EmptyString
  | String c r =>
      (if isLineFeed c then "<br>" else String c EmptyString)
      ++ lineBreaks r
  end.

(** The characters that can start one of the renderer's patterns. *)
Definition markupStart (c : ascii) : bool :=
  Ascii.eqb c "#"%char || Ascii.eqb c "-"%char || Ascii.eqb c "<"%char.

(** A text with none of them and no line terminator. *)
Definition plain (s : string) : bool :=
  negb (testClass markupStart s) && negb (testClass isLineTerminator s).

(** Bullet lines, one per item, separated by line feeds. *)
Definition bulletLines (items : list string) : string :=
  join LF (map (fun x => "- " ++ x) items).

Definition listItem (x : string) : string := "<li>" ++ x ++ "</li>".

(** The characters an item text must not hold for the list steps to see it
    as one item: [#], [<] and the line terminators. *)
Definition notInItem (c : ascii) : bool :=
  Ascii.eqb c "#"%char || Ascii.eqb c "<"%char || isLineTerminator c.

Definition itemText (x : string) : bool := negb (testClass notInItem x).

(** A list item wrapped into a list of its own, before the merge. *)
Definition ulItem (x : string) : string := "<ul>" ++ listItem x ++ "</ul>".

(** Every error element of the list carries a number below the next one
    to be given. *)
Definition freshErrors (st : State) : Prop :=
  forall id html, In (ErrorNode id html) (chatMessages st) ->
                  id < nextError st.


(** A reply of the server, and the sample page after one answered
    exchange and a second message: three entries in the list and one
    request in flight. *)
Definition sampleReply : Response :=
  {| status := "success";
     reply := Some {| role := "assistant"; content := "Tell me more.";
                      timestamp := "2024-01-01T00:00:00.000Z" |};
     error := None |}.

Definition secondTurn : State :=
  run samplePlatform
    [(newYear2024, InputEvent "what does it cost");
     (newYear2024, SubmitEvent);
     (newYear2024, SettleEvent 0 (Fulfilled sampleReply));
     (newYear2024, InputEvent "and per seat");
     (newYear2024, SubmitEvent)] samplePage.
End Chat.

(* ------------------------------------------------------------------ *)
(** ** chat.js: the feedback request, the modal and the download *)

Module Feedback.
Import JS Chat.

(** The parsed response of the feedback endpoint. *)
Record FeedbackResponse := {
  fstatus : string;
  feedback : option string;          (* [data.feedback] *)
  ferror : option string             (* [data.error] *)
}.

Inductive FeedbackOutcome : Type :=
| FeedbackFulfilled (data : FeedbackResponse)
| FeedbackRejected (errorMessage : string).

(** A download in progress: the object URL made for the blob and the
    anchor appended to the body. *)
Record Download := {
  objectUrl : nat;
  fileName : string;                 (* [a.download] *)
  fileText : string                  (* the text of the blob *)
}.

(** The chat page with its modal.  [chat] holds what the chat handlers use;
    the feedback button, the status indicator and the error elements are
    there. *)
Record Page := {
  chat : State;
  modalPresent : bool;               (* [feedbackModal] exists *)
  contentPresent : bool;             (* [feedbackContent] exists *)
  modalActive : bool;                (* class [active] of the modal *)
  bodyModalOpen : bool;              (* class [modal-open] of the body *)
  feedbackHTML : string;             (* [feedbackContent.innerHTML] *)
  feedbackPending : list string;     (* URLs of the unsettled requests *)
  liveUrls : list nat;               (* object URLs not yet revoked *)
  anchors : list Download;           (* anchors appended to the body *)
  cleanups : list Download;          (* the 100 ms timers not yet run *)
  saved : list Download;             (* [a.click()] calls *)
  nextUrl : nat
}.

Definition set_chat (v : State) (p : Page) : Page :=
  {| chat := v; modalPresent := modalPresent p;
     contentPresent := contentPresent p; modalActive := modalActive p;
     bodyModalOpen := bodyModalOpen p; feedbackHTML := feedbackHTML p;
     feedbackPending := feedbackPending p; liveUrls := liveUrls p;
     anchors := anchors p; cleanups := cleanups p; saved := saved p;
     nextUrl := nextUrl p |}.

Definition set_feedbackPending (v : list string) (p : Page) : Page :=
  {| chat := chat p; modalPresent := modalPresent p;
     contentPresent := contentPresent p; modalActive := modalActive p;
     bodyModalOpen := bodyModalOpen p; feedbackHTML := feedbackHTML p;
     feedbackPending := v; liveUrls := liveUrls p;
     anchors := anchors p; cleanups := cleanups p; saved := saved p;
     nextUrl := nextUrl p |}.

(** The modal's three fields at once. *)
Definition set_modal (active open : bool) (html : string) (p : Page) : Page :=
  {| chat := chat p; modalPresent := modalPresent p;
     contentPresent := contentPresent p; modalActive := active;
     bodyModalOpen := open; feedbackHTML := html;
     feedbackPending := feedbackPending p; liveUrls := liveUrls p;
     anchors := anchors p; cleanups := cleanups p; saved := saved p;
     nextUrl := nextUrl p |}.

(** The download's five fields at once. *)
Definition set_downloads (urls : list nat) (as_ cs sv : list Download)
    (next : nat) (p : Page) : Page :=
  {| chat := chat p; modalPresent := modalPresent p;
     contentPresent := contentPresent p; modalActive := modalActive p;
     bodyModalOpen := bodyModalOpen p; feedbackHTML := feedbackHTML p;
     feedbackPending := feedbackPending p; liveUrls := urls;
     anchors := as_; cleanups := cs; saved := sv; nextUrl := next |}.

(** The chain of replacements of [showFeedbackModal]: the line breaks come
    before the list wrapping here. *)
Definition formatFeedback (s : string) : string :=
  wrapLists (convertLineBreaks (convertBullets (convertHeaders s))).

Section Handlers.
Variable P : Platform.
(** The message of the [TypeError] raised by [feedback.replace] when the
    response carries no text, and the text of an HTML fragment
    ([innerText || textContent]): both belong to the browser. *)
Variable typeErrorMessage : string.
Variable plainTextOf : string -> string.

Definition showFeedbackModal (text : option string) (p : Page)
  : completion Page :=
  if negb (modalPresent p) || negb (contentPresent p) then Normal p
  else match text with
       | None => Throw typeErrorMessage
       | Some s => Normal (set_modal true true (formatFeedback s) p)
       end.

Definition closeFeedbackModal (p : Page) : Page :=
  if negb (modalPresent p) then p
  else set_modal false false (feedbackHTML p) p.

(** The click listener of the document; the two flags tell whether the
    target lies inside [.modal-content] and inside [#feedbackBtn]. *)
Definition documentClick (inContent inButton : bool) (p : Page) : Page :=
  if modalPresent p && modalActive p && negb inContent && negb inButton
  then closeFeedbackModal p else p.

Definition requestFeedback (p : Page) : Page :=
  if negb (idTruthy (currentConversationId (chat p)))
     || feedbackDisabled (chat p)
  then p
  else
    let c := updateStatus "Generating feedback..." "loading" (chat p) in
    let c := set_feedbackDisabled true c in
    set_feedbackPending
      (feedbackPending p
       ++ ["/chat/" ++ idString (currentConversationId (chat p))
           ++ "/feedback"]) (set_chat c p).

(** [.catch(error => ...)] *)
Definition onFeedbackError (errorMessage : string) (p : Page) : Page :=
  let c := set_feedbackDisabled false (chat p) in
  let c := showError ("Error generating feedback: " ++ errorMessage) c in
  set_chat (updateStatus "Error" "error" c) p.

(** [.then(data => ...)]; an exception of the handler goes to [catch]. *)
Definition onFeedbackData (data : FeedbackResponse) (p : Page) : Page :=
  let p := set_chat (set_feedbackDisabled false (chat p)) p in
  if String.eqb (fstatus data) "success" then
    match showFeedbackModal (feedback data) p with
    | Normal p => set_chat (updateStatus "Ready" "ready" (chat p)) p
    | Throw e => onFeedbackError e p
    end
  else
    let c :=
      showError (orElse (ferror data) "Failed to generate feedback")
        (chat p) in
    set_chat (updateStatus "Error" "error" c) p.

Definition settleFeedback (o : FeedbackOutcome) (p : Page) : Page :=
  match o with
  | FeedbackFulfilled data => onFeedbackData data p
  | FeedbackRejected e => onFeedbackError e p
  end.

(** [downloadFeedback] up to its timer. *)
Definition downloadFeedback (now : Z) (p : Page) : Page :=
  if negb (contentPresent p) then p
  else
    let d := {| objectUrl := nextUrl p;
                fileName := "sales-feedback-"
                            ++ substring 0 10 (isoString P now) ++ ".txt";
                fileText := plainTextOf (feedbackHTML p) |} in
    set_downloads (liveUrls p ++ [nextUrl p]) (anchors p ++ [d])
      (cleanups p ++ [d]) (saved p ++ [d]) (S (nextUrl p)) p.

Definition sameDownload (d e : Download) : bool :=
  objectUrl d =? objectUrl e.

(** The timer of a download: the anchor is removed and the URL revoked. *)
Definition cleanup (d : Download) (p : Page) : Page :=
  set_downloads
    (filter (fun u => negb (u =? objectUrl d)) (liveUrls p))
    (filter (fun a => negb (sameDownload a d)) (anchors p))
    (cleanups p) (saved p) (nextUrl p) p.

Inductive PageEvent : Type :=
| ChatEvent (e : Event)                 (* an event of the chat part *)
| FeedbackClick                         (* click on [feedbackBtn] *)
| FeedbackSettle (i : nat) (o : FeedbackOutcome)
| CloseClick                            (* either close control *)
| DocumentClick (inContent inButton : bool)
| DownloadClick
| CleanupTimer (i : nat).

(** The platform as the chat handlers meet it on the page: the content of
    the modal lies outside the chat list. *)
Definition around (p : Page) : Platform :=
  {| dateParse := dateParse P; localeTime := localeTime P;
     isoString := isoString P; querySelector := querySelector P;
     messageElementsIn := messageElementsIn P;
     elsewhere := elsewhere P + messageElementsIn P (feedbackHTML p) |}.

Definition pageStep (now : Z) (e : PageEvent) (p : Page) : Page :=
  match e with
  | ChatEvent e => set_chat (step (around p) now e (chat p)) p
  | FeedbackClick => requestFeedback p
  | FeedbackSettle i o =>
      match nth_error (feedbackPending p) i with
      | Some _ =>
          settleFeedback o
            (set_feedbackPending (removeAt i (feedbackPending p)) p)
      | None => p
      end
  | CloseClick => closeFeedbackModal p
  | DocumentClick inContent inButton => documentClick inContent inButton p
  | DownloadClick => downloadFeedback now p
  | CleanupTimer i =>
      match nth_error (cleanups p) i with
      | Some d =>
          cleanup d
            (set_downloads (liveUrls p) (anchors p)
               (removeAt i (cleanups p)) (saved p) (nextUrl p) p)
      | None => p
      end
  end.

Fixpoint pageRun (evs : list (Z * PageEvent)) (p : Page) : Page :=
  match evs with
  | [] => p
  | (now, e) :: rest => pageRun rest (pageStep now e p)
  end.

End Handlers.

(** Every live object URL is below the next one to be given. *)
Definition freshUrls (p : Page) : Prop :=
  (forall u, In u (liveUrls p) -> u < nextUrl p)
  /\ (forall d, In d (anchors p) -> objectUrl d < nextUrl p).

(** The chat page as served, with the modal and its content element, and
    the same page in the middle of the second exchange. *)
Definition servedPage : Page :=
  {| chat := samplePage; modalPresent := true; contentPresent := true;
     modalActive := false; bodyModalOpen := false;
     feedbackHTML := EmptyString; feedbackPending := []; liveUrls := [];
     anchors := []; cleanups := []; saved := []; nextUrl := 0 |}.

Definition busyPage : Page := set_chat secondTurn servedPage.

End Feedback.

(* ------------------------------------------------------------------ *)
(** ** signup.html: the form and the password toggle *)

Module SignupForm.
Import JS Chat Signup.

Record Form := {
  formName : string;
  formEmail : string;
  formPassword : string;
  formConfirm : string;
  formAgree : bool                   (* [agreeCheckbox.checked] *)
}.

(** The four checks of the submit handler, in their order: the message of
    the first that fails. *)
Definition validate (f : Form) : option string :=
  if negb (truthy (formName f)) || negb (truthy (formEmail f))
     || negb (truthy (formPassword f)) || negb (truthy (formConfirm f))
  then Some "Please fill out all fields"
  else if negb (String.eqb (formPassword f) (formConfirm f))
  then Some "Passwords do not match"
  else if String.length (formPassword f) <? 8
  then Some "Password must be at least 8 characters long"
  else if negb (formAgree f)
  then Some "You must agree to the Terms of Service and Privacy Policy"
  else None.

(** The body of the registration request and the label of the button the
    handler has kept in [originalText]. *)
Record Registration := {
  regName : string;
  regEmail : string;
  regPassword : string;
  originalText : string
}.

(** How the awaited exchange ends: a response with its [ok] flag and the
    [redirect] and [error] fields of its body, or an exception of [fetch]
    or [response.json()]. *)
Inductive RegisterOutcome : Type :=
| Responded (ok : bool) (redirect : option string) (error : option string)
| Interrupted.

Record Page := {
  errorElement : bool;               (* [signupError] exists *)
  errorShown : option string;        (* its text once displayed *)
  submitDisabled : bool;
  submitLabel : string;              (* [submitButton.innerHTML] *)
  location : option string;          (* [window.location.href] once set *)
  registrations : list Registration; (* requests not yet answered *)
  passwordType : string;             (* [type] of the password field *)
  confirmType : string;              (* [type] of the confirmation field *)
  iconEye : bool;                    (* class [fa-eye] of the toggle icon *)
  iconEyeSlash : bool                (* class [fa-eye-slash] *)
}.

Definition quote : string := String (ascii_of_nat 34) EmptyString.

(** The label shown while the request is under way. *)
Definition spinnerLabel : string :=
  "<i class=" ++ quote ++ "fas fa-spinner fa-spin" ++ quote
  ++ "></i> Creating account...".

(** [showError] of the signup page; the shake animation is left out. *)
Definition showError (msg : string) (p : Page) : Page :=
  if errorElement p then
    {| errorElement := true; errorShown := Some msg;
       submitDisabled := submitDisabled p; submitLabel := submitLabel p;
       location := location p; registrations := registrations p;
       passwordType := passwordType p; confirmType := confirmType p;
       iconEye := iconEye p; iconEyeSlash := iconEyeSlash p |}
  else p.

Definition setButton (disabled : bool) (label : string) (p : Page) : Page :=
  {| errorElement := errorElement p; errorShown := errorShown p;
     submitDisabled := disabled; submitLabel := label;
     location := location p; registrations := registrations p;
     passwordType := passwordType p; confirmType := confirmType p;
     iconEye := iconEye p; iconEyeSlash := iconEyeSlash p |}.

Definition setRegistrations (v : list Registration) (p : Page) : Page :=
  {| errorElement := errorElement p; errorShown := errorShown p;
     submitDisabled := submitDisabled p; submitLabel := submitLabel p;
     location := location p; registrations := v;
     passwordType := passwordType p; confirmType := confirmType p;
     iconEye := iconEye p; iconEyeSlash := iconEyeSlash p |}.

Definition navigate (href : string) (p : Page) : Page :=
  {| errorElement := errorElement p; errorShown := errorShown p;
     submitDisabled := submitDisabled p; submitLabel := submitLabel p;
     location := Some href; registrations := registrations p;
     passwordType := passwordType p; confirmType := confirmType p;
     iconEye := iconEye p; iconEyeSlash := iconEyeSlash p |}.

(** The submit handler up to its first [await]. *)
Definition submit (f : Form) (p : Page) : Page :=
  match validate f with
  | Some msg => showError msg p
  | None =>
      let r := {| regName := formName f; regEmail := formEmail f;
                  regPassword := formPassword f;
                  originalText := submitLabel p |} in
      setRegistrations (registrations p ++ [r])
        (setButton true spinnerLabel p)
  end.

(** The rest of the handler, once the exchange of [r] has ended. *)
Definition complete (r : Registration) (o : RegisterOutcome) (p : Page)
  : Page :=
  match o with
  | Responded ok redirect error =>
      let p := setButton false (originalText r) p in
      if ok then navigate (orElse redirect "/dashboard") p
      else showError
             (orElse error "Account creation failed. Please try again.") p
  | Interrupted =>
      let p := showError "A network error occurred. Please try again." p in
      setButton false "Create Account" p
  end.

(** The click listener of the password toggle. *)
Definition togglePassword (p : Page) : Page :=
  let type :=
    if String.eqb (passwordType p) "password" then "text" else "password" in
  {| errorElement := errorElement p; errorShown := errorShown p;
     submitDisabled := submitDisabled p; submitLabel := submitLabel p;
     location := location p; registrations := registrations p;
     passwordType := type; confirmType := type;
     iconEye := negb (iconEye p); iconEyeSlash := negb (iconEyeSlash p) |}.

(** The fields and the icon agree: passwords hidden under the open eye,
    or shown under the struck eye. *)
Definition hidden (p : Page) : Prop :=
  passwordType p = "password" /\ confirmType p = "password"
  /\ iconEye p = true /\ iconEyeSlash p = false.

Definition shown (p : Page) : Prop :=
  passwordType p = "text" /\ confirmType p = "text"
  /\ iconEye p = false /\ iconEyeSlash p = true.

(** The three meter segments of the page for a score. *)
Definition meterOf (s : nat) : list (option string) :=
  if 5 <=? s then [Some "strong"; Some "strong"; Some "strong"]
  else if 3 <=? s then [Some "medium"; Some "medium"; None]
  else if 1 <=? s then [Some "weak"; None; None]
  else [None; None; None].

(** The page as served. *)
Definition servedPage : Page :=
  {| errorElement := true; errorShown := None; submitDisabled := false;
     submitLabel := "Create Account"; location := None;
     registrations := []; passwordType := "password";
     confirmType := "password"; iconEye := true; iconEyeSlash := false |}.

Definition filledForm : Form :=
  {| formName := "Ada"; formEmail := "ada@example.com";
     formPassword := "Tr0ub4dor&3x"; formConfirm := "Tr0ub4dor&3x";
     formAgree := true |}.

End SignupForm.

(* ------------------------------------------------------------------ *)
(** ** landing.html: the testimonial carousel *)

Module Landing.

(** For each testimonial and each dot, whether it carries the class
    [active]; and the script's [currentIndex]. *)
Record Carousel := {
  testimonials : list bool;
  dots : list bool;
  currentIndex : Z
}.

(** [list[index]] is an element. *)
Definition defined {A} (index : Z) (l : list A) : bool :=
  (0 <=? index)%Z && (index <? Z.of_nat (length l))%Z.

Definition deactivate (l : list bool) : list bool := map (fun _ => false) l.

Fixpoint activate (i : nat) (l : list bool) : list bool :=
  match l, i with
  | [], _ => []
  | _ :: r, O => true :: r
  | b :: r, S j => b :: activate j r
  end.

(** [showTestimonial(index)].  Where [testimonials[index]] or [dots[index]]
    is undefined the function throws, and what it did before stays. *)
Definition showTestimonial (index : Z) (c : Carousel) : Carousel :=
  let ts := deactivate (testimonials c) in
  if negb (defined index ts) then
    {| testimonials := ts; dots := dots c; currentIndex := currentIndex c |}
  else
    let ts := activate (Z.to_nat index) ts in
    let ds := deactivate (dots c) in
    if negb (defined index ds) then
      {| testimonials := ts; dots := ds; currentIndex := currentIndex c |}
    else
      {| testimonials := ts; dots := activate (Z.to_nat index) ds;
         currentIndex := index |}.

Definition count (c : Carousel) : Z := Z.of_nat (length (testimonials c)).

(** The listener of the previous button. *)
Definition previous (c : Carousel) : Carousel :=
  let newIndex := (currentIndex c - 1)%Z in
  let newIndex := if (newIndex <? 0)%Z then (count c - 1)%Z else newIndex in
  showTestimonial newIndex c.

(** The listener of the next button, and the callback of the interval. *)
Definition next (c : Carousel) : Carousel :=
  let newIndex := (currentIndex c + 1)%Z in
  let newIndex := if (newIndex >=? count c)%Z then 0%Z else newIndex in
  showTestimonial newIndex c.

Inductive Click : Type :=
| Previous
| Next
| Dot (index : nat)                 (* the listener of [dots[index]] *)
| Tick.                             (* the interval fires *)

Definition handle (e : Click) (c : Carousel) : Carousel :=
  match e with
  | Previous => previous c
  | Next => next c
  | Dot index =>
      if index <? length (dots c) then showTestimonial (Z.of_nat index) c
      else c
  | Tick => next c
  end.

(** A list of [n] flags with the one at [i] set. *)
Definition only (i : Z) (n : nat) : list bool :=
  map (fun j => Z.eqb (Z.of_nat j) i) (seq 0 n).

(** [n] testimonials and [n] dots, the ones at [i] active, [i] current. *)
Definition showing (n : nat) (i : Z) : Carousel :=
  {| testimonials := only i n; dots := only i n; currentIndex := i |}.

End Landing.

Import JS Chat.

(* ------------------------------------------------------------------ *)
(** * Properties *)

(** ** Strings *)

Section StringFacts.

Lemma isEmpty_true (s : string) : isEmpty s = true <-> s = EmptyString.
Proof. destruct s; simpl; split; intros H; congruence. Qed.

Lemma truthy_false (s : string) : truthy s = false <-> s = EmptyString.
Proof.
  unfold truthy. rewrite negb_false_iff. apply isEmpty_true.
Qed.

Lemma trimStart_allWhite (s : string) :
  allWhite s = true -> trimStart s = EmptyString.
Proof.
  unfold allWhite. induction s as [|c r IH]; simpl; intros H; [reflexivity|].
  rewrite negb_true_iff, orb_false_iff, negb_false_iff in H.
  destruct H as [Hc Hr]. rewrite Hc. apply IH. now rewrite Hr.
Qed.

Lemma trim_allWhite (s : string) : allWhite s = true -> trim s = EmptyString.
Proof.
  intros H. unfold trim. now rewrite trimStart_allWhite.
Qed.

Lemma consumed_refl (s : string) : consumed s s = EmptyString.
Proof.
  unfold consumed. rewrite Nat.sub_diag. now destruct s.
Qed.

Lemma lazyDot_now {R} (s : string) (k : string -> option R) (x : R) :
  k s = Some x -> lazyDot s k = Some x.
Proof. intros H. destruct s; simpl; now rewrite H. Qed.

Lemma split_cons (sep : ascii) (s : string) :
  exists w ws, split sep s = w :: ws.
Proof.
  induction s as [|c r [w [ws IH]]]; cbn; [now eexists; eexists|].
  destruct (Ascii.eqb c sep); [now eexists; eexists|].
  rewrite IH. now eexists; eexists.
Qed.

Lemma append_empty_r (s : string) : (s ++ EmptyString)%string = s.
Proof. induction s as [|c r IH]; cbn; [reflexivity|now rewrite IH]. Qed.

Lemma append_snoc_assoc (s t : string) (c : ascii) :
  ((s ++ String c EmptyString) ++ t)%string = (s ++ String c t)%string.
Proof. induction s as [|d r IH]; cbn; [reflexivity|now rewrite IH]. Qed.

Lemma isEmpty_snoc (s : string) (c : ascii) :
  isEmpty (s ++ String c EmptyString) = false.
Proof. now destruct s. Qed.

(** On a text with single spaces only the two ways of cutting agree. *)
Lemma tokensFrom_split (s cur : string) :
  spaced (negb (isEmpty cur)) s = true ->
  tokensFrom cur s
  = match split " "%char s with
    | w :: ws => (cur ++ w)%string :: ws
    | [] => []
    end.
Proof.
  revert cur. induction s as [|c r IH]; intros cur H; cbn in H |- *.
  - apply negb_true_iff in H. rewrite H. now rewrite append_empty_r.
  - destruct (Ascii.eqb c " "%char) eqn:Ec.
    + apply Ascii.eqb_eq in Ec. subst c. cbn [isWhiteSpace].
      apply andb_true_iff in H. destruct H as [Hw Hr].
      apply negb_true_iff in Hw.
      replace (isWhiteSpace " "%char) with true by reflexivity.
      rewrite Hw, append_empty_r.
      rewrite (IH EmptyString Hr).
      destruct (split_cons " "%char r) as [w [ws E]]. now rewrite E.
    + destruct (isWhiteSpace c); [discriminate|].
      rewrite (IH (cur ++ String c EmptyString)%string)
        by now rewrite isEmpty_snoc.
      destruct (split_cons " "%char r) as [w [ws E]]. rewrite E.
      now rewrite append_snoc_assoc.
Qed.

Lemma split_tokens (s : string) :
  singleSpaced s = true -> split " "%char s = tokens s.
Proof.
  intros H. unfold tokens. rewrite (tokensFrom_split s EmptyString H).
  destruct (split_cons " "%char s) as [w [ws E]]. now rewrite E.
Qed.

Lemma escapeHtml_plain (s : string) :
  testClass htmlSpecial s = false ->
  escapeHtml s = s.
Proof.
  induction s as [|c r IH]; simpl; intros H; [reflexivity|].
  apply orb_false_iff in H. destruct H as [Hc Hr].
  unfold htmlSpecial in Hc. apply orb_false_iff in Hc. destruct Hc as [H1 H2].
  rewrite H1, H2. simpl. now rewrite IH.
Qed.

End StringFacts.

(** ** The password meter *)

Section PasswordMeter.
Import Signup.

Lemma strengthText_level (n : nat) (pw : string) :
  strengthText (checkPasswordStrength n pw) = fst (level_of (strength pw)).
Proof.
  unfold checkPasswordStrength. now destruct (level_of (strength pw)).
Qed.

Lemma level_of_cases (s : nat) :
  (5 <= s /\ fst (level_of s) = "Strong")
  \/ (3 <= s < 5 /\ fst (level_of s) = "Medium")
  \/ (s < 3 /\ fst (level_of s) = "Weak").
Proof.
  unfold level_of.
  destruct (5 <=? s) eqn:H5; [left; split; [now apply Nat.leb_le|reflexivity]|].
  apply Nat.leb_gt in H5.
  destruct (3 <=? s) eqn:H3.
  - right; left. apply Nat.leb_le in H3. split; [lia|reflexivity].
  - right; right. apply Nat.leb_gt in H3. split; [lia|reflexivity].
Qed.

(** C8: the strength text is "Strong" exactly for a score of 5 or more,
    "Medium" exactly for a score of 3 or 4 and "Weak" exactly below 3;
    the score never exceeds 6; "abc" is rated Weak, "Abcdefgh1" Medium
    and "Ab1!Ab1!Ab1!" Strong. *)
Theorem C8_strength_buckets :
  (forall n pw,
      (strengthText (checkPasswordStrength n pw) = "Strong"
       <-> 5 <= strength pw)
      /\ (strengthText (checkPasswordStrength n pw) = "Medium"
          <-> 3 <= strength pw < 5)
      /\ (strengthText (checkPasswordStrength n pw) = "Weak"
          <-> strength pw < 3)
      /\ strength pw <= 6)
  /\ (forall n, strengthText (checkPasswordStrength n "abc") = "Weak")
  /\ (forall n, strengthText (checkPasswordStrength n "Abcdefgh1") = "Medium")
  /\ (forall n, strengthText (checkPasswordStrength n "Ab1!Ab1!Ab1!") = "Strong").
Proof.
  split; [|repeat split; intros n; rewrite strengthText_level; reflexivity].
  intros n pw. rewrite strengthText_level.
  assert (Hmax : strength pw <= 6).
  { unfold strength, b2n.
    repeat match goal with |- context [if ?b then _ else _] => destruct b end;
      lia. }
  destruct (level_of_cases (strength pw)) as [[H E]|[[H E]|[H E]]];
    rewrite E; repeat split; intros; try lia; try discriminate.
Qed.

End PasswordMeter.

(** ** The message renderer *)

Section Renderer.
Variable P : Platform.

(** Whatever follows ["### "], the first group of the header pattern
    captures the empty text: the lazy quantifier is followed by nothing
    that forces it to extend. *)
Lemma header_capture_empty (s : string) :
  match exec reHeader s with
  | Some (_, caps) => dollar 1 caps = EmptyString
  | None => True
  end.
Proof.
  unfold exec, reHeader. cbn [matchAt].
  destruct (dropPrefix "### " s) as [s1|]; [|exact I].
  destruct (dropPrefix " ###" s1) as [s2|] eqn:E.
  - rewrite (lazyDot_now s1 _
               (s2, [(2, consumed s1 s2); (1, consumed s1 s1)])).
    + unfold dollar. cbn [capture Nat.eqb]. apply consumed_refl.
    + cbn beta. now rewrite E.
  - rewrite (lazyDot_now s1 _ (s1, [(1, consumed s1 s1)])).
    + unfold dollar. cbn [capture Nat.eqb]. apply consumed_refl.
    + cbn beta. now rewrite E.
Qed.

(** C4: on the example the renderer yields an empty heading followed by the
    text "Title" outside it, one list with the items "a" and "b", and a
    single line break before "End"; the heading "Title" and the double line
    break are absent.  The heading is empty for every input. *)
Theorem C4_example_heading_empty :
  formatContent example
  = "<h3></h3>Title<br><ul><li>a</li><li>b</li></ul><br>End"
  /\ includes "<h3>Title</h3>" (formatContent example) = false
  /\ includes "<br><br>" (formatContent example) = false
  /\ includes "<ul><li>a</li><li>b</li></ul>" (formatContent example) = true
  /\ (forall s, match exec reHeader s with
                | Some (_, caps) => dollar 1 caps = EmptyString
                | None => True
                end).
Proof.
  repeat split; try (vm_compute; reflexivity).
  exact header_capture_empty.
Qed.

(** C5 as stated fails: a user message with markup in it reaches the
    element's HTML unescaped, which is not the markup of the literal
    text. *)
Lemma C5_user_markup_not_literal :
  let m := {| role := "user"; content := "<b>hi</b>";
              timestamp := "2024-01-01T00:00:00.000Z" |} in
  contentHTML (createMessageElement samplePlatform newYear2024 m)
  = "<b>hi</b>"
  /\ escapeHtml (content m) = "&lt;b>hi&lt;/b>"
  /\ contentHTML (createMessageElement samplePlatform newYear2024 m)
     <> escapeHtml (content m).
Proof.
  cbv zeta. repeat split; try reflexivity.
  vm_compute. discriminate.
Qed.

(** C5, amended: for a user message no markup rewriting takes place, the
    content is placed unchanged in the element's HTML; it is the markup of
    the literal text whenever the content has no [<] and no [&]. *)
Theorem C5_user_content_unchanged (now : Z) (m : Message) :
  role m = "user" ->
  contentHTML (createMessageElement P now m) = content m
  /\ className (createMessageElement P now m) = "message user"
  /\ (testClass htmlSpecial (content m) = false ->
      contentHTML (createMessageElement P now m) = escapeHtml (content m)).
Proof.
  intros Hrole. unfold createMessageElement, isAssistant. rewrite Hrole.
  cbn [String.eqb Ascii.eqb Bool.eqb contentHTML className].
  split; [reflexivity|]. split; [reflexivity|].
  intros H. symmetry. now apply escapeHtml_plain.
Qed.

(** C7: for a timestamp that does not parse, the rendered timestamp is the
    text "Invalid Date": neither [new Date] nor [toLocaleTimeString]
    throws, so the [catch] branch with the current time is not taken. *)
Theorem C7_unparseable_timestamp_invalid_date (now : Z) (m : Message) :
  dateParse P (timestamp m) = None ->
  timestampText (createMessageElement P now m) = "Invalid Date".
Proof.
  intros H. unfold createMessageElement, formatTimestamp, newDate. cbn.
  now rewrite H.
Qed.

End Renderer.

Lemma C5_user_content_unchanged_witness :
  let m := {| role := "user"; content := "### Title - a";
              timestamp := "2024-01-01T00:00:00.000Z" |} in
  contentHTML (createMessageElement samplePlatform newYear2024 m)
  = "### Title - a"
  /\ className (createMessageElement samplePlatform newYear2024 m)
     = "message user"
  /\ (testClass htmlSpecial (content m) = false ->
      contentHTML (createMessageElement samplePlatform newYear2024 m)
      = escapeHtml (content m)).
Proof.
  exact (C5_user_content_unchanged samplePlatform newYear2024
           {| role := "user"; content := "### Title - a";
              timestamp := "2024-01-01T00:00:00.000Z" |} eq_refl).
Defined.

Lemma C7_unparseable_timestamp_witness :
  let m := {| role := "assistant"; content := "hi";
              timestamp := "not a date" |} in
  dateParse samplePlatform (timestamp m) = None
  /\ localeTime samplePlatform newYear2024 = "00:00"
  /\ timestampText (createMessageElement samplePlatform newYear2024 m)
     = "Invalid Date".
Proof.
  cbv zeta. split; [reflexivity|]. split; [reflexivity|].
  exact (C7_unparseable_timestamp_invalid_date samplePlatform newYear2024
           {| role := "assistant"; content := "hi";
              timestamp := "not a date" |} eq_refl).
Defined.

(** ** The session controller *)

Section Controller.
Variable P : Platform.
Local Open Scope list_scope.

Ltac fields_in_all :=
  cbn [inputValue inputDisabled isWaitingForResponse currentConversationId
       chatTitle sidebar chatMessages emptyStateActive feedbackDisabled
       statusIndicator pending timers nextError recognition isRecording
       trace] in *.

(** Replace a state by its sixteen components, and decide whether the
    status indicator exists. *)
Ltac open_state st :=
  destruct st; fields_in_all;
  repeat match goal with s : option Status |- _ => destruct s end.

(** Run the straight-line code of the handlers on an opened state. *)
Ltac straight :=
  cbv beta iota zeta delta
    [handleSendMessage fetch addMessage showError onData onError settle
     stopVoiceInput toggleVoiceInput onRecognitionError runTimer
     requestOf userMessage
     log setTimeout set_inputValue set_inputDisabled
     set_isWaitingForResponse set_chatTitle
     set_sidebar set_chatMessages set_emptyStateActive
     set_feedbackDisabled set_statusIndicator set_pending set_timers
     set_nextError set_isRecording set_trace
     inputValue inputDisabled isWaitingForResponse currentConversationId
     chatTitle sidebar chatMessages emptyStateActive feedbackDisabled
     statusIndicator pending timers nextError recognition isRecording
     trace].

Ltac destruct_ifs :=
  repeat match goal with
         | |- context [if ?b then _ else _] => destruct b
         end.

(** Then the code with branches, and the status indicator. *)
Ltac run_handlers :=
  straight; destruct_ifs; straight;
  unfold updateStatus; straight.

(** When the three preconditions hold, the handler runs its six
    statements in order. *)
Lemma handleSendMessage_sends (now : Z) (st : State) :
  truthy (trim (inputValue st)) = true ->
  isWaitingForResponse st = false ->
  idTruthy (currentConversationId st) = true ->
  handleSendMessage P now st
  = fetch (requestOf st)
      (set_inputValue EmptyString
         (addMessage P now (Some (userMessage P now st))
            (updateStatus "Thinking..." "loading"
               (set_isWaitingForResponse true
                  (set_inputDisabled true st))))).
Proof.
  intros Ht Hw Hid. unfold handleSendMessage. rewrite Ht, Hw, Hid.
  cbn [negb orb]. open_state st; run_handlers; reflexivity.
Qed.

(** What a submission that goes through leaves behind. *)
Lemma handleSendMessage_effect (now : Z) (st : State) :
  truthy (trim (inputValue st)) = true ->
  isWaitingForResponse st = false ->
  idTruthy (currentConversationId st) = true ->
  let st1 := handleSendMessage P now st in
  let entry := createMessageElement P now (userMessage P now st) in
  chatMessages st1 = chatMessages st ++ [MessageNode entry]
  /\ trace st1 = trace st ++ [Rendered entry; Fetched (requestOf st)]
  /\ pending st1 = pending st ++ [requestOf st]
  /\ inputValue st1 = EmptyString
  /\ chatTitle st1 = chatTitle st
  /\ nextError st1 = nextError st
  /\ inputDisabled st1 = true
  /\ isWaitingForResponse st1 = true.
Proof.
  intros Ht Hw Hid. cbv zeta. rewrite handleSendMessage_sends by assumption.
  open_state st; run_handlers; rewrite <- ?app_assoc; repeat split.
Qed.

Lemma handleSendMessage_guard (now : Z) (st : State) :
  handleSendMessage P now st = st
  \/ (truthy (trim (inputValue st)) = true
      /\ isWaitingForResponse st = false
      /\ idTruthy (currentConversationId st) = true).
Proof.
  unfold handleSendMessage.
  destruct (truthy (trim (inputValue st))); cbn [negb orb]; auto.
  destruct (isWaitingForResponse st); cbn [negb orb]; auto.
  destruct (idTruthy (currentConversationId st)); cbn [negb orb]; auto.
Qed.

(** C3: with empty or whitespace-only text in the field, or a request in
    flight, or no conversation identifier, the submit handler leaves the
    whole state as it was: no entry rendered, no request, no error. *)
Theorem C3_violated_precondition_noop (now : Z) (st : State) :
  allWhite (inputValue st) = true
  \/ isWaitingForResponse st = true
  \/ idTruthy (currentConversationId st) = false ->
  handleSendMessage P now st = st
  /\ chatMessages (handleSendMessage P now st) = chatMessages st
  /\ pending (handleSendMessage P now st) = pending st
  /\ trace (handleSendMessage P now st) = trace st.
Proof.
  intros H.
  assert (E : handleSendMessage P now st = st).
  { unfold handleSendMessage.
    destruct H as [H|[H|H]].
    - now rewrite (trim_allWhite _ H).
    - rewrite H. now rewrite orb_true_r.
    - rewrite H. now rewrite orb_true_r. }
  now rewrite E.
Qed.


(** *** The stop control *)

Lemma trimStart_nonWhite (s : string) :
  allWhite s = false ->
  exists c r, trimStart s = String c r /\ isWhiteSpace c = false.
Proof.
  unfold allWhite. induction s as [|c r IH]; cbn [testClass trimStart];
    intros H; [discriminate|].
  destruct (isWhiteSpace c) eqn:Ec; cbn [negb orb] in H.
  - apply IH. exact H.
  - now exists c, r.
Qed.

(** The handlers' test [messageInput.value.trim()] holds exactly of the
    texts that are not made of whitespace only. *)
Lemma truthy_trim (s : string) : truthy (trim s) = negb (allWhite s).
Proof.
  destruct (allWhite s) eqn:E; cbn [negb].
  - now rewrite (trim_allWhite _ E).
  - destruct (trimStart_nonWhite s E) as (c & r & Es & Hc).
    unfold trim. rewrite Es. cbn [trimEnd]. rewrite Hc. reflexivity.
Qed.

Lemma nth_error_snoc {A} (l : list A) (x : A) :
  nth_error (l ++ [x]) (length l) = Some x.
Proof. induction l as [|y l IH]; cbn; [reflexivity|exact IH]. Qed.

Lemma removeAt_snoc {A} (l : list A) (x : A) :
  removeAt (length l) (l ++ [x]) = l.
Proof.
  induction l as [|y l IH]; cbn [length app removeAt]; [reflexivity|].
  now rewrite IH.
Qed.

Lemma skipn_all_app {A} (l r : list A) : skipn (length l) (l ++ r) = r.
Proof. induction l; simpl; auto. Qed.

(** The stop handler on a recording in progress, as assignments. *)
Lemma stopVoiceInput_normal (st : State) :
  recognition st = true ->
  isRecording st = true ->
  stopVoiceInput st
  = set_timers
      (timers st
       ++ (if allWhite (inputValue st) then []
           else [{| delay := 300; action := SubmitForm |}]))
      (log RecognitionStop st).
Proof.
  intros Hr Hi. unfold stopVoiceInput. rewrite Hr, Hi. cbn [negb orb].
  replace (inputValue (log RecognitionStop st)) with (inputValue st)
    by reflexivity.
  rewrite truthy_trim.
  destruct st, (allWhite _); straight; rewrite ?app_nil_r; reflexivity.
Qed.

(** C9: when the stop handler runs on a recording in progress, it adds one
    timer of 300 ms that dispatches the submit event if the text of the
    field is not made of whitespace only, and no timer if the text is
    empty or whitespace only; the handler itself submits nothing.  When
    the timer fires, the submit handler runs, and with nothing in flight
    and a conversation open it sends the trimmed text. *)
Theorem C9_stop_schedules_submit_iff_text (now : Z) (st : State) :
  recognition st = true ->
  isRecording st = true ->
  let timer := {| delay := 300; action := SubmitForm |} in
  let st' := stopVoiceInput st in
  (allWhite (inputValue st) = true -> timers st' = timers st)
  /\ (allWhite (inputValue st) = false -> timers st' = timers st ++ [timer])
  /\ (In timer (skipn (length (timers st)) (timers st'))
      <-> allWhite (inputValue st) = false)
  /\ (inputValue st' = inputValue st
      /\ chatMessages st' = chatMessages st
      /\ pending st' = pending st)
  /\ (allWhite (inputValue st) = false ->
      let fired := step P now (TimerEvent (length (timers st))) st' in
      fired = handleSendMessage P now (log RecognitionStop st)
      /\ (isWaitingForResponse st = false ->
          idTruthy (currentConversationId st) = true ->
          pending fired = pending st ++ [requestOf st]
          /\ timers fired = timers st)).
Proof.
  intros Hr Hi timer st'. unfold st'. subst timer.
  rewrite (stopVoiceInput_normal st Hr Hi).
  cbn [timers set_timers inputValue chatMessages pending log set_trace].
  split; [|split; [|split; [|split]]].
  - intros H. rewrite H. apply app_nil_r.
  - intros H. rewrite H. reflexivity.
  - rewrite skipn_all_app. destruct (allWhite (inputValue st)).
    + split; [intros []|discriminate].
    + split; [reflexivity|intros _; now left].
  - repeat split.
  - intros H. rewrite H. cbv zeta.
    assert (E : step P now (TimerEvent (length (timers st)))
                  (set_timers
                     (timers st ++ [{| delay := 300; action := SubmitForm |}])
                     (log RecognitionStop st))
                = handleSendMessage P now (log RecognitionStop st)).
    { cbn [step timers set_timers].
      rewrite nth_error_snoc, removeAt_snoc. cbn [action runTimer].
      reflexivity. }
    split; [exact E|]. intros Hw Hid. rewrite E.
    assert (Ht : truthy (trim (inputValue (log RecognitionStop st))) = true).
    { cbn [inputValue log set_trace]. rewrite truthy_trim, H. reflexivity. }
    destruct (handleSendMessage_effect now (log RecognitionStop st) Ht Hw Hid)
      as (_ & _ & Ep & _).
    split; [exact Ep|].
    rewrite handleSendMessage_sends by assumption.
    destruct st as [? ? ? ? ? ? ? ? ? [s|] ? ? ? ? ? ?]; reflexivity.
Qed.

(** *** The handlers as assignments

    Each handler with branches equals a sequence of assignments whose
    values hold the branches; the fields of the states it leaves can then
    be computed. *)

Lemma updateStatus_normal (msg state : string) (st : State) :
  updateStatus msg state st
  = set_statusIndicator
      (match statusIndicator st with
       | Some _ => Some {| statusState := state; statusMessage := msg |}
       | None => None
       end) st.
Proof. unfold updateStatus. open_state st; reflexivity. Qed.

Lemma enable_normal (c : bool) (st : State) :
  (if c then set_feedbackDisabled false st else st)
  = set_feedbackDisabled (if c then false else feedbackDisabled st) st.
Proof. destruct c, st; reflexivity. Qed.

Lemma addMessage_normal (now : Z) (msg : option Message) (st : State) :
  addMessage P now msg st
  = set_trace
      (trace st
       ++ match msg with
          | Some m => [Rendered (createMessageElement P now m)]
          | None => []
          end)
      (set_chatMessages
         (chatMessages st
          ++ match msg with
             | Some m => [MessageNode (createMessageElement P now m)]
             | None => []
             end)
         (set_emptyStateActive
            (match msg with Some _ => false | None => emptyStateActive st end)
            st)).
Proof.
  destruct msg, st; straight; rewrite ?app_nil_r; reflexivity.
Qed.

Lemma updateTitle_normal (messageText : string) (st : State) :
  updateTitle P messageText st
  = (set_sidebar
       (if derivesTitle messageText st then
          match itemLookup P st with
          | Normal (Some i) =>
              retitle i (derivedTitle messageText) (sidebar st)
          | _ => sidebar st
          end
        else sidebar st)
       (set_chatTitle
          (if derivesTitle messageText st then derivedTitle messageText
           else chatTitle st) st),
     refusal P messageText st).
Proof.
  unfold updateTitle, refusal, derivesTitle, itemLookup, updateSidebar,
    derivedTitle.
  destruct st; straight.
  destruct (String.eqb _ "New Conversation"); cbn [andb]; [|reflexivity].
  destruct (2 <? _); [|reflexivity].
  destruct (querySelector P _ _) as [[i|]|e]; reflexivity.
Qed.

(** The three ways a settlement runs. *)
Lemma settle_rejected (now : Z) (req : Request) (e : string) (st : State) :
  settle P now req (Rejected e) st
  = onError e (log (Settled req (Rejected e)) st).
Proof. reflexivity. Qed.

Lemma settle_failure (now : Z) (req : Request) (data : Response)
    (st : State) :
  status data <> "success" ->
  settle P now req (Fulfilled data) st
  = updateStatus "Error" "error"
      (showError (orElse (error data) "Failed to send message")
         (set_isWaitingForResponse false
            (set_inputDisabled false
               (log (Settled req (Fulfilled data)) st)))).
Proof.
  intros Hs. unfold settle, onData.
  destruct (String.eqb (status data) "success") eqn:E;
    [apply String.eqb_eq in E; contradiction|reflexivity].
Qed.

Lemma settle_success (now : Z) (req : Request) (data : Response)
    (st : State) :
  status data = "success" ->
  let st1 :=
    addMessage P now (reply data)
      (set_isWaitingForResponse false
         (set_inputDisabled false
            (log (Settled req (Fulfilled data)) st))) in
  let st2 := fst (updateTitle P (message req) st1) in
  settle P now req (Fulfilled data) st
  = match refusal P (message req) st with
    | Some e => onError e st2
    | None =>
        updateStatus "Ready" "ready"
          (set_feedbackDisabled
             (if 4 <=? messageCount P st2 then false
              else feedbackDisabled st2) st2)
    end.
Proof.
  intros Hs st1 st2. unfold settle, onData. rewrite Hs.
  cbn [String.eqb Ascii.eqb Bool.eqb]. fold st1.
  assert (R : refusal P (message req) st1 = refusal P (message req) st).
  { unfold st1. rewrite addMessage_normal. reflexivity. }
  unfold st2. rewrite (updateTitle_normal (message req) st1), R.
  cbn [fst]. destruct (refusal P (message req) st); [reflexivity|].
  now rewrite enable_normal.
Qed.
(** Compute the fields of the state a handler leaves. *)
Ltac normal :=
  unfold onError;
  rewrite ?updateTitle_normal; cbn [fst snd];
  rewrite ?updateStatus_normal, ?addMessage_normal;
  cbv beta iota zeta delta
    [derivesTitle itemLookup refusal
     fetch showError log setTimeout set_inputValue set_inputDisabled
     set_isWaitingForResponse set_chatTitle
     set_sidebar set_chatMessages set_emptyStateActive
     set_feedbackDisabled set_statusIndicator set_pending set_timers
     set_nextError set_isRecording set_trace
     inputValue inputDisabled isWaitingForResponse currentConversationId
     chatTitle sidebar chatMessages emptyStateActive feedbackDisabled
     statusIndicator pending timers nextError recognition isRecording
     trace].

(** What a failed settlement changes, in whatever state it arrives. *)
Lemma settle_failed_frame (now : Z) (req : Request) (o : Outcome)
    (st : State) :
  failed o ->
  (exists html,
      chatMessages (settle P now req o st)
      = chatMessages st ++ [ErrorNode (nextError st) html])
  /\ inputValue (settle P now req o st) = inputValue st
  /\ chatTitle (settle P now req o st) = chatTitle st
  /\ inputDisabled (settle P now req o st) = false
  /\ isWaitingForResponse (settle P now req o st) = false.
Proof.
  intros Hf. destruct o as [data|e]; cbn [failed] in Hf.
  - rewrite settle_failure by assumption. normal. repeat split; eauto.
  - rewrite settle_rejected. normal. repeat split; eauto.
Qed.

Lemma filter_snoc_error (l : list Node) (id : nat) (html : string) :
  filter isMessageNode (l ++ [ErrorNode id html]) = filter isMessageNode l.
Proof. rewrite filter_app. cbn. apply app_nil_r. Qed.

(** C10: after a submission that fails, by a non-success status or by a
    rejected request, the list holds the user's entry followed by the error
    element and no further message entry, the field is empty, the title is
    the one before the submission, and the input is enabled and the flag
    cleared; in whatever state a failure arrives, it adds no message
    entry and leaves field and title alone. *)
Theorem C10_failed_submission_frame (now now' : Z) (o : Outcome)
    (st : State) :
  truthy (trim (inputValue st)) = true ->
  isWaitingForResponse st = false ->
  idTruthy (currentConversationId st) = true ->
  failed o ->
  let st1 := handleSendMessage P now st in
  let st2 := settle P now' (requestOf st) o st1 in
  let entry := createMessageElement P now (userMessage P now st) in
  (exists html,
      chatMessages st2
      = chatMessages st ++ [MessageNode entry; ErrorNode (nextError st) html])
  /\ filter isMessageNode (chatMessages st2)
     = filter isMessageNode (chatMessages st) ++ [MessageNode entry]
  /\ inputValue st2 = EmptyString
  /\ chatTitle st2 = chatTitle st
  /\ inputDisabled st2 = false
  /\ isWaitingForResponse st2 = false
  /\ (forall req' st',
         filter isMessageNode (chatMessages (settle P now' req' o st'))
         = filter isMessageNode (chatMessages st')
         /\ inputValue (settle P now' req' o st') = inputValue st'
         /\ chatTitle (settle P now' req' o st') = chatTitle st').
Proof.
  intros Ht Hw Hid Hf st1 st2 entry.
  destruct (settle_failed_frame now' (requestOf st) o st1 Hf)
    as [[html Hm] [Hv [Hc [Hd Hfl]]]].
  fold st2 in Hm, Hv, Hc, Hd, Hfl.
  destruct (handleSendMessage_effect now st Ht Hw Hid)
    as (E1 & _ & _ & E2 & E3 & E4 & _).
  fold st1 in E1, E2, E3, E4. fold entry in E1.
  split; [|split; [|repeat split]]; try congruence.
  - exists html. rewrite Hm, E1, E4, <- app_assoc. reflexivity.
  - rewrite Hm, filter_snoc_error, E1, filter_app. reflexivity.
  - destruct (settle_failed_frame now' req' o st' Hf) as [[h Hm'] _].
    rewrite Hm'. apply filter_snoc_error.
  - now destruct (settle_failed_frame now' req' o st' Hf) as [_ [H _]].
  - now destruct (settle_failed_frame now' req' o st' Hf) as [_ [_ [H _]]].
Qed.

(** What the success branch does to the title. *)
Lemma settle_success_title (now : Z) (req : Request) (data : Response)
    (st : State) :
  status data = "success" ->
  chatTitle (settle P now req (Fulfilled data) st)
  = if derivesTitle (message req) st then derivedTitle (message req)
    else chatTitle st.
Proof.
  intros Hs. rewrite settle_success by assumption.
  destruct (refusal P (message req) st); normal; reflexivity.
Qed.

(** C6, amended: after a successful reply, with the title still the
    sentinel, the user's text is split at every single space; with more
    than two pieces the title becomes the first five pieces joined by
    single spaces followed by three dots, with two pieces or fewer it
    stays the sentinel.  The pieces are the whitespace-separated tokens
    when the words of the text are separated by single spaces only. *)
Theorem C6_title_from_space_pieces (now : Z) (req : Request)
    (data : Response) (st : State) :
  status data = "success" ->
  chatTitle st = "New Conversation" ->
  let words := split " "%char (message req) in
  let st' := settle P now req (Fulfilled data) st in
  (2 < length words ->
   chatTitle st' = (join " " (slice0 5 words) ++ "...")%string)
  /\ (length words <= 2 -> chatTitle st' = "New Conversation")
  /\ (singleSpaced (message req) = true -> words = tokens (message req)).
Proof.
  intros Hs Ht words st'. unfold st'.
  rewrite settle_success_title by assumption.
  unfold derivesTitle, derivedTitle. rewrite Ht.
  cbn [String.eqb Ascii.eqb Bool.eqb andb].
  fold words. split; [|split]; intros H.
  - apply Nat.ltb_lt in H. rewrite H. reflexivity.
  - apply Nat.ltb_ge in H. rewrite H. reflexivity.
  - now apply split_tokens.
Qed.

(** *** Invariance along the event loop *)

Lemma phaseAfter_app (ph : Phase) (a b : list Effect) :
  phaseAfter ph (a ++ b)
  = match phaseAfter ph a with
    | Some ph' => phaseAfter ph' b
    | None => None
    end.
Proof.
  revert ph. induction a as [|e a IH]; intros ph; cbn; [reflexivity|].
  destruct (phaseStep ph e); [apply IH|reflexivity].
Qed.

Lemma requestEqb_refl (r : Request) : requestEqb r r = true.
Proof. unfold requestEqb. now rewrite !String.eqb_refl. Qed.

(** A handler that touches neither the flags nor the pending list, and
    whose effects do not belong to a send, keeps a tracked state
    tracked. *)
Lemma tracked_frame (tr0 noise : list Effect) (st st' : State) :
  (forall ph, phaseAfter ph noise = Some ph) ->
  trace st' = trace st ++ noise ->
  pending st' = pending st ->
  isWaitingForResponse st' = isWaitingForResponse st ->
  inputDisabled st' = inputDisabled st ->
  tracked tr0 st -> tracked tr0 st'.
Proof.
  intros Hn Ht Hp Hw Hd (tr & ph & E & Hph & Hs).
  exists (tr ++ noise), ph. split; [|split].
  - rewrite Ht, E. now rewrite app_assoc.
  - rewrite phaseAfter_app, Hph. apply Hn.
  - destruct ph; cbn [sync] in *; try contradiction;
      rewrite Hp, Hw, Hd; assumption.
Qed.

Lemma tracked_handleSendMessage (tr0 : list Effect) (now : Z) (st : State) :
  tracked tr0 st -> tracked tr0 (handleSendMessage P now st).
Proof.
  intros Htr.
  destruct (handleSendMessage_guard now st) as [E|(Ht & Hw & Hid)];
    [now rewrite E|].
  destruct Htr as (tr & ph & E & Hph & Hs).
  destruct ph; cbn [sync] in Hs; try contradiction;
    [|destruct Hs as (_ & Hs & _); congruence].
  destruct Hs as (Hp & _ & _).
  destruct (handleSendMessage_effect now st Ht Hw Hid)
    as (_ & Et & Ep & _ & _ & _ & Ed & Ew).
  exists (tr ++ [Rendered (createMessageElement P now (userMessage P now st));
                 Fetched (requestOf st)]), (InFlight (requestOf st)).
  split; [|split].
  - rewrite Et, E, <- app_assoc. reflexivity.
  - rewrite phaseAfter_app, Hph. cbn [phaseAfter phaseStep].
    unfold createMessageElement, userMessage, requestOf, isAssistant.
    cbn [role content className contentHTML message].
    cbn [String.eqb Ascii.eqb Bool.eqb append andb].
    now rewrite String.eqb_refl.
  - cbn [sync]. rewrite Ep, Hp, Ed, Ew. repeat split.
Qed.

(** The trace, the pending list and the flags after a settlement. *)
Lemma settle_effect (now : Z) (req : Request) (o : Outcome) (st : State) :
  exists after,
    trace (settle P now req o st) = trace st ++ Settled req o :: after
    /\ phaseAfter (if rendersReply o then AwaitReply else Idle) after
       = Some Idle
    /\ pending (settle P now req o st) = pending st
    /\ isWaitingForResponse (settle P now req o st) = false
    /\ inputDisabled (settle P now req o st) = false.
Proof.
  destruct o as [data|e]; cbn [rendersReply].
  - destruct (String.eqb (status data) "success") eqn:Es; cbn [andb].
    + apply String.eqb_eq in Es. rewrite settle_success by assumption.
      destruct (refusal P (message req) st), (reply data); normal;
        rewrite <- ?app_assoc; cbn [app];
        eexists; (split; [reflexivity|]); repeat split.
    + apply String.eqb_neq in Es. rewrite settle_failure by assumption.
      normal. rewrite <- ?app_assoc. cbn [app].
      eexists; (split; [reflexivity|]); repeat split.
  - rewrite settle_rejected. normal. rewrite <- ?app_assoc. cbn [app].
    eexists; (split; [reflexivity|]); repeat split.
Qed.

Lemma tracked_settle (tr0 : list Effect) (now : Z) (i : nat) (o : Outcome)
    (st : State) :
  tracked tr0 st -> tracked tr0 (step P now (SettleEvent i o) st).
Proof.
  intros Htr. cbn [step].
  destruct (nth_error (pending st) i) as [req|] eqn:En; [|assumption].
  destruct Htr as (tr & ph & E & Hph & Hs).
  destruct ph; cbn [sync] in Hs; try contradiction;
    destruct Hs as (Hp & Hw & Hd); rewrite Hp in En |- *;
    [destruct i; discriminate|].
  destruct i as [|i]; [|destruct i; discriminate].
  cbn in En. injection En as ->. cbn [removeAt].
  destruct (settle_effect now req o (set_pending [] st))
    as (after & Et & Ha & Ep & Ew & Ed).
  exists (tr ++ Settled req o :: after), Idle. split; [|split].
  - rewrite Et. cbn [trace set_pending]. rewrite E, <- app_assoc.
    reflexivity.
  - rewrite phaseAfter_app, Hph. cbn [phaseAfter phaseStep].
    rewrite requestEqb_refl. apply Ha.
  - cbn [sync]. rewrite Ep, Ew, Ed. repeat split.
Qed.

Lemma tracked_step (tr0 : list Effect) (now : Z) (e : Event) (st : State) :
  tracked tr0 st -> tracked tr0 (step P now e st).
Proof.
  intros Htr. destruct e.
  - now apply tracked_handleSendMessage.
  - cbn [step]. destruct (inputDisabled st); [assumption|].
    apply (tracked_frame tr0 [] st); auto.
    cbn [trace set_inputValue]. now rewrite app_nil_r.
  - now apply tracked_settle.
  - cbn [step]. destruct (nth_error (timers st) i) as [t|]; [|assumption].
    assert (H : tracked tr0 (set_timers (removeAt i (timers st)) st)).
    { apply (tracked_frame tr0 [] st); auto.
      cbn [trace set_timers]. now rewrite app_nil_r. }
    destruct (action t); cbn [runTimer].
    + now apply tracked_handleSendMessage.
    + revert H. apply (tracked_frame tr0 []); auto.
      cbn [trace setTimeout set_timers]. now rewrite app_nil_r.
    + revert H. apply (tracked_frame tr0 []); auto.
      cbn [trace set_chatMessages]. now rewrite app_nil_r.
  - cbn [step]. unfold toggleVoiceInput, stopVoiceInput.
    destruct (recognition st); cbn [negb orb]; [|assumption].
    destruct (isRecording st); cbn [negb orb].
    + destruct (truthy (trim (inputValue (log RecognitionStop st))));
        revert Htr; apply (tracked_frame tr0 [RecognitionStop]); auto.
    + revert Htr. apply (tracked_frame tr0 [RecognitionStart]); auto.
  - cbn [step]. unfold stopVoiceInput.
    destruct (negb (recognition st) || negb (isRecording st));
      [assumption|].
    destruct (truthy (trim (inputValue (log RecognitionStop st))));
      revert Htr; apply (tracked_frame tr0 [RecognitionStop]); auto.
  - revert Htr. apply (tracked_frame tr0 []); auto. cbn [step].
    cbn [trace set_isRecording]. now rewrite app_nil_r.
  - revert Htr. apply (tracked_frame tr0 []); auto. cbn [step].
    cbn [trace set_isRecording]. now rewrite app_nil_r.
  - revert Htr. apply (tracked_frame tr0 []); auto. cbn [step].
    cbn [trace set_inputValue]. now rewrite app_nil_r.
  - cbn [step]. unfold onRecognitionError.
    destruct (String.eqb err "not-allowed"); revert Htr;
      [apply (tracked_frame tr0
                [ErrorShown "Microphone access denied. Please check your browser permissions."])
      |apply (tracked_frame tr0
                [ErrorShown ("Voice recognition error: " ++ err)%string])];
      auto.
Qed.

Lemma tracked_run (tr0 : list Effect) (evs : list (Z * Event)) (st : State) :
  tracked tr0 st -> tracked tr0 (run P evs st).
Proof.
  revert st. induction evs as [|[now e] evs IH]; intros st H; cbn [run];
    [assumption|].
  apply IH. now apply tracked_step.
Qed.

Lemma quiet_tracked (st : State) : quiet st -> tracked (trace st) st.
Proof.
  intros (Hd & Hw & Hp). exists [], Idle. cbn [sync phaseAfter].
  rewrite app_nil_r. auto.
Qed.

Lemma tracked_oneInFlight (tr0 : list Effect) (st : State) :
  tracked tr0 st -> oneInFlight st.
Proof.
  intros (tr & ph & _ & _ & Hs). unfold oneInFlight.
  destruct ph; cbn [sync] in Hs; try contradiction;
    destruct Hs as (Hp & Hw & Hd); rewrite Hp, Hw, Hd; cbn [length].
  - repeat split; try lia; try discriminate. intros H; now elim H.
  - repeat split; try lia; try discriminate.
Qed.

Lemma tracked_serial (st : State) : tracked [] st -> serial (trace st) = true.
Proof.
  intros (tr & ph & E & Hph & _). unfold serial. rewrite E. cbn [app].
  now rewrite Hph.
Qed.

(** What the success branch renders when the response carries a
    message: the reply, and after it the error element of a refused
    selector. *)
Lemma settle_success_reply (now : Z) (req : Request) (data : Response)
    (m : Message) (st : State) :
  status data = "success" ->
  reply data = Some m ->
  chatMessages (settle P now req (Fulfilled data) st)
  = chatMessages st
    ++ MessageNode (createMessageElement P now m)
       :: match refusal P (message req) st with
          | Some e =>
              [ErrorNode (nextError st) ("Error sending message: " ++ e)]
          | None => []
          end
  /\ trace (settle P now req (Fulfilled data) st)
     = trace st
       ++ Settled req (Fulfilled data)
          :: Rendered (createMessageElement P now m)
          :: match refusal P (message req) st with
             | Some e => [ErrorShown ("Error sending message: " ++ e)]
             | None => []
             end
  /\ pending (settle P now req (Fulfilled data) st) = pending st.
Proof.
  intros Hs Hr. rewrite settle_success by assumption. rewrite Hr.
  destruct (refusal P (message req) st); normal;
    rewrite <- ?app_assoc; repeat split.
Qed.

(** C1: in every state reached from a quiet page at most one request is
    pending, and the input is disabled, and the flag set, exactly when one
    is; a submission that goes through calls [fetch] in a state where the
    input is already disabled and the flag set; every settlement, whether
    success, non-success status or rejection, enables the input and clears
    the flag. *)
Theorem C1_one_request_in_flight (st0 : State) (evs : list (Z * Event)) :
  quiet st0 ->
  oneInFlight (run P evs st0)
  /\ (forall now st,
         truthy (trim (inputValue st)) = true ->
         isWaitingForResponse st = false ->
         idTruthy (currentConversationId st) = true ->
         exists st1,
           handleSendMessage P now st = fetch (requestOf st) st1
           /\ inputDisabled st1 = true
           /\ isWaitingForResponse st1 = true)
  /\ (forall now req o st,
         inputDisabled (settle P now req o st) = false
         /\ isWaitingForResponse (settle P now req o st) = false).
Proof.
  intros Hq. split; [|split].
  - apply (tracked_oneInFlight (trace st0)).
    apply tracked_run. now apply quiet_tracked.
  - intros now st Ht Hw Hid. eexists. split.
    + now apply handleSendMessage_sends.
    + open_state st; run_handlers; split; reflexivity.
  - intros now req o st.
    destruct (settle_effect now req o st) as (_ & _ & _ & _ & Hw & Hd).
    now split.
Qed.

(** C2, amended: from a state reached from a quiet page, with non-empty
    trimmed text, no request in flight and a conversation identifier set,
    a submission renders exactly one entry of class "message user" and
    then calls [fetch], in this order and with nothing else; when this
    request is fulfilled with status "success" and the assistant's
    message, exactly one message entry is added, of class "message
    assistant" and rendered after the settlement; it is the last child of
    the list unless the selector of the sidebar lookup is refused, in
    which case the error element of the [catch] handler follows it.  A
    second submission before the settlement does nothing, and whatever
    events follow, the trace keeps the order entry, request, settlement,
    reply of one send after the other. *)
Theorem C2_send_is_ordered (st0 : State) (evs : list (Z * Event)) (now : Z) :
  quiet st0 ->
  trace st0 = [] ->
  truthy (trim (inputValue (run P evs st0))) = true ->
  isWaitingForResponse (run P evs st0) = false ->
  idTruthy (currentConversationId (run P evs st0)) = true ->
  let st := run P evs st0 in
  let entry := createMessageElement P now (userMessage P now st) in
  let req := requestOf st in
  let st1 := handleSendMessage P now st in
  chatMessages st1 = chatMessages st ++ [MessageNode entry]
  /\ className entry = "message user"
  /\ trace st1 = trace st ++ [Rendered entry; Fetched req]
  /\ pending st1 = [req]
  /\ (forall now' m err,
         role m = "assistant" ->
         let data := {| status := "success"; reply := Some m;
                        error := err |} in
         let st2 := step P now' (SettleEvent 0 (Fulfilled data)) st1 in
         let answer := createMessageElement P now' m in
         filter isMessageNode (chatMessages st2)
         = filter isMessageNode (chatMessages st1) ++ [MessageNode answer]
         /\ className answer = "message assistant"
         /\ chatMessages st2
            = chatMessages st1
              ++ MessageNode answer
                 :: match refusal P (message req) st1 with
                    | Some e =>
                        [ErrorNode (nextError st1)
                           ("Error sending message: " ++ e)]
                    | None => []
                    end
         /\ trace st2
            = trace st1
              ++ Settled req (Fulfilled data)
                 :: Rendered answer
                 :: match refusal P (message req) st1 with
                    | Some e =>
                        [ErrorShown ("Error sending message: " ++ e)]
                    | None => []
                    end
         /\ pending st2 = [])
  /\ (forall now', handleSendMessage P now' st1 = st1)
  /\ (forall evs', serial (trace (run P evs' st1)) = true).
Proof.
  intros Hq Ht0 Ht Hw Hid st entry req st1.
  assert (Htr : tracked [] st).
  { unfold st. apply tracked_run. rewrite <- Ht0. now apply quiet_tracked. }
  assert (Hp : pending st = []).
  { destruct Htr as (tr & ph & _ & _ & Hs).
    destruct ph; cbn [sync] in Hs; try contradiction.
    - now destruct Hs.
    - destruct Hs as (_ & Hs & _). fold st in Hw. congruence. }
  destruct (handleSendMessage_effect now st Ht Hw Hid)
    as (Fm & Ft & Fp & _ & _ & _ & _ & Fw).
  fold st1 in Fm, Ft, Fp, Fw. fold entry in Fm, Ft. fold req in Ft, Fp.
  rewrite Hp in Fp. cbn [app] in Fp.
  repeat match goal with |- _ /\ _ => split end; try assumption.
  - reflexivity.
  - intros now' m err Hm data st2 answer.
    assert (S2 : st2 = settle P now' req (Fulfilled data)
                         (set_pending [] st1)).
    { unfold st2. cbn [step]. rewrite Fp. reflexivity. }
    destruct (settle_success_reply now' req data m (set_pending [] st1)
                eq_refl eq_refl) as (Sm & St & Sp).
    change (refusal P (message req) (set_pending [] st1))
      with (refusal P (message req) st1) in Sm, St.
    change (nextError (set_pending [] st1)) with (nextError st1) in Sm.
    rewrite S2. repeat split; try assumption.
    + rewrite Sm. cbn [chatMessages set_pending].
      rewrite filter_app. cbn [filter isMessageNode].
      now destruct (refusal P (message req) st1).
    + unfold answer, createMessageElement. cbn [className]. now rewrite Hm.
  - intros now'. unfold handleSendMessage. rewrite Fw.
    now rewrite orb_true_r.
  - intros evs'. apply tracked_serial. apply tracked_run.
    now apply tracked_handleSendMessage.
Qed.

End Controller.

(** ** Concrete runs *)

Lemma C1_one_request_in_flight_witness :
  let evs := [(newYear2024, InputEvent "hello");
              (newYear2024, SubmitEvent);
              (newYear2024, RecognitionOnResult "again");
              (newYear2024, SubmitEvent)] in
  quiet samplePage
  /\ oneInFlight (run samplePlatform evs samplePage)
  /\ length (pending (run samplePlatform evs samplePage)) = 1.
Proof.
  cbv zeta.
  assert (Hq : quiet samplePage) by (repeat split).
  split; [exact Hq|]. split; [|reflexivity].
  exact (proj1 (C1_one_request_in_flight samplePlatform samplePage
                  [(newYear2024, InputEvent "hello");
                   (newYear2024, SubmitEvent);
                   (newYear2024, RecognitionOnResult "again");
                   (newYear2024, SubmitEvent)] Hq)).
Defined.

(** C2 as stated fails: with text in the field and nothing in flight, but
    no conversation identifier, the submission renders no entry and sends
    no request. *)
Lemma C2_no_conversation_no_entry :
  let st := pageWithoutConversation in
  trim (inputValue st) = "hi"
  /\ isWaitingForResponse st = false
  /\ pending st = []
  /\ chatMessages (handleSendMessage samplePlatform newYear2024 st) = []
  /\ trace (handleSendMessage samplePlatform newYear2024 st) = [].
Proof. cbv zeta. repeat split. Qed.

Lemma C2_send_is_ordered_witness :
  let evs := [(newYear2024, InputEvent " hello there friend ")] in
  let m := {| role := "assistant"; content := "Hi.";
              timestamp := "2024-01-01T00:00:00.000Z" |} in
  let data := {| status := "success"; reply := Some m; error := None |} in
  let answer := createMessageElement samplePlatform newYear2024 m in
  let st := run samplePlatform evs samplePage in
  let st1 := handleSendMessage samplePlatform newYear2024 st in
  let st2 := step samplePlatform newYear2024
               (SettleEvent 0 (Fulfilled data)) st1 in
  let qt := run samplePlatform evs pageWithQuotedId in
  let qt1 := handleSendMessage samplePlatform newYear2024 qt in
  let qt2 := step samplePlatform newYear2024
               (SettleEvent 0 (Fulfilled data)) qt1 in
  quiet samplePage
  /\ trace samplePage = []
  /\ truthy (trim (inputValue st)) = true
  /\ isWaitingForResponse st = false
  /\ idTruthy (currentConversationId st) = true
  /\ pending st1 = [{| url := "/chat/42/message";
                       message := "hello there friend" |}]
  /\ (forall evs', serial (trace (run samplePlatform evs' st1)) = true)
  /\ chatMessages st2 = (chatMessages st1 ++ [MessageNode answer])%list
  /\ chatMessages qt2
     = (chatMessages qt1
        ++ [MessageNode answer;
            ErrorNode 0
              ("Error sending message: Failed to execute 'querySelector' "
               ++ "on 'Document': '" ++ itemSelector quotedId
               ++ "' is not a valid selector.")])%list.
Proof.
  cbv zeta.
  assert (Hq : quiet samplePage) by (repeat split).
  assert (Hq' : quiet pageWithQuotedId) by (repeat split).
  pose proof (C2_send_is_ordered samplePlatform samplePage
                [(newYear2024, InputEvent " hello there friend ")]
                newYear2024 Hq eq_refl eq_refl eq_refl eq_refl) as H.
  pose proof (C2_send_is_ordered samplePlatform pageWithQuotedId
                [(newYear2024, InputEvent " hello there friend ")]
                newYear2024 Hq' eq_refl eq_refl eq_refl eq_refl) as H'.
  cbv zeta in H, H'.
  destruct H as (_ & _ & _ & Hp & Hr & _ & Hs).
  destruct H' as (_ & _ & _ & _ & Hr' & _).
  destruct (Hr newYear2024
              {| role := "assistant"; content := "Hi.";
                 timestamp := "2024-01-01T00:00:00.000Z" |} None eq_refl)
    as (_ & _ & Hm & _).
  destruct (Hr' newYear2024
              {| role := "assistant"; content := "Hi.";
                 timestamp := "2024-01-01T00:00:00.000Z" |} None eq_refl)
    as (_ & _ & Hm' & _).
  repeat split; try assumption.
Defined.

Lemma C3_violated_precondition_noop_witness :
  let st := set_inputValue "   " samplePage in
  allWhite (inputValue st) = true
  /\ handleSendMessage samplePlatform newYear2024 st = st.
Proof.
  cbv zeta. split; [reflexivity|].
  exact (proj1 (C3_violated_precondition_noop samplePlatform newYear2024
                  (set_inputValue "   " samplePage)
                  (or_introl eq_refl))).
Defined.

(** C6 as stated fails: the text "a  b", with two spaces, has two
    whitespace-separated tokens, and yet the successful reply changes the
    title. *)
Lemma C6_double_space_changes_title :
  let data := {| status := "success";
                 reply := Some {| role := "assistant"; content := "ok";
                                  timestamp := "2024-01-01T00:00:00.000Z" |};
                 error := None |} in
  let st := run samplePlatform
              [(newYear2024, InputEvent "a  b");
               (newYear2024, SubmitEvent);
               (newYear2024, SettleEvent 0 (Fulfilled data))] samplePage in
  tokens "a  b" = ["a"; "b"]
  /\ chatTitle samplePage = "New Conversation"
  /\ chatTitle st = "a  b..."
  /\ chatTitle st <> "New Conversation".
Proof.
  cbv zeta. repeat split. vm_compute. discriminate.
Qed.

Lemma C6_title_from_space_pieces_witness :
  let req := {| url := "/chat/42/message";
                message := "please help me close this deal today" |} in
  let data := {| status := "success"; reply := None; error := None |} in
  status data = "success"
  /\ chatTitle samplePage = "New Conversation"
  /\ chatTitle (settle samplePlatform newYear2024 req (Fulfilled data)
                  samplePage)
     = "please help me close this...".
Proof.
  cbv zeta. split; [reflexivity|]. split; [reflexivity|].
  refine (proj1 (C6_title_from_space_pieces samplePlatform newYear2024
                   {| url := "/chat/42/message";
                      message := "please help me close this deal today" |}
                   {| status := "success"; reply := None; error := None |}
                   samplePage eq_refl eq_refl) _).
  vm_compute. lia.
Defined.

Lemma C9_stop_schedules_submit_witness :
  let st := set_isRecording true (set_inputValue " hello " samplePage) in
  let blank := set_isRecording true (set_inputValue "   " samplePage) in
  recognition st = true
  /\ isRecording st = true
  /\ recognition blank = true
  /\ isRecording blank = true
  /\ timers (stopVoiceInput st) = [{| delay := 300; action := SubmitForm |}]
  /\ pending (stopVoiceInput st) = []
  /\ pending (step samplePlatform newYear2024 (TimerEvent 0)
                (stopVoiceInput st))
     = [{| url := "/chat/42/message"; message := "hello" |}]
  /\ timers (stopVoiceInput blank) = [].
Proof.
  cbv zeta.
  pose proof (C9_stop_schedules_submit_iff_text samplePlatform newYear2024
                (set_isRecording true (set_inputValue " hello " samplePage))
                eq_refl eq_refl) as H.
  pose proof (C9_stop_schedules_submit_iff_text samplePlatform newYear2024
                (set_isRecording true (set_inputValue "   " samplePage))
                eq_refl eq_refl) as B.
  cbv zeta in H, B.
  destruct H as (_ & Ht & _ & (_ & _ & Hp) & Hf).
  destruct B as (Bt & _).
  destruct (Hf eq_refl) as (_ & Hs).
  destruct (Hs eq_refl eq_refl) as (Hs1 & _).
  do 4 (split; [reflexivity|]).
  split; [exact (Ht eq_refl)|]. split; [exact Hp|].
  split; [exact Hs1|exact (Bt eq_refl)].
Defined.

Lemma C10_failed_submission_frame_witness :
  let st := set_inputValue "hello" samplePage in
  let o := Rejected "Failed to fetch" in
  let st2 := settle samplePlatform newYear2024 (requestOf st) o
               (handleSendMessage samplePlatform newYear2024 st) in
  truthy (trim (inputValue st)) = true
  /\ isWaitingForResponse st = false
  /\ idTruthy (currentConversationId st) = true
  /\ failed o
  /\ inputValue st2 = EmptyString
  /\ chatTitle st2 = "New Conversation"
  /\ inputDisabled st2 = false.
Proof.
  cbv zeta.
  pose proof (C10_failed_submission_frame samplePlatform
                newYear2024 newYear2024 (Rejected "Failed to fetch")
                (set_inputValue "hello" samplePage)
                eq_refl eq_refl eq_refl I) as H.
  cbv zeta in H. destruct H as (_ & _ & Hv & Hc & Hd & _).
  repeat split; assumption.
Defined.

(* ------------------------------------------------------------------ *)
(** * Further properties *)

(** ** Global replacement *)

Section Replacement.
Local Open Scope string_scope.

Lemma length_append (a b : string) :
  String.length (a ++ b) = String.length a + String.length b.
Proof. induction a as [|c a IH]; cbn; [reflexivity|now rewrite IH]. Qed.

Lemma substring_prefix (a b : string) :
  substring 0 (String.length a) (a ++ b) = a.
Proof.
  induction a as [|c a IH]; cbn; [now destruct b|now rewrite IH].
Qed.

Lemma consumed_app (a b : string) : consumed (a ++ b) b = a.
Proof.
  unfold consumed. rewrite length_append.
  replace (String.length a + String.length b - String.length b)
    with (String.length a) by lia.
  apply substring_prefix.
Qed.

Lemma replaceFrom_skip (r : regex) (f : string -> captures -> string)
    (a b : string) :
  replaceFrom r f (String.length a) (a ++ b) = replaceFrom r f 0 b.
Proof.
  induction a as [|c a IH]; cbn [String.length append]; [reflexivity|].
  cbn [replaceFrom]. exact IH.
Qed.

(** A non-empty match at the start is replaced, and the search resumes
    after it. *)
Lemma replaceFrom_match (r : regex) (f : string -> captures -> string)
    (m rest : string) (caps : captures) :
  m <> EmptyString ->
  exec r (m ++ rest) = Some (rest, caps) ->
  replaceFrom r f 0 (m ++ rest) = f m caps ++ replaceFrom r f 0 rest.
Proof.
  intros Hm He. destruct m as [|c m]; [congruence|].
  cbn [append] in He |- *. cbn [replaceFrom]. rewrite He.
  change (String c (m ++ rest)) with (String c m ++ rest).
  rewrite consumed_app. cbn [isEmpty].
  replace (String.length (String c m) - 1) with (String.length m)
    by (cbn [String.length]; lia).
  now rewrite replaceFrom_skip.
Qed.

(** Where no match starts, the character is copied. *)
Lemma replaceFrom_copy (r : regex) (f : string -> captures -> string)
    (c : ascii) (s : string) :
  exec r (String c s) = None ->
  replaceFrom r f 0 (String c s) = String c (replaceFrom r f 0 s).
Proof. intros He. cbn [replaceFrom]. now rewrite He. Qed.

End Replacement.

(** ** Line breaks *)

Section LineBreaks.
Local Open Scope string_scope.

Lemma testClass_append (cls : ascii -> bool) (a b : string) :
  testClass cls (a ++ b) = testClass cls a || testClass cls b.
Proof.
  induction a as [|c a IH]; cbn; [reflexivity|].
  now rewrite IH, orb_assoc.
Qed.

Lemma replace_LF_lineBreaks (s : string) :
  replaceAll (Lit LF) (fun _ _ => "<br>") s = lineBreaks s.
Proof.
  unfold replaceAll. induction s as [|c s IH]; [reflexivity|].
  cbn [lineBreaks]. destruct (isLineFeed c) eqn:Ec.
  - apply Ascii.eqb_eq in Ec. subst c.
    change (String (ascii_of_nat 10) s) with (LF ++ s).
    rewrite (replaceFrom_match _ _ LF s []); [now rewrite IH|discriminate|].
    reflexivity.
  - rewrite replaceFrom_copy; [now rewrite IH|].
    unfold exec, LF. cbn [matchAt dropPrefix].
    unfold isLineFeed in Ec. rewrite Ascii.eqb_sym in Ec. now rewrite Ec.
Qed.

Lemma lineBreaks_no_LF (s : string) : testClass isLineFeed (lineBreaks s) = false.
Proof.
  induction s as [|c s IH]; [reflexivity|]. cbn [lineBreaks].
  rewrite testClass_append, IH, orb_false_r.
  destruct (isLineFeed c) eqn:Ec; [reflexivity|]. cbn. now rewrite Ec.
Qed.

Lemma lineBreaks_id (s : string) :
  testClass isLineFeed s = false -> lineBreaks s = s.
Proof.
  induction s as [|c s IH]; [reflexivity|]. cbn. intros H.
  apply orb_false_iff in H. destruct H as [Hc Hs].
  rewrite Hc. cbn. now rewrite IH.
Qed.

(** Replacing the double line feeds first changes nothing in the end. *)
Lemma lineBreaks_after_double (n : nat) (s : string) :
  String.length s <= n ->
  lineBreaks (replaceAll (Lit (LF ++ LF)) (fun _ _ => "<br><br>") s)
  = lineBreaks s.
Proof.
  unfold replaceAll. revert s. induction n as [|n IH]; intros s Hn.
  - destruct s; [reflexivity|cbn in Hn; lia].
  - destruct s as [|c s]; [reflexivity|].
    destruct (isLineFeed c) eqn:Ec.
    + apply Ascii.eqb_eq in Ec. subst c.
      destruct s as [|d s].
      * reflexivity.
      * destruct (isLineFeed d) eqn:Ed.
        -- apply Ascii.eqb_eq in Ed. subst d.
           change (String (ascii_of_nat 10) (String (ascii_of_nat 10) s))
             with ((LF ++ LF) ++ s).
           rewrite (replaceFrom_match _ _ (LF ++ LF) s []);
             [|discriminate|reflexivity].
           cbn [append lineBreaks LF]. cbn [isLineFeed Ascii.eqb Bool.eqb].
           cbn [append]. rewrite IH by (cbn in Hn; lia). reflexivity.
        -- rewrite replaceFrom_copy.
           ++ cbn [lineBreaks]. rewrite IH by (cbn in Hn |- *; lia).
              reflexivity.
           ++ unfold exec, LF. cbn [append matchAt dropPrefix].
              rewrite Ascii.eqb_refl.
              unfold isLineFeed in Ed. rewrite Ascii.eqb_sym in Ed.
              now rewrite Ed.
    + rewrite replaceFrom_copy.
      * cbn [lineBreaks]. rewrite IH by (cbn in Hn; lia). reflexivity.
      * unfold exec, LF. cbn [append matchAt dropPrefix].
        unfold isLineFeed in Ec. rewrite Ascii.eqb_sym in Ec. now rewrite Ec.
Qed.

Lemma convertLineBreaks_lineBreaks (s : string) :
  convertLineBreaks s = lineBreaks s.
Proof.
  unfold convertLineBreaks. rewrite replace_LF_lineBreaks.
  now apply (lineBreaks_after_double (String.length s)).
Qed.

(** X1: the rendered content of an assistant message holds no line feed, and
    its last step amounts to replacing every line feed left by the list
    steps with [<br>]. *)
Theorem rendered_content_has_no_line_feed (s : string) :
  testClass isLineFeed (formatContent s) = false
  /\ formatContent s
     = lineBreaks (wrapLists (convertBullets (convertHeaders s))).
Proof.
  unfold formatContent. rewrite convertLineBreaks_lineBreaks.
  split; [apply lineBreaks_no_LF|reflexivity].
Qed.

End LineBreaks.

(** ** Text without markup *)

Section PlainText.
Local Open Scope string_scope.

Lemma testClass_weaken (cls cls' : ascii -> bool) (s : string) :
  (forall c, cls' c = true -> cls c = true) ->
  testClass cls s = false -> testClass cls' s = false.
Proof.
  intros Himp. induction s as [|c s IH]; cbn; [reflexivity|]. intros H.
  apply orb_false_iff in H. destruct H as [Hc Hs].
  rewrite (IH Hs), orb_false_r.
  destruct (cls' c) eqn:E; [|reflexivity]. apply Himp in E. congruence.
Qed.

(** A pattern that cannot match where its first character is absent
    leaves a text without that character alone. *)
Lemma replaceAll_absent (r : regex) (f : string -> captures -> string)
    (c0 : ascii) :
  exec r EmptyString = None ->
  (forall c t, Ascii.eqb c0 c = false -> exec r (String c t) = None) ->
  forall s, testClass (Ascii.eqb c0) s = false -> replaceAll r f s = s.
Proof.
  intros He Hc s. unfold replaceAll.
  induction s as [|c s IH]; cbn [testClass]; intros H.
  - cbn [replaceFrom]. now rewrite He.
  - apply orb_false_iff in H. destruct H as [H1 H2].
    rewrite replaceFrom_copy by now apply Hc. now rewrite IH.
Qed.

Lemma convertHeaders_absent (s : string) :
  testClass (Ascii.eqb "#"%char) s = false -> convertHeaders s = s.
Proof.
  apply replaceAll_absent; [reflexivity|]. intros c t Hc.
  unfold exec, reHeader. cbn [matchAt dropPrefix]. now rewrite Hc.
Qed.

Lemma convertBullets_absent (s : string) :
  testClass (Ascii.eqb "-"%char) s = false -> convertBullets s = s.
Proof.
  apply replaceAll_absent; [reflexivity|]. intros c t Hc.
  unfold exec, reBullet. cbn [matchAt dropPrefix]. now rewrite Hc.
Qed.

Lemma includes_absent (t : string) (c0 : ascii) (s : string) :
  testClass (Ascii.eqb c0) s = false -> includes (String c0 t) s = false.
Proof.
  induction s as [|c s IH]; cbn [testClass includes prefix]; intros H;
    [reflexivity|].
  apply orb_false_iff in H. destruct H as [H1 H2].
  destruct (ascii_dec c0 c) as [->|_];
    [now rewrite Ascii.eqb_refl in H1|].
  now rewrite IH.
Qed.

Lemma wrapLists_absent (s : string) :
  testClass (Ascii.eqb "<"%char) s = false -> wrapLists s = s.
Proof.
  intros H. unfold wrapLists. now rewrite (includes_absent _ _ _ H).
Qed.

(** X2: a text in which no [#], [-] or [<] occurs is rendered by replacing
    each of its line feeds with [<br>] and nothing else; without line
    feeds it is rendered unchanged. *)
Theorem text_without_markup_only_gets_line_breaks (s : string) :
  testClass markupStart s = false ->
  formatContent s = lineBreaks s
  /\ (testClass isLineFeed s = false -> formatContent s = s).
Proof.
  intros H.
  assert (E : formatContent s = lineBreaks s).
  { unfold formatContent. rewrite convertLineBreaks_lineBreaks.
    rewrite convertHeaders_absent, convertBullets_absent, wrapLists_absent;
      try reflexivity;
      apply (testClass_weaken markupStart); try assumption;
      intros c Hc; apply Ascii.eqb_eq in Hc; now subst c. }
  split; [exact E|]. intros Hl. rewrite E. now apply lineBreaks_id.
Qed.

End PlainText.

Lemma text_without_markup_witness :
  let s := "Hello," ++ LF ++ LF ++ "how are you?" in
  testClass markupStart s = false
  /\ formatContent s = "Hello,<br><br>how are you?".
Proof.
  cbv zeta. split; [reflexivity|].
  exact (proj1 (text_without_markup_only_gets_line_breaks
                  ("Hello," ++ LF ++ LF ++ "how are you?") eq_refl)).
Defined.

(** ** Bullet lists *)

Section BulletLists.
Local Open Scope string_scope.

Lemma append_assoc (a b c : string) : (a ++ b) ++ c = a ++ (b ++ c).
Proof. induction a as [|d a IH]; cbn; [reflexivity|now rewrite IH]. Qed.

Lemma concat_empty_cons (x : string) (xs : list string) :
  String.concat EmptyString (x :: xs) = x ++ String.concat EmptyString xs.
Proof.
  destruct xs as [|y ys]; cbn [String.concat]; [now rewrite append_empty_r|].
  reflexivity.
Qed.

(** The lazy quantifier walks over characters on which the rest of the
    pattern cannot start. *)
Lemma lazyDot_scan {R} (stop : ascii -> bool) (x t : string)
    (k : string -> option R) :
  (forall c r, stop c = false -> k (String c r) = None) ->
  testClass (fun c => stop c || isLineTerminator c) x = false ->
  lazyDot (x ++ t) k = lazyDot t k.
Proof.
  intros Hk. induction x as [|c x IH]; cbn [testClass append]; intros H;
    [reflexivity|].
  apply orb_false_iff in H. destruct H as [Hc Hx].
  apply orb_false_iff in Hc. destruct Hc as [Hs Hl].
  cbn [lazyDot]. rewrite (Hk c _ Hs), Hl. now apply IH.
Qed.

Lemma itemText_classes (x : string) :
  itemText x = true ->
  testClass (Ascii.eqb "#"%char) x = false
  /\ testClass (Ascii.eqb "<"%char) x = false
  /\ testClass isLineTerminator x = false
  /\ testClass isLineFeed x = false.
Proof.
  unfold itemText. rewrite negb_true_iff. intros H.
  repeat split; apply (testClass_weaken notInItem); try assumption;
    intros c Hc; unfold notInItem.
  - apply Ascii.eqb_eq in Hc. now subst c.
  - apply Ascii.eqb_eq in Hc. now subst c.
  - now rewrite Hc, orb_true_r.
  - apply Ascii.eqb_eq in Hc. now subst c.
Qed.

Lemma no_terminator_no_feed (x : string) :
  testClass isLineTerminator x = false ->
  testClass (fun c => isLineFeed c || isLineTerminator c) x = false.
Proof.
  apply testClass_weaken. intros c Hc.
  apply orb_true_iff in Hc. destruct Hc as [Hc|Hc]; [|assumption].
  apply Ascii.eqb_eq in Hc. now subst c.
Qed.

(** The bullet pattern on a bullet line that is followed by a line feed,
    and on one that ends the text. *)
Lemma exec_bullet_line (x t : string) :
  testClass isLineTerminator x = false ->
  exists caps,
    exec reBullet (("- " ++ x ++ LF) ++ t) = Some (t, caps)
    /\ dollar 1 caps = x.
Proof.
  intros Hx.
  exists [(2, consumed (LF ++ t) t); (1, consumed (x ++ LF ++ t) (LF ++ t))].
  split; [|unfold dollar; cbn [capture Nat.eqb]; apply consumed_app].
  unfold exec, reBullet.
  rewrite !append_assoc. cbn [append matchAt dropPrefix].
  cbn [Ascii.eqb Bool.eqb].
  rewrite (lazyDot_scan isLineFeed).
  - apply lazyDot_now. reflexivity.
  - intros c r Hc. unfold LF. cbn [dropPrefix isEmpty].
    unfold isLineFeed in Hc. rewrite Ascii.eqb_sym in Hc. now rewrite Hc.
  - now apply no_terminator_no_feed.
Qed.

Lemma exec_bullet_last (x : string) :
  testClass isLineTerminator x = false ->
  exists caps,
    exec reBullet (("- " ++ x) ++ EmptyString) = Some (EmptyString, caps)
    /\ dollar 1 caps = x.
Proof.
  intros Hx.
  exists [(2, consumed EmptyString EmptyString);
          (1, consumed (x ++ EmptyString) EmptyString)].
  split; [|unfold dollar; cbn [capture Nat.eqb]; apply consumed_app].
  unfold exec, reBullet.
  rewrite !append_assoc. cbn [append matchAt dropPrefix].
  cbn [Ascii.eqb Bool.eqb].
  rewrite (lazyDot_scan isLineFeed).
  - apply lazyDot_now. reflexivity.
  - intros c r Hc. unfold LF. cbn [dropPrefix isEmpty].
    unfold isLineFeed in Hc. rewrite Ascii.eqb_sym in Hc. now rewrite Hc.
  - now apply no_terminator_no_feed.
Qed.

Lemma bulletLines_cons (x y : string) (ys : list string) :
  bulletLines (x :: y :: ys) = ("- " ++ x ++ LF) ++ bulletLines (y :: ys).
Proof.
  unfold bulletLines, join. cbn [map String.concat].
  now rewrite !append_assoc.
Qed.

Lemma convertBullets_lines (items : list string) :
  items <> [] ->
  forallb itemText items = true ->
  convertBullets (bulletLines items)
  = String.concat EmptyString (map listItem items).
Proof.
  unfold convertBullets, replaceAll.
  induction items as [|x rest IH]; [congruence|]. intros _ H.
  cbn [forallb] in H. apply andb_true_iff in H. destruct H as [Hx Hr].
  destruct (itemText_classes x Hx) as (_ & _ & Hl & _).
  cbn [map]. rewrite concat_empty_cons.
  destruct rest as [|y ys].
  - destruct (exec_bullet_last x Hl) as (caps & He & Hd).
    replace (bulletLines [x]) with (("- " ++ x) ++ EmptyString)
      by (unfold bulletLines, join; cbn [map String.concat];
          apply append_empty_r).
    rewrite (replaceFrom_match _ _ _ _ caps) by (assumption || discriminate).
    rewrite Hd. cbn [map String.concat replaceFrom].
    change (exec reBullet EmptyString) with (@None (string * captures)).
    unfold listItem. now rewrite !append_assoc.
  - rewrite bulletLines_cons.
    destruct (exec_bullet_line x (bulletLines (y :: ys)) Hl)
      as (caps & He & Hd).
    rewrite (replaceFrom_match _ _ _ _ caps) by (assumption || discriminate).
    rewrite Hd, IH by (assumption || discriminate).
    unfold listItem. now rewrite !append_assoc.
Qed.

End BulletLists.

Section ListWrapping.
Local Open Scope string_scope.

Lemma dropPrefix_app (a b : string) : dropPrefix a (a ++ b) = Some b.
Proof.
  induction a as [|c a IH]; cbn [append dropPrefix]; [reflexivity|].
  now rewrite Ascii.eqb_refl.
Qed.

Lemma dropPrefix_other (c0 c : ascii) (p r : string) :
  Ascii.eqb c0 c = false -> dropPrefix (String c0 p) (String c r) = None.
Proof. intros H. cbn [dropPrefix]. now rewrite H. Qed.

Lemma exec_item (x t : string) :
  testClass (Ascii.eqb "<"%char) x = false ->
  testClass isLineTerminator x = false ->
  exec reItem (listItem x ++ t)
  = Some (t, [(1, consumed (x ++ "</li>" ++ t) ("</li>" ++ t))]).
Proof.
  intros Hx Hl. unfold exec, reItem, listItem.
  rewrite !append_assoc. cbn [matchAt]. rewrite dropPrefix_app.
  rewrite (lazyDot_scan (Ascii.eqb "<"%char)).
  - apply lazyDot_now. now rewrite dropPrefix_app.
  - intros c r Hc. now rewrite (dropPrefix_other _ _ _ _ Hc).
  - induction x as [|c x IH]; [reflexivity|]. cbn [testClass] in *.
    apply orb_false_iff in Hx. destruct Hx as [H1 H2].
    apply orb_false_iff in Hl. destruct Hl as [H3 H4].
    now rewrite H1, H3, IH.
Qed.

Lemma wrap_items (items : list string) :
  forallb itemText items = true ->
  replaceAll reItem (fun m _ => "<ul>" ++ m ++ "</ul>")
    (String.concat EmptyString (map listItem items))
  = String.concat EmptyString (map ulItem items).
Proof.
  unfold replaceAll. induction items as [|x rest IH]; intros H.
  - reflexivity.
  - cbn [forallb] in H. apply andb_true_iff in H. destruct H as [Hx Hr].
    destruct (itemText_classes x Hx) as (_ & Hlt & Hl & _).
    cbn [map]. rewrite !concat_empty_cons.
    erewrite (replaceFrom_match _ _ (listItem x));
      [|unfold listItem; discriminate|now apply exec_item].
    now rewrite IH.
Qed.

Lemma merge_copy (x t : string) :
  testClass (Ascii.eqb "<"%char) x = false ->
  replaceFrom (Lit "</ul><ul>") (fun _ _ => EmptyString) 0 (x ++ t)
  = x ++ replaceFrom (Lit "</ul><ul>") (fun _ _ => EmptyString) 0 t.
Proof.
  induction x as [|c x IH]; cbn [testClass append]; intros H;
    [reflexivity|].
  apply orb_false_iff in H. destruct H as [H1 H2].
  rewrite replaceFrom_copy; [now rewrite IH|].
  unfold exec. cbn [matchAt]. now rewrite (dropPrefix_other _ _ _ _ H1).
Qed.

Lemma merge_tail (x : string) (rest : list string) :
  testClass (Ascii.eqb "<"%char) x = false ->
  forallb itemText rest = true ->
  replaceFrom (Lit "</ul><ul>") (fun _ _ => EmptyString) 0
    (listItem x ++ "</ul>" ++ String.concat EmptyString (map ulItem rest))
  = String.concat EmptyString (map listItem (x :: rest)) ++ "</ul>".
Proof.
  revert x. induction rest as [|y ys IH]; intros x Hx Hr.
  - cbn [map String.concat]. unfold listItem.
    rewrite !append_assoc. cbn [append].
    do 4 (rewrite replaceFrom_copy by reflexivity).
    rewrite merge_copy by assumption.
    cbn [append].
    do 10 (rewrite replaceFrom_copy by reflexivity).
    reflexivity.
  - cbn [forallb] in Hr. apply andb_true_iff in Hr. destruct Hr as [Hy Hys].
    destruct (itemText_classes y Hy) as (_ & Hlt & _ & _).
    cbn [map]. rewrite !concat_empty_cons.
    unfold listItem at 1. rewrite !append_assoc. cbn [append].
    do 4 (rewrite replaceFrom_copy by reflexivity).
    rewrite merge_copy by assumption.
    cbn [append].
    do 5 (rewrite replaceFrom_copy by reflexivity).
    unfold ulItem at 1. rewrite !append_assoc.
    match goal with
    | |- context [replaceFrom ?r ?f 0
                    (String ?a (String ?b (String ?c (String ?d (String ?e
                       ("<ul>" ++ ?t))))))] =>
        change (String a (String b (String c (String d (String e
                  ("<ul>" ++ t))))))
          with ("</ul><ul>" ++ t)
    end.
    rewrite (replaceFrom_match _ _ "</ul><ul>" _ []);
      [|discriminate|unfold exec; cbn [matchAt]; now rewrite dropPrefix_app].
    rewrite (IH y Hlt Hys).
    cbn [map]. rewrite concat_empty_cons.
    unfold listItem. cbn [append]. now rewrite !append_assoc.
Qed.

End ListWrapping.

Section OneList.
Local Open Scope string_scope.

Lemma bulletLines_no_hash (items : list string) :
  forallb itemText items = true ->
  testClass (Ascii.eqb "#"%char) (bulletLines items) = false.
Proof.
  unfold bulletLines, join. induction items as [|x rest IH]; intros H;
    [reflexivity|].
  cbn [forallb] in H. apply andb_true_iff in H. destruct H as [Hx Hr].
  destruct (itemText_classes x Hx) as (Hh & _).
  destruct rest as [|y ys].
  - cbn [map String.concat]. now rewrite testClass_append, Hh.
  - change (String.concat LF (map (fun x0 => "- " ++ x0) (x :: y :: ys)))
      with (("- " ++ x) ++ LF
            ++ String.concat LF (map (fun x0 => "- " ++ x0) (y :: ys))).
    rewrite !testClass_append, Hh, (IH Hr). reflexivity.
Qed.

Lemma includes_at_start (t s : string) : includes t (t ++ s) = true.
Proof.
  assert (H : String.prefix t (t ++ s) = true)
    by (apply String.prefix_correct, substring_prefix).
  destruct (t ++ s); cbn [includes]; now rewrite H.
Qed.

Lemma merge_open (t : string) :
  replaceFrom (Lit "</ul><ul>") (fun _ _ => EmptyString) 0 ("<ul>" ++ t)
  = "<ul>" ++ replaceFrom (Lit "</ul><ul>") (fun _ _ => EmptyString) 0 t.
Proof.
  cbn [append]. do 4 (rewrite replaceFrom_copy by reflexivity). reflexivity.
Qed.

Lemma items_no_line_feed (items : list string) :
  forallb itemText items = true ->
  testClass isLineFeed (String.concat EmptyString (map listItem items))
  = false.
Proof.
  induction items as [|x rest IH]; intros H; [reflexivity|].
  cbn [forallb] in H. apply andb_true_iff in H. destruct H as [Hx Hr].
  destruct (itemText_classes x Hx) as (_ & _ & _ & Hl).
  cbn [map]. rewrite concat_empty_cons. unfold listItem at 1.
  rewrite !testClass_append, Hl, (IH Hr). reflexivity.
Qed.

(** The list block on the items of bullet lines: each is wrapped, and the
    wrappings are merged into one. *)
Lemma wrapLists_items (items : list string) :
  items <> [] ->
  forallb itemText items = true ->
  wrapLists (String.concat EmptyString (map listItem items))
  = "<ul>" ++ String.concat EmptyString (map listItem items) ++ "</ul>".
Proof.
  intros Hne Hit. destruct items as [|x rest]; [congruence|].
  pose proof Hit as Hall.
  cbn [forallb] in Hit. apply andb_true_iff in Hit. destruct Hit as [Hx Hr].
  destruct (itemText_classes x Hx) as (_ & Hlt & _ & _).
  unfold wrapLists.
  replace (includes "<li>"
             (String.concat EmptyString (map listItem (x :: rest))))
    with true
    by (cbn [map]; rewrite concat_empty_cons; unfold listItem at 1;
        rewrite !append_assoc; now rewrite includes_at_start).
  rewrite wrap_items by assumption.
  unfold replaceAll. cbn [map]. rewrite (concat_empty_cons (ulItem x)).
  unfold ulItem at 1. rewrite !append_assoc.
  rewrite merge_open, (merge_tail x rest Hlt Hr). reflexivity.
Qed.

(** X3: bullet lines whose item texts hold no [#], no [<] and no line
    terminator are rendered as one list with one item per line, whatever
    their number: the lists wrapped around the single items are merged. *)
Theorem bullet_lines_become_one_list (items : list string) :
  items <> [] ->
  forallb itemText items = true ->
  formatContent (bulletLines items)
  = "<ul>" ++ String.concat EmptyString (map listItem items) ++ "</ul>".
Proof.
  intros Hne Hit.
  unfold formatContent. rewrite convertLineBreaks_lineBreaks.
  rewrite convertHeaders_absent by now apply bulletLines_no_hash.
  rewrite convertBullets_lines by assumption.
  rewrite wrapLists_items by assumption.
  apply lineBreaks_id.
  rewrite !testClass_append.
  rewrite items_no_line_feed by assumption.
  reflexivity.
Qed.

End OneList.

Lemma bullet_lines_become_one_list_witness :
  let items := ["call back"; "send the follow-up"; "ask for budget"] in
  items <> []
  /\ forallb itemText items = true
  /\ formatContent (bulletLines items)
     = "<ul><li>call back</li><li>send the follow-up</li><li>ask for budget</li></ul>".
Proof.
  cbv zeta. split; [discriminate|]. split; [reflexivity|].
  exact (bullet_lines_become_one_list
           ["call back"; "send the follow-up"; "ask for budget"]
           ltac:(discriminate) eq_refl).
Defined.

Section MidLine.
Local Open Scope string_scope.

Lemma replaceFrom_copy_text (r : regex) (f : string -> captures -> string)
    (c0 : ascii) :
  (forall c t, Ascii.eqb c0 c = false -> exec r (String c t) = None) ->
  forall a t,
    testClass (Ascii.eqb c0) a = false ->
    replaceFrom r f 0 (a ++ t) = a ++ replaceFrom r f 0 t.
Proof.
  intros Hc a t. induction a as [|c a IH]; cbn [testClass append]; intros H;
    [reflexivity|].
  apply orb_false_iff in H. destruct H as [H1 H2].
  rewrite replaceFrom_copy by now apply Hc. now rewrite IH.
Qed.

Lemma includes_inside (t a s : string) : includes t (a ++ t ++ s) = true.
Proof.
  induction a as [|c a IH]; cbn [append].
  - apply includes_at_start.
  - cbn [includes]. rewrite IH. apply orb_true_r.
Qed.

Lemma plain_classes (a : string) :
  plain a = true ->
  testClass (Ascii.eqb "#"%char) a = false
  /\ testClass (Ascii.eqb "-"%char) a = false
  /\ testClass (Ascii.eqb "<"%char) a = false
  /\ testClass isLineFeed a = false.
Proof.
  unfold plain. rewrite andb_true_iff, !negb_true_iff. intros (Hm & Hl).
  repeat split.
  - apply (testClass_weaken markupStart); [|assumption].
    intros c Hc. apply Ascii.eqb_eq in Hc. now subst c.
  - apply (testClass_weaken markupStart); [|assumption].
    intros c Hc. apply Ascii.eqb_eq in Hc. now subst c.
  - apply (testClass_weaken markupStart); [|assumption].
    intros c Hc. apply Ascii.eqb_eq in Hc. now subst c.
  - apply (testClass_weaken isLineTerminator); [|assumption].
    intros c Hc. apply Ascii.eqb_eq in Hc. now subst c.
Qed.

(** X4: the bullet pattern is not tied to the start of a line: a hyphen and a
    space after other text of the line start a list item that runs to the
    end of the line. *)
Theorem hyphen_inside_a_line_starts_an_item (a x : string) :
  plain a = true ->
  itemText x = true ->
  formatContent (a ++ "- " ++ x) = a ++ "<ul><li>" ++ x ++ "</li></ul>".
Proof.
  intros Ha Hx.
  destruct (plain_classes a Ha) as (Ah & Ad & Al & Af).
  destruct (itemText_classes x Hx) as (Xh & Xl & Xt & Xf).
  unfold formatContent. rewrite convertLineBreaks_lineBreaks.
  rewrite convertHeaders_absent
    by (rewrite !testClass_append, Ah, Xh; reflexivity).
  assert (B : convertBullets (a ++ "- " ++ x) = a ++ listItem x).
  { unfold convertBullets, replaceAll.
    rewrite (replaceFrom_copy_text _ _ "-"%char); [|
      intros c t Hc; unfold exec, reBullet; cbn [matchAt];
      now rewrite (dropPrefix_other _ _ _ _ Hc) | assumption].
    destruct (exec_bullet_last x Xt) as (caps & He & Hd).
    rewrite <- (append_empty_r ("- " ++ x)).
    rewrite (replaceFrom_match _ _ _ _ caps) by (assumption || discriminate).
    rewrite Hd. cbn [replaceFrom].
    change (exec reBullet EmptyString) with (@None (string * captures)).
    unfold listItem. now rewrite !append_assoc, !append_empty_r. }
  rewrite B.
  assert (W : wrapLists (a ++ listItem x) = a ++ ulItem x).
  { unfold wrapLists.
    replace (includes "<li>" (a ++ listItem x)) with true
      by (unfold listItem; symmetry; apply includes_inside).
    unfold replaceAll.
    rewrite (replaceFrom_copy_text _ _ "<"%char); [|
      intros c t Hc; unfold exec, reItem; cbn [matchAt];
      now rewrite (dropPrefix_other _ _ _ _ Hc) | assumption].
    rewrite <- (append_empty_r (listItem x)) at 1.
    erewrite (replaceFrom_match _ _ (listItem x));
      [|unfold listItem; discriminate|now apply exec_item].
    cbn [replaceFrom].
    change (exec reItem EmptyString) with (@None (string * captures)).
    rewrite append_empty_r.
    rewrite (replaceFrom_copy_text _ _ "<"%char); [|
      intros c t Hc; unfold exec; cbn [matchAt];
      now rewrite (dropPrefix_other _ _ _ _ Hc) | assumption].
    rewrite merge_open.
    pose proof (merge_tail x [] Xl eq_refl) as M.
    cbn [map String.concat] in M. rewrite append_empty_r in M.
    rewrite M. unfold ulItem. now rewrite ?append_assoc. }
  rewrite W. unfold ulItem, listItem. rewrite !append_assoc.
  apply lineBreaks_id.
  rewrite !testClass_append, Af, Xf. reflexivity.
Qed.

End MidLine.

Lemma hyphen_inside_a_line_witness :
  plain "Price: 40 euros " = true
  /\ itemText "per seat" = true
  /\ formatContent "Price: 40 euros - per seat"
     = "Price: 40 euros <ul><li>per seat</li></ul>".
Proof.
  split; [reflexivity|]. split; [reflexivity|].
  exact (hyphen_inside_a_line_starts_an_item
           "Price: 40 euros " "per seat" eq_refl eq_refl).
Defined.

(* ------------------------------------------------------------------ *)
(** ** The testimonial carousel *)

Section Carousel.
Import Landing.
Local Open Scope Z_scope.

Lemma only_length (i : Z) (n : nat) : length (only i n) = n.
Proof. unfold only. now rewrite length_map, length_seq. Qed.

Lemma activate_deactivate (k a m : nat) :
  (k < m)%nat ->
  activate k (map (fun _ : nat => false) (seq a m))
  = map (fun j => Z.of_nat j =? Z.of_nat (a + k)) (seq a m).
Proof.
  revert k a. induction m as [|m IH]; intros k a Hk; [lia|].
  cbn [seq map]. destruct k as [|k]; cbn [activate].
  - replace (Z.of_nat a =? Z.of_nat (a + 0)) with true
      by (symmetry; apply Z.eqb_eq; lia).
    f_equal. apply map_ext_in. intros j Hj. apply in_seq in Hj.
    symmetry. apply Z.eqb_neq. lia.
  - replace (Z.of_nat a =? Z.of_nat (a + S k)) with false
      by (symmetry; apply Z.eqb_neq; lia).
    f_equal. rewrite IH by lia.
    apply map_ext. intros j. f_equal. lia.
Qed.

Lemma showTestimonial_showing (n : nat) (i j : Z) :
  0 <= j < Z.of_nat n ->
  showTestimonial j (showing n i) = showing n j.
Proof.
  intros Hj. unfold showTestimonial, showing, defined, deactivate.
  cbn [testimonials dots currentIndex].
  rewrite !length_map, only_length.
  replace (0 <=? j) with true by (symmetry; apply Z.leb_le; lia).
  replace (j <? Z.of_nat n) with true by (symmetry; apply Z.ltb_lt; lia).
  cbn [andb negb].
  assert (E : activate (Z.to_nat j) (map (fun _ : bool => false) (only i n))
              = only j n).
  { unfold only. rewrite map_map.
    rewrite activate_deactivate by lia.
    apply map_ext. intros k. f_equal. lia. }
  now rewrite E.
Qed.

(** X5: from the state that shows testimonial [i] of [n], every click and
    every tick of the interval leads to a state that shows exactly one
    testimonial and its dot, at the current index, which stays in range. *)
Theorem carousel_always_shows_one (n : nat) (i : Z) (e : Click) :
  0 <= i < Z.of_nat n ->
  exists j, 0 <= j < Z.of_nat n /\ handle e (showing n i) = showing n j.
Proof.
  intros Hi. destruct e; cbn [handle].
  - unfold previous, count. cbn [currentIndex testimonials showing].
    rewrite only_length.
    destruct (i - 1 <? 0) eqn:E.
    + exists (Z.of_nat n - 1). split; [lia|].
      apply showTestimonial_showing. lia.
    + apply Z.ltb_ge in E. exists (i - 1). split; [lia|].
      apply showTestimonial_showing. lia.
  - unfold next, count. cbn [currentIndex testimonials showing].
    rewrite only_length.
    destruct (i + 1 >=? Z.of_nat n) eqn:E.
    + exists 0. split; [lia|]. apply showTestimonial_showing. lia.
    + rewrite Z.geb_leb in E. apply Z.leb_gt in E.
      exists (i + 1). split; [lia|]. apply showTestimonial_showing. lia.
  - cbn [dots showing]. rewrite only_length.
    destruct (index <? n)%nat eqn:E.
    + apply Nat.ltb_lt in E. exists (Z.of_nat index). split; [lia|].
      apply showTestimonial_showing. lia.
    + exists i. now split.
  - unfold next, count. cbn [currentIndex testimonials showing].
    rewrite only_length.
    destruct (i + 1 >=? Z.of_nat n) eqn:E.
    + exists 0. split; [lia|]. apply showTestimonial_showing. lia.
    + rewrite Z.geb_leb in E. apply Z.leb_gt in E.
      exists (i + 1). split; [lia|]. apply showTestimonial_showing. lia.
Qed.

Lemma next_showing (n : nat) (i : Z) :
  0 <= i < Z.of_nat n ->
  next (showing n i) = showing n ((i + 1) mod Z.of_nat n).
Proof.
  intros Hi. unfold next, count. cbn [currentIndex testimonials showing].
  rewrite only_length.
  destruct (i + 1 >=? Z.of_nat n) eqn:E.
  - rewrite Z.geb_leb in E. apply Z.leb_le in E.
    replace (i + 1) with (Z.of_nat n) by lia. rewrite Z.mod_same by lia.
    apply showTestimonial_showing. lia.
  - rewrite Z.geb_leb in E. apply Z.leb_gt in E.
    rewrite Z.mod_small by lia. apply showTestimonial_showing. lia.
Qed.

Lemma previous_showing (n : nat) (i : Z) :
  0 <= i < Z.of_nat n ->
  previous (showing n i) = showing n ((i - 1) mod Z.of_nat n).
Proof.
  intros Hi. unfold previous, count. cbn [currentIndex testimonials showing].
  rewrite only_length.
  destruct (i - 1 <? 0) eqn:E.
  - apply Z.ltb_lt in E. replace (i - 1) with (-1) by lia.
    replace (-1 mod Z.of_nat n) with (Z.of_nat n - 1).
    + apply showTestimonial_showing. lia.
    + apply (Z.mod_unique _ _ (-1)); lia.
  - apply Z.ltb_ge in E. rewrite Z.mod_small by lia.
    apply showTestimonial_showing. lia.
Qed.

(** X6: next and previous undo each other, the end of the row wrapping
    around to its start; [k] steps forward lead [k] testimonials further,
    so that as many steps as there are testimonials lead back. *)
Theorem carousel_steps_wrap_around (n : nat) (i : Z) :
  0 <= i < Z.of_nat n ->
  previous (next (showing n i)) = showing n i
  /\ next (previous (showing n i)) = showing n i
  /\ (forall k, Nat.iter k next (showing n i)
                = showing n ((i + Z.of_nat k) mod Z.of_nat n))
  /\ Nat.iter n next (showing n i) = showing n i.
Proof.
  intros Hi.
  assert (Hn : 0 < Z.of_nat n) by lia.
  assert (Hk : forall k, Nat.iter k next (showing n i)
                         = showing n ((i + Z.of_nat k) mod Z.of_nat n)).
  { induction k as [|k IH].
    - cbn. rewrite Z.add_0_r, Z.mod_small by lia. reflexivity.
    - rewrite Nat.iter_succ, IH.
      rewrite next_showing by (apply Z.mod_pos_bound; lia).
      f_equal. rewrite Zplus_mod_idemp_l. f_equal. lia. }
  repeat split.
  - rewrite next_showing by lia.
    rewrite previous_showing by (apply Z.mod_pos_bound; lia).
    f_equal. rewrite Zminus_mod_idemp_l.
    replace (i + 1 - 1) with i by lia. apply Z.mod_small. lia.
  - rewrite previous_showing by lia.
    rewrite next_showing by (apply Z.mod_pos_bound; lia).
    f_equal. rewrite Zplus_mod_idemp_l.
    replace (i - 1 + 1) with i by lia. apply Z.mod_small. lia.
  - exact Hk.
  - rewrite Hk. f_equal.
    rewrite <- (Z.mul_1_l (Z.of_nat n)) at 1.
    rewrite Z.mod_add by lia. apply Z.mod_small. lia.
Qed.

(** X7: without testimonials every listener fails at its first lookup and the
    page stays as it is. *)
Theorem empty_carousel_stays (c : Carousel) (e : Click) :
  testimonials c = [] -> handle e c = c.
Proof.
  intros H. destruct c as [ts ds i]. cbn [testimonials] in H. subst ts.
  assert (D : forall k, defined k (@nil bool) = false).
  { intros k. unfold defined. cbn [length]. apply andb_false_iff.
    destruct (0 <=? k) eqn:E; [right|now left].
    apply Z.leb_le in E. apply Z.ltb_ge. lia. }
  assert (S : forall k, showTestimonial k
                          {| testimonials := []; dots := ds;
                             currentIndex := i |}
                        = {| testimonials := []; dots := ds;
                             currentIndex := i |}).
  { intros k. unfold showTestimonial.
    cbn [testimonials dots currentIndex deactivate map].
    now rewrite D. }
  destruct e; cbn [handle]; unfold previous, next; rewrite ?S;
    try reflexivity.
  now destruct (index <? length (dots _))%nat.
Qed.

End Carousel.

(* ------------------------------------------------------------------ *)
(** ** The signup page *)

Section SignupPage.
Import Signup SignupForm.

Lemma b2n_le (b : bool) : b2n b <= 1.
Proof. destruct b; cbn; lia. Qed.

Lemma class_of_char (c : ascii) :
  isUpper c = true \/ isLower c = true \/ isDigit c = true
  \/ isOther c = true.
Proof.
  unfold isOther.
  destruct (isUpper c); [now left|]. destruct (isLower c); [now right; left|].
  destruct (isDigit c); [now right; right; left|]. now right; right; right.
Qed.

Lemma strength_nonempty (c : ascii) (r : string) :
  1 <= b2n (testClass isUpper (String c r))
       + b2n (testClass isLower (String c r))
       + b2n (testClass isDigit (String c r))
       + b2n (testClass isOther (String c r)).
Proof.
  cbn [testClass].
  destruct (class_of_char c) as [H|[H|[H|H]]]; rewrite H; cbn [orb b2n]; lia.
Qed.

(** X8: the empty password is the only one with score 0, so that any typed
    character colours the first segment of the meter. *)
Theorem only_the_empty_password_scores_zero (pw : string) :
  (strength pw = 0 <-> pw = EmptyString)
  /\ (forall n, pw <> EmptyString ->
                nth_error (segments (checkPasswordStrength (S n) pw)) 0
                <> Some None).
Proof.
  assert (H1 : pw <> EmptyString -> 1 <= strength pw).
  { intros Hne. destruct pw as [|c r]; [congruence|].
    pose proof (strength_nonempty c r). unfold strength. lia. }
  split; [split|].
  - intros H0. destruct pw as [|c r]; [reflexivity|].
    assert (1 <= strength (String c r)) by (apply H1; discriminate). lia.
  - intros ->. reflexivity.
  - intros n Hne. apply H1 in Hne. unfold checkPasswordStrength.
    destruct (level_of (strength pw)) as [lvl cls].
    cbn [segments seq map nth_error]. unfold segmentClass.
    replace (1 <=? strength pw) with true
      by (symmetry; now apply Nat.leb_le).
    cbn [Nat.eqb andb]. discriminate.
Qed.

(** X9: a password the meter calls Strong has at least 8 code units: it passes
    the length check of the form. *)
Theorem strong_password_is_long_enough (n : nat) (pw : string) :
  strengthText (checkPasswordStrength n pw) = "Strong" ->
  8 <= String.length pw.
Proof.
  intros H.
  assert (Hs : 5 <= strength pw).
  { unfold checkPasswordStrength, level_of in H.
    destruct (5 <=? strength pw) eqn:E5; [now apply Nat.leb_le|].
    destruct (3 <=? strength pw); cbn in H; discriminate. }
  unfold strength in Hs.
  destruct (8 <=? String.length pw) eqn:E8; [now apply Nat.leb_le|].
  assert (E12 : (12 <=? String.length pw) = false).
  { apply Nat.leb_gt. apply Nat.leb_gt in E8. lia. }
  rewrite E12 in Hs. cbn [b2n] in Hs.
  pose proof (b2n_le (testClass isUpper pw)).
  pose proof (b2n_le (testClass isLower pw)).
  pose proof (b2n_le (testClass isDigit pw)).
  pose proof (b2n_le (testClass isOther pw)). lia.
Qed.

Lemma segmentClass_meter (s i : nat) :
  segmentClass s (snd (level_of s)) i = nth i (meterOf s) None.
Proof.
  unfold segmentClass, level_of, meterOf.
  destruct (5 <=? s) eqn:E5.
  - apply Nat.leb_le in E5.
    replace (3 <=? s) with true by (symmetry; apply Nat.leb_le; lia).
    replace (1 <=? s) with true by (symmetry; apply Nat.leb_le; lia).
    destruct i as [|[|[|[|i]]]]; reflexivity.
  - destruct (3 <=? s) eqn:E3.
    + apply Nat.leb_le in E3.
      replace (1 <=? s) with true by (symmetry; apply Nat.leb_le; lia).
      destruct i as [|[|[|[|i]]]]; reflexivity.
    + destruct (1 <=? s); destruct i as [|[|[|[|i]]]]; reflexivity.
Qed.

(** X10: the three segments of the page show the level: none coloured for score
    0, one weak below 3, two medium below 5, three strong from 5 on; a
    meter with more segments leaves the further ones uncoloured. *)
Theorem meter_segments_show_the_level (n : nat) (pw : string) :
  segments (checkPasswordStrength 3 pw) = meterOf (strength pw)
  /\ segments (checkPasswordStrength n pw)
     = map (fun i => nth i (meterOf (strength pw)) None) (seq 0 n)
  /\ (forall i, 3 <= i ->
                nth i (segments (checkPasswordStrength n pw)) None = None).
Proof.
  assert (E : forall m, segments (checkPasswordStrength m pw)
                        = map (fun i => nth i (meterOf (strength pw)) None)
                            (seq 0 m)).
  { intros m. unfold checkPasswordStrength.
    pose proof (segmentClass_meter (strength pw)) as H.
    destruct (level_of (strength pw)) as [lvl cls]. cbn [snd] in H.
    cbn [segments]. apply map_ext. exact H. }
  split; [|split].
  - rewrite E. cbn [seq map]. unfold meterOf.
    destruct (5 <=? strength pw); [reflexivity|].
    destruct (3 <=? strength pw); [reflexivity|].
    destruct (1 <=? strength pw); reflexivity.
  - apply E.
  - intros i Hi. rewrite E.
    destruct (Nat.lt_ge_cases i n) as [Hlt|Hge].
    + rewrite (nth_indep _ None (nth n (meterOf (strength pw)) None))
        by now rewrite length_map, length_seq.
      rewrite (map_nth (fun i => nth i (meterOf (strength pw)) None)).
      rewrite seq_nth by assumption. cbn [Nat.add].
      apply nth_overflow. unfold meterOf.
      destruct (5 <=? strength pw); [exact Hi|].
      destruct (3 <=? strength pw); [exact Hi|].
      destruct (1 <=? strength pw); exact Hi.
    + apply nth_overflow. now rewrite length_map, length_seq.
Qed.

(** X11: the form sends a registration request exactly when the four fields are
    filled, the two passwords are equal, the password has at least 8 code
    units and the box is ticked; the password then scores at least 2.
    Otherwise nothing is sent and the button stays as it is. *)
Theorem form_sends_only_valid_registrations (f : Form) (p : Page) :
  (validate f = None
   <-> (formName f <> EmptyString /\ formEmail f <> EmptyString
        /\ formPassword f <> EmptyString /\ formConfirm f <> EmptyString)
       /\ formPassword f = formConfirm f
       /\ 8 <= String.length (formPassword f)
       /\ formAgree f = true)
  /\ (validate f = None ->
      2 <= strength (formPassword f)
      /\ registrations (submit f p)
         = (registrations p
            ++ [{| regName := formName f; regEmail := formEmail f;
                   regPassword := formPassword f;
                   originalText := submitLabel p |}])%list
      /\ submitDisabled (submit f p) = true)
  /\ (validate f <> None ->
      registrations (submit f p) = registrations p
      /\ submitDisabled (submit f p) = submitDisabled p
      /\ submitLabel (submit f p) = submitLabel p
      /\ location (submit f p) = location p).
Proof.
  assert (T : forall s, truthy s = true <-> s <> EmptyString).
  { intros s. destruct s; cbn; split; congruence. }
  assert (C : validate f = None
              <-> (formName f <> EmptyString /\ formEmail f <> EmptyString
                   /\ formPassword f <> EmptyString
                   /\ formConfirm f <> EmptyString)
                  /\ formPassword f = formConfirm f
                  /\ 8 <= String.length (formPassword f)
                  /\ formAgree f = true).
  { unfold validate. rewrite <- !T.
    destruct (truthy (formName f)), (truthy (formEmail f)),
      (truthy (formPassword f)), (truthy (formConfirm f));
      cbn [negb orb];
      try (split; [discriminate|intros [(?&?&?&?) _]; discriminate]).
    destruct (String.eqb_spec (formPassword f) (formConfirm f)) as [E|E];
      cbn [negb]; [|split; [discriminate|tauto]].
    destruct (String.length (formPassword f) <? 8) eqn:L.
    - apply Nat.ltb_lt in L. split; [discriminate|]. intros (_&_&?&_). lia.
    - apply Nat.ltb_ge in L. destruct (formAgree f); cbn [negb].
      + tauto.
      + split; [discriminate|]. intros (_&_&_&?). discriminate. }
  split; [exact C|]. split.
  - intros V. split; [|unfold submit; rewrite V; split; reflexivity].
    apply C in V. destruct V as ((_ & _ & Hp & _) & _ & Hl & _).
    destruct (formPassword f) as [|c r] eqn:E; [congruence|].
    pose proof (strength_nonempty c r). unfold strength.
    replace (8 <=? String.length (String c r)) with true
      by (symmetry; now apply Nat.leb_le).
    cbn [b2n]. lia.
  - intros V. unfold submit. destruct (validate f) as [msg|]; [|congruence].
    unfold showError. destruct (errorElement p); repeat split.
Qed.

(** X12: whatever the end of the exchange, the button is enabled again; after a
    response it carries the label it had before the submission.  The page
    navigates only on a response that is [ok], to the location the body
    names or else to the dashboard, and shows an error in all other
    cases when the error element exists. *)
Theorem registration_always_releases_the_button (f : Form)
    (o : RegisterOutcome) (p : Page) :
  validate f = None ->
  let r := {| regName := formName f; regEmail := formEmail f;
              regPassword := formPassword f;
              originalText := submitLabel p |} in
  let p' := complete r o (submit f p) in
  submitDisabled p' = false
  /\ match o with
     | Responded true redirect _ =>
         submitLabel p' = submitLabel p
         /\ location p' = Some (orElse redirect "/dashboard")
         /\ errorShown p' = errorShown p
     | Responded false _ error =>
         submitLabel p' = submitLabel p
         /\ location p' = location p
         /\ (errorElement p = true ->
             errorShown p'
             = Some (orElse error
                       "Account creation failed. Please try again."))
     | Interrupted =>
         submitLabel p' = "Create Account"
         /\ location p' = location p
         /\ (errorElement p = true ->
             errorShown p'
             = Some "A network error occurred. Please try again.")
     end.
Proof.
  intros V r p'. unfold p', submit. rewrite V. unfold r.
  destruct o as [[|] redirect error|]; unfold complete, showError;
    cbn [setButton setRegistrations navigate errorElement errorShown
         submitDisabled submitLabel location registrations originalText];
    destruct (errorElement p) eqn:E;
    cbn [setButton setRegistrations navigate errorElement errorShown
         submitDisabled submitLabel location registrations originalText];
    repeat split; try reflexivity; try discriminate; try congruence.
Qed.

(** X13: a click on the toggle shows hidden passwords and hides shown ones, in
    both fields at once and with the icon following; two clicks restore
    the page. *)
Theorem password_toggle_flips_both_fields (p : Page) :
  (hidden p -> shown (togglePassword p))
  /\ (shown p -> hidden (togglePassword p))
  /\ confirmType (togglePassword p) = passwordType (togglePassword p)
  /\ (hidden p \/ shown p -> togglePassword (togglePassword p) = p).
Proof.
  unfold hidden, shown, togglePassword.
  destruct p as [ee es sd sl loc regs pt ct eye slash].
  cbn [passwordType confirmType iconEye iconEyeSlash errorElement errorShown
       submitDisabled submitLabel location registrations].
  repeat split.
  - destruct H as (-> & _). reflexivity.
  - destruct H as (-> & _). reflexivity.
  - destruct H as (_ & _ & -> & _). reflexivity.
  - destruct H as (_ & _ & _ & ->). reflexivity.
  - destruct H as (-> & _). reflexivity.
  - destruct H as (-> & _). reflexivity.
  - destruct H as (_ & _ & -> & _). reflexivity.
  - destruct H as (_ & _ & _ & ->). reflexivity.
  - intros [(-> & -> & -> & ->)|(-> & -> & -> & ->)]; reflexivity.
Qed.

End SignupPage.

(* ------------------------------------------------------------------ *)
(** ** More on the session controller *)

Section ControllerMore.
Variable P : Platform.
Local Open Scope list_scope.

Ltac fields_everywhere :=
  cbn [inputValue inputDisabled isWaitingForResponse currentConversationId
       chatTitle sidebar chatMessages emptyStateActive feedbackDisabled
       statusIndicator pending timers nextError recognition isRecording
       trace] in *.

Ltac open_page st :=
  destruct st; fields_everywhere;
  repeat match goal with s : option Status |- _ => destruct s end.

Ltac straight_line :=
  cbv beta iota zeta delta
    [handleSendMessage fetch addMessage showError onData onError settle
     stopVoiceInput toggleVoiceInput onRecognitionError runTimer
     requestOf userMessage
     log setTimeout set_inputValue set_inputDisabled
     set_isWaitingForResponse set_chatTitle
     set_sidebar set_chatMessages set_emptyStateActive
     set_feedbackDisabled set_statusIndicator set_pending set_timers
     set_nextError set_isRecording set_trace
     inputValue inputDisabled isWaitingForResponse currentConversationId
     chatTitle sidebar chatMessages emptyStateActive feedbackDisabled
     statusIndicator pending timers nextError recognition isRecording
     trace].

Ltac split_ifs :=
  repeat match goal with
         | |- context [if ?b then _ else _] => destruct b
         end.

Ltac run_all :=
  straight_line; split_ifs; straight_line;
  unfold updateStatus; straight_line.

(** Compute the fields of the state a settlement of [st] leaves. *)
Ltac settled st :=
  destruct st; fields_everywhere;
  unfold onError;
  rewrite ?updateTitle_normal; cbn [fst snd];
  rewrite ?updateStatus_normal, ?addMessage_normal;
  cbv beta iota zeta delta
    [derivesTitle itemLookup refusal
     fetch showError log setTimeout set_inputValue set_inputDisabled
     set_isWaitingForResponse set_chatTitle
     set_sidebar set_chatMessages set_emptyStateActive
     set_feedbackDisabled set_statusIndicator set_pending set_timers
     set_nextError set_isRecording set_trace
     inputValue inputDisabled isWaitingForResponse currentConversationId
     chatTitle sidebar chatMessages emptyStateActive feedbackDisabled
     statusIndicator pending timers nextError recognition isRecording
     trace].

(** The three ways a settlement runs, one after the other. *)
Ltac settle_cases o st :=
  let data := fresh "data" in
  let e := fresh "e" in
  let Es := fresh "Es" in
  destruct o as [data|e];
  [destruct (String.eqb (status data) "success") eqn:Es;
   [apply String.eqb_eq in Es; rewrite (settle_success P) by assumption;
    cbv zeta
   |apply String.eqb_neq in Es; rewrite (settle_failure P) by assumption]
  |rewrite (settle_rejected P)].

(** *** Entries are only ever appended *)







(** *** The feedback button *)

(** The count of line 63 in its parts: the message entries of the list,
    the elements that inserted markup brought, and the rest of the
    page. *)
Lemma count_parts (st : State) :
  messageCount P st
  = length (filter isMessageNode (chatMessages st))
    + list_sum (map (fun n => messageElementsIn P (markup n))
                  (chatMessages st))
    + elsewhere P.
Proof.
  unfold messageCount. f_equal.
  induction (chatMessages st) as [|n l IH]; [reflexivity|].
  cbn [filter map].
  change (list_sum (messageElements P n :: map (messageElements P) l))
    with (messageElements P n + list_sum (map (messageElements P) l)).
  change (list_sum (messageElementsIn P (markup n)
                    :: map (fun n => messageElementsIn P (markup n)) l))
    with (messageElementsIn P (markup n)
          + list_sum (map (fun n => messageElementsIn P (markup n)) l)).
  rewrite IH. unfold messageElements.
  destruct (isMessageNode n); cbn [length]; lia.
Qed.

Lemma entries_le_count (st : State) :
  length (filter isMessageNode (chatMessages st)) <= messageCount P st.
Proof. rewrite count_parts. lia. Qed.


(** *** Error elements *)

Ltac fresh_goal H :=
  unfold freshErrors in *; fields_everywhere;
  let id := fresh "id" in
  let html := fresh "html" in
  let Hin := fresh "Hin" in
  intros id html Hin;
  repeat match type of Hin with
         | In _ (_ ++ _) =>
             apply in_app_or in Hin; destruct Hin as [Hin|Hin]
         | In _ (filter _ _) => apply filter_In in Hin; destruct Hin as [Hin _]
         end;
  try (apply H in Hin; lia);
  try (now destruct Hin);
  try (cbn [In] in Hin; destruct Hin as [Hin|[]];
       (discriminate Hin || (injection Hin as <- _; lia))).

Lemma fresh_handleSendMessage (now : Z) (st : State) :
  freshErrors st -> freshErrors (handleSendMessage P now st).
Proof.
  intros H.
  destruct (handleSendMessage_guard P now st) as [E|(Ht & Hw & Hid)];
    [now rewrite E|].
  rewrite handleSendMessage_sends by assumption.
  open_page st; run_all; fresh_goal H.
Qed.

Lemma fresh_settle (now : Z) (req : Request) (o : Outcome) (st : State) :
  freshErrors st -> freshErrors (settle P now req o st).
Proof.
  intros H. settle_cases o st.
  - destruct (refusal P (message req) st), (reply data); settled st;
      fresh_goal H.
  - settled st. fresh_goal H.
  - settled st. fresh_goal H.
Qed.

Lemma fresh_frame (st st' : State) :
  chatMessages st' = chatMessages st ->
  nextError st' = nextError st ->
  freshErrors st -> freshErrors st'.
Proof.
  intros Hc Hn H id html Hin. rewrite Hc in Hin. rewrite Hn. eauto.
Qed.

Lemma fresh_showError (msg : string) (st : State) :
  freshErrors st -> freshErrors (showError msg st).
Proof. intros H. open_page st; run_all; fresh_goal H. Qed.

Lemma fresh_step (now : Z) (e : Event) (st : State) :
  freshErrors st -> freshErrors (step P now e st).
Proof.
  intros H. destruct e; cbn [step].
  - now apply fresh_handleSendMessage.
  - destruct (inputDisabled st); [assumption|].
    now apply (fresh_frame st).
  - destruct (nth_error (pending st) i); [|assumption].
    apply fresh_settle. now apply (fresh_frame st).
  - destruct (nth_error (timers st) i) as [t|]; [|assumption].
    destruct (action t); cbn [runTimer].
    + apply fresh_handleSendMessage. now apply (fresh_frame st).
    + now apply (fresh_frame st).
    + open_page st; straight_line; fresh_goal H.
  - unfold toggleVoiceInput, stopVoiceInput.
    destruct (recognition st), (isRecording st); cbn [negb orb];
      try assumption; try now apply (fresh_frame st).
    destruct (truthy (trim (inputValue (log RecognitionStop st))));
      now apply (fresh_frame st).
  - unfold stopVoiceInput.
    destruct (negb (recognition st) || negb (isRecording st));
      [assumption|].
    destruct (truthy (trim (inputValue (log RecognitionStop st))));
      now apply (fresh_frame st).
  - now apply (fresh_frame st).
  - now apply (fresh_frame st).
  - now apply (fresh_frame st).
  - unfold onRecognitionError.
    destruct (String.eqb err "not-allowed");
      (eapply fresh_frame; [| |apply fresh_showError; eassumption]);
      reflexivity.
Qed.

Lemma fresh_run (evs : list (Z * Event)) (st : State) :
  freshErrors st -> freshErrors (run P evs st).
Proof.
  revert st. induction evs as [|[now e] evs IH]; intros st H; cbn [run];
    [assumption|].
  apply IH. now apply fresh_step.
Qed.

Lemma filter_fresh (st : State) :
  freshErrors st ->
  filter (fun n => negb (isErrorNode (nextError st) n)) (chatMessages st)
  = chatMessages st.
Proof.
  unfold freshErrors. generalize (nextError st) as k.
  induction (chatMessages st) as [|n l IH]; intros k H; [reflexivity|].
  cbn [filter].
  assert (Hn : negb (isErrorNode k n) = true).
  { destruct n as [el|i html]; [reflexivity|]. cbn [isErrorNode].
    assert (i < k) by (apply (H i html); now left).
    apply negb_true_iff, Nat.eqb_neq. lia. }
  rewrite Hn. f_equal. apply IH. intros id html Hin.
  apply (H id html). now right.
Qed.

(** X16: an error element is appended at once, stays while its first timer of
    5 seconds runs and through the half second of the second one, and is
    then removed: the children of the list and the timers are again what
    they were, and no other element is removed with it.  That every error
    element can be told from the others holds along every run. *)
Theorem error_element_is_transient (msg : string) (now1 now2 : Z)
    (st : State) :
  freshErrors st ->
  let i := length (timers st) in
  let st1 := showError msg st in
  let st2 := step P now1 (TimerEvent i) st1 in
  let st3 := step P now2 (TimerEvent i) st2 in
  chatMessages st1 = chatMessages st ++ [ErrorNode (nextError st) msg]
  /\ timers st1
     = timers st
       ++ [{| delay := 5000; action := FadeOutError (nextError st) |}]
  /\ chatMessages st2 = chatMessages st1
  /\ timers st2
     = timers st
       ++ [{| delay := 500; action := RemoveError (nextError st) |}]
  /\ chatMessages st3 = chatMessages st
  /\ timers st3 = timers st
  /\ (forall evs, freshErrors (run P evs st3)).
Proof.
  intros H i st1 st2 st3.
  assert (E1 : chatMessages st1
               = chatMessages st ++ [ErrorNode (nextError st) msg]
               /\ timers st1
                  = timers st
                    ++ [{| delay := 5000;
                           action := FadeOutError (nextError st) |}]
               /\ nextError st1 = S (nextError st)).
  { unfold st1. open_page st; run_all; repeat split. }
  destruct E1 as (C1 & T1 & N1).
  assert (E2 : chatMessages st2 = chatMessages st1
               /\ timers st2
                  = timers st
                    ++ [{| delay := 500;
                           action := RemoveError (nextError st) |}]
               /\ nextError st2 = nextError st1).
  { unfold st2, i. cbn [step]. rewrite T1, nth_error_snoc, removeAt_snoc.
    cbn [action runTimer]. repeat split. }
  destruct E2 as (C2 & T2 & N2).
  assert (E3 : chatMessages st3 = chatMessages st /\ timers st3 = timers st
               /\ nextError st3 = nextError st2).
  { unfold st3, i. cbn [step]. rewrite T2, nth_error_snoc, removeAt_snoc.
    cbn [action runTimer chatMessages timers nextError set_chatMessages
         set_timers].
    rewrite C2, C1, filter_app, (filter_fresh st H).
    cbn [filter isErrorNode]. rewrite Nat.eqb_refl. cbn [negb].
    now rewrite app_nil_r. }
  destruct E3 as (C3 & T3 & N3).
  repeat split; try assumption.
  intros evs. apply fresh_run.
  intros id html Hin. rewrite C3 in Hin. rewrite N3, N2, N1.
  apply H in Hin. lia.
Qed.

(** *** Dictation *)

(** X17: when the stop control ends a recording with text in the field, no
    request in flight and a conversation open, the timer it sets sends
    that text, trimmed, as a message: the field is cleared, the user's
    entry is rendered and one request is pending. *)
Theorem dictated_text_is_sent_after_stop (now1 now2 : Z) (st : State) :
  recognition st = true ->
  isRecording st = true ->
  truthy (trim (inputValue st)) = true ->
  isWaitingForResponse st = false ->
  idTruthy (currentConversationId st) = true ->
  let st' := run P [(now1, StopVoiceClick);
                    (now2, TimerEvent (length (timers st)))] st in
  pending st' = pending st ++ [requestOf st]
  /\ chatMessages st'
     = chatMessages st
       ++ [MessageNode (createMessageElement P now2 (userMessage P now2 st))]
  /\ inputValue st' = EmptyString
  /\ inputDisabled st' = true
  /\ timers st' = timers st.
Proof.
  intros Hr Hi Ht Hw Hid. cbv zeta. cbn [run step].
  unfold stopVoiceInput. rewrite Hr, Hi. cbn [negb orb].
  replace (inputValue (log RecognitionStop st)) with (inputValue st)
    by reflexivity.
  rewrite Ht.
  replace (timers (setTimeout SubmitForm 300 (log RecognitionStop st)))
    with (timers st ++ [{| delay := 300; action := SubmitForm |}])
    by reflexivity.
  rewrite nth_error_snoc, removeAt_snoc. cbn [action runTimer].
  set (s1 := set_timers (timers st)
               (setTimeout SubmitForm 300 (log RecognitionStop st))).
  destruct (handleSendMessage_effect P now2 s1)
    as (C & _ & Pd & V & _ & _ & D & _); try assumption.
  cbv zeta in C, Pd, V, D. rewrite C, Pd, V, D.
  repeat split.
  rewrite handleSendMessage_sends by assumption.
  unfold s1. open_page st; run_all; reflexivity.
Qed.

(** X18: neither voice control touches the text of the field, the list, the
    pending requests or the recording flag, which only the recognizer's
    own events change; without a recognizer both do nothing at all, and
    the stop control does nothing when no recording is under way. *)
Theorem voice_controls_leave_the_conversation_alone (now : Z) (st : State) :
  (forall e, e = VoiceClick \/ e = StopVoiceClick ->
             inputValue (step P now e st) = inputValue st
             /\ chatMessages (step P now e st) = chatMessages st
             /\ pending (step P now e st) = pending st
             /\ isRecording (step P now e st) = isRecording st
             /\ inputDisabled (step P now e st) = inputDisabled st)
  /\ (recognition st = false ->
      step P now VoiceClick st = st /\ step P now StopVoiceClick st = st)
  /\ (isRecording st = false -> step P now StopVoiceClick st = st).
Proof.
  split; [|split].
  - intros e [->| ->]; cbn [step]; unfold toggleVoiceInput, stopVoiceInput;
      destruct (recognition st) eqn:Hr, (isRecording st) eqn:Hi;
      cbn [negb orb]; repeat split;
      destruct (truthy (trim (inputValue (log RecognitionStop st))));
      first [reflexivity|exact Hi].
  - intros H. cbn [step]. unfold toggleVoiceInput, stopVoiceInput.
    rewrite H. now split.
  - intros H. cbn [step]. unfold stopVoiceInput. rewrite H.
    now rewrite orb_true_r.
Qed.

(** *** What is sent *)

Lemma trimEnd_last (s t : string) (c : ascii) :
  trimEnd s = (t ++ String c EmptyString)%string -> isWhiteSpace c = false.
Proof.
  revert t. induction s as [|d s IH]; intros t H; cbn [trimEnd] in H.
  - destruct t; discriminate.
  - destruct (isWhiteSpace d && isEmpty (trimEnd s)) eqn:E.
    + destruct t; discriminate.
    + destruct t as [|d' t]; cbn [append] in H.
      * injection H as -> Hs. rewrite Hs in E. cbn [isEmpty] in E.
        now rewrite andb_true_r in E.
      * injection H as _ Hs. now apply (IH t).
Qed.

Lemma trim_first (s r : string) (c : ascii) :
  trim s = String c r -> isWhiteSpace c = false.
Proof.
  unfold trim.
  assert (Hs : forall u d v, trimStart u = String d v -> isWhiteSpace d = false).
  { induction u as [|e u IH]; intros d v H; cbn [trimStart] in H;
      [discriminate|].
    destruct (isWhiteSpace e) eqn:E; [now apply (IH d v)|].
    now injection H as <- _. }
  destruct (trimStart s) as [|d v] eqn:E; cbn [trimEnd]; [discriminate|].
  pose proof (Hs s d v E) as Hd. rewrite Hd. cbn [andb].
  intros [= <- _]. exact Hd.
Qed.

(** X19: every request the submit handler sends goes to the message endpoint
    of the current conversation, whose identifier is not empty, and
    carries the text of the field trimmed: a text that is not empty and
    neither starts nor ends with whitespace.  A submission sends one
    request or none. *)
Theorem sent_message_is_trimmed_and_not_empty (now : Z) (st : State) :
  pending (handleSendMessage P now st) = pending st
  \/ exists id,
       currentConversationId st = Some id
       /\ id <> EmptyString
       /\ pending (handleSendMessage P now st)
          = pending st
            ++ [{| url := ("/chat/" ++ id ++ "/message")%string;
                   message := trim (inputValue st) |}]
       /\ trim (inputValue st) <> EmptyString
       /\ (forall c r, trim (inputValue st) = String c r ->
                       isWhiteSpace c = false)
       /\ (forall t c, trim (inputValue st)
                       = (t ++ String c EmptyString)%string ->
                       isWhiteSpace c = false).
Proof.
  destruct (handleSendMessage_guard P now st) as [E|(Ht & Hw & Hid)];
    [left; now rewrite E|].
  right.
  destruct (handleSendMessage_effect P now st Ht Hw Hid) as (_ & _ & Pd & _).
  cbv zeta in Pd.
  destruct (currentConversationId st) as [id|] eqn:Ec; [|discriminate].
  exists id. cbn [idTruthy] in Hid.
  repeat split.
  - intros ->. discriminate.
  - rewrite Pd. unfold requestOf. now rewrite Ec.
  - intros E. rewrite E in Ht. discriminate.
  - intros c r. apply trim_first.
  - intros t c. unfold trim. apply trimEnd_last.
Qed.

(** *** The derived title *)

Lemma concat_head (sep : string) (c : ascii) (w : string)
    (ws : list string) :
  String.concat sep (String c w :: ws)
  = String c (String.concat sep (w :: ws)).
Proof. destruct ws; reflexivity. Qed.

(** Joining the pieces of a split gives the text back. *)
Lemma join_split (sep : ascii) (s : string) :
  String.concat (String sep EmptyString) (split sep s) = s.
Proof.
  induction s as [|c s IH]; [reflexivity|]. cbn [split].
  destruct (Ascii.eqb c sep) eqn:E.
  - apply Ascii.eqb_eq in E. subst c.
    destruct (split_cons sep s) as [w [ws Es]]. rewrite Es in IH |- *.
    change (String.concat (String sep EmptyString)
              (EmptyString :: w :: ws))
      with (String sep (String.concat (String sep EmptyString) (w :: ws))).
    now rewrite IH.
  - destruct (split_cons sep s) as [w [ws Es]]. rewrite Es in IH |- *.
    rewrite concat_head. now rewrite IH.
Qed.

Lemma concat_firstn (sep : string) (n : nat) (l : list string) :
  exists rest,
    String.concat sep l = (String.concat sep (firstn n l) ++ rest)%string
    /\ (length l <= n -> rest = EmptyString).
Proof.
  revert n. induction l as [|x l IH]; intros n.
  - exists EmptyString. rewrite firstn_nil. now split.
  - destruct n as [|n].
    + exists (String.concat sep (x :: l)). split; [reflexivity|].
      cbn [length]. lia.
    + cbn [firstn]. destruct (IH n) as (rest & E & Hl).
      destruct l as [|y l].
      * exists EmptyString. rewrite firstn_nil. cbn [String.concat].
        split; [now rewrite append_empty_r|reflexivity].
      * destruct n as [|n].
        -- exists (sep ++ String.concat sep (y :: l))%string.
           cbn [firstn String.concat]. split; [reflexivity|].
           cbn [length]. lia.
        -- exists rest. cbn [firstn] in E |- *.
           change (String.concat sep (x :: y :: l))
             with (x ++ sep ++ String.concat sep (y :: l))%string.
           change (String.concat sep (x :: y :: firstn n l))
             with (x ++ sep ++ String.concat sep (y :: firstn n l))%string.
           rewrite E, !append_assoc. split; [reflexivity|].
           intros H. apply Hl. cbn [length] in H |- *. lia.
Qed.

(** X20: a title derived from the user's text is a beginning of that text
    followed by three dots; it is the whole text when the text has at most
    five pieces. *)
Theorem derived_title_starts_the_message (now : Z) (req : Request)
    (data : Response) (st : State) :
  status data = "success" ->
  chatTitle st = "New Conversation" ->
  2 < length (split " "%char (message req)) ->
  exists beginning rest,
    chatTitle (settle P now req (Fulfilled data) st)
    = (beginning ++ "...")%string
    /\ message req = (beginning ++ rest)%string
    /\ (length (split " "%char (message req)) <= 5 -> rest = EmptyString).
Proof.
  intros Hs Ht Hl.
  destruct (concat_firstn " " 5 (split " "%char (message req)))
    as (rest & E & Hr).
  exists (join " " (slice0 5 (split " "%char (message req)))), rest.
  split; [|split].
  - rewrite settle_success_title by assumption.
    unfold derivesTitle, derivedTitle. rewrite Ht.
    cbn [String.eqb Ascii.eqb Bool.eqb andb].
    apply Nat.ltb_lt in Hl. rewrite Hl. reflexivity.
  - unfold join, slice0. rewrite <- E. symmetry. apply join_split.
  - exact Hr.
Qed.

(** *** The sidebar *)

Lemma retitle_ids (i : nat) (t : string) (items : list SidebarItem) :
  map dataId (retitle i t items) = map dataId items.
Proof.
  revert i. induction items as [|it items IH]; intros i; [reflexivity|].
  destruct i as [|i]; cbn [retitle map].
  - destruct (itemTitle it); reflexivity.
  - now rewrite IH.
Qed.

Lemma retitle_nth (i j : nat) (t : string) (items : list SidebarItem)
    (it : SidebarItem) :
  nth_error (retitle i t items) j = Some it ->
  nth_error items j = Some it \/ (j = i /\ itemTitle it = Some t).
Proof.
  revert i j. induction items as [|x items IH]; intros i j H.
  - left. exact H.
  - destruct i as [|i], j as [|j]; cbn [retitle nth_error] in H |- *;
      auto.
    + destruct (itemTitle x) eqn:Ex; [|auto].
      right. injection H as <-. now split.
    + destruct (IH i j H) as [H'|(-> & H')]; auto.
Qed.

Lemma indexOf_nth (id : string) (items : list SidebarItem) (i : nat) :
  indexOf id (map dataId items) = Some i ->
  exists it, nth_error items i = Some it /\ dataId it = id.
Proof.
  revert i. induction items as [|x items IH]; intros i; [discriminate|].
  cbn [map indexOf]. destruct (String.eqb (dataId x) id) eqn:E.
  - intros [= <-]. exists x. split; [reflexivity|].
    now apply String.eqb_eq.
  - destruct (indexOf id (map dataId items)) as [k|]; [|discriminate].
    intros [= <-]. apply (IH k eq_refl).
Qed.

(** The sidebar and the title after a settlement. *)
Lemma settle_sidebar (now : Z) (req : Request) (o : Outcome) (st : State) :
  let changes :=
    match o with
    | Fulfilled data =>
        String.eqb (status data) "success" && derivesTitle (message req) st
    | Rejected _ => false
    end in
  sidebar (settle P now req o st)
  = (if changes then
       match itemLookup P st with
       | Normal (Some i) =>
           retitle i (derivedTitle (message req)) (sidebar st)
       | _ => sidebar st
       end
     else sidebar st)
  /\ chatTitle (settle P now req o st)
     = (if changes then derivedTitle (message req) else chatTitle st).
Proof.
  cbv zeta. settle_cases o st.
  - cbn [andb].
    destruct (refusal P (message req) st); settled st; split; reflexivity.
  - settled st. split; reflexivity.
  - settled st. split; reflexivity.
Qed.

(** X21: a settlement never adds, removes or reorders the conversations of
    the sidebar.  An entry it changes stands at the position the selector
    engine answered for the selector of the current conversation, and then
    shows the title of the header; a failed settlement and one whose
    selector is refused change none.  When the engine answers with the
    first item whose [data-id] is the identifier, as it does for an
    identifier that the selector's string denotes literally, a changed
    entry belongs to the current conversation. *)
Theorem sidebar_follows_the_title (now : Z) (req : Request) (o : Outcome)
    (st : State) :
  let st' := settle P now req o st in
  let id := idString (currentConversationId st) in
  map dataId (sidebar st') = map dataId (sidebar st)
  /\ (forall j it,
         nth_error (sidebar st') j = Some it ->
         nth_error (sidebar st) j = Some it
         \/ (itemLookup P st = Normal (Some j)
             /\ itemTitle it = Some (chatTitle st')))
  /\ (match o with
      | Fulfilled data =>
          status data <> "success" \/ refusal P (message req) st <> None
      | Rejected _ => True
      end -> sidebar st' = sidebar st)
  /\ (itemLookup P st = Normal (indexOf id (map dataId (sidebar st))) ->
      forall it,
        In it (sidebar st') ->
        In it (sidebar st)
        \/ (dataId it = id /\ itemTitle it = Some (chatTitle st'))).
Proof.
  intros st' id.
  destruct (settle_sidebar now req o st) as (Es & Et).
  fold st' in Es, Et. cbv zeta in Es, Et.
  set (changes := match o with
                  | Fulfilled data =>
                      String.eqb (status data) "success"
                      && derivesTitle (message req) st
                  | Rejected _ => false
                  end) in Es, Et.
  assert (Ids : map dataId (sidebar st') = map dataId (sidebar st)).
  { rewrite Es. destruct changes; [|reflexivity].
    destruct (itemLookup P st) as [[i|]|e]; try reflexivity.
    apply retitle_ids. }
  assert (Nth : forall j it,
             nth_error (sidebar st') j = Some it ->
             nth_error (sidebar st) j = Some it
             \/ (itemLookup P st = Normal (Some j)
                 /\ itemTitle it = Some (chatTitle st'))).
  { intros j it. rewrite Es, Et. destruct changes; [|auto].
    destruct (itemLookup P st) as [[i|]|e]; auto.
    intros H. destruct (retitle_nth _ _ _ _ _ H) as [H'|(-> & H')]; auto. }
  split; [exact Ids|]. split; [exact Nth|]. split.
  - intros H. rewrite Es. destruct changes eqn:Ec; [|reflexivity].
    unfold changes in Ec. destruct o as [data|e]; [|discriminate].
    apply andb_true_iff in Ec. destruct Ec as (Ec & Ed).
    apply String.eqb_eq in Ec. destruct H as [H|H]; [contradiction|].
    unfold refusal in H. rewrite Ed in H.
    destruct (itemLookup P st) as [[i|]|e]; try reflexivity.
    all: now elim H.
  - intros Hl it Hin.
    destruct (In_nth_error _ _ Hin) as (j & Hj).
    destruct (Nth j it Hj) as [H|(Hk & Ht)].
    + left. eapply nth_error_In. exact H.
    + right. split; [|exact Ht].
      rewrite Hl in Hk. injection Hk as Hk.
      destruct (indexOf_nth id (sidebar st) j Hk) as (old & Ho & Hd).
      assert (M : nth_error (map dataId (sidebar st')) j
                  = nth_error (map dataId (sidebar st)) j)
        by now rewrite Ids.
      rewrite !nth_error_map, Hj, Ho in M. cbn [option_map] in M.
      injection M as M. congruence.
Qed.

End ControllerMore.

(* ------------------------------------------------------------------ *)
(** ** The feedback request and the modal *)

Section FeedbackModal.
Import Feedback.
Variable P : Platform.
Variable typeErrorMessage : string.
Variable plainTextOf : string -> string.
Local Open Scope list_scope.

Ltac chat_fields :=
  cbn [inputValue inputDisabled isWaitingForResponse currentConversationId
       chatTitle sidebar chatMessages emptyStateActive feedbackDisabled
       statusIndicator pending timers nextError recognition isRecording
       trace] in *.

Ltac page_fields :=
  cbn [chat modalPresent contentPresent modalActive bodyModalOpen
       feedbackHTML feedbackPending liveUrls anchors cleanups saved
       nextUrl] in *.

Ltac open_both p :=
  destruct p as [c ? ? ? ? ? ? ? ? ? ? ?]; page_fields;
  destruct c; chat_fields;
  repeat match goal with s : option Status |- _ => destruct s end.

Ltac run_page :=
  cbv beta iota zeta delta
    [requestFeedback onFeedbackError onFeedbackData settleFeedback
     closeFeedbackModal documentClick downloadFeedback cleanup
     set_chat set_feedbackPending set_modal set_downloads
     chat modalPresent contentPresent modalActive bodyModalOpen
     feedbackHTML feedbackPending liveUrls anchors cleanups saved nextUrl
     showError updateStatus log setTimeout
     set_inputValue set_inputDisabled set_isWaitingForResponse
     set_chatTitle set_sidebar set_chatMessages set_emptyStateActive
     set_feedbackDisabled set_statusIndicator set_pending set_timers
     set_nextError set_isRecording set_trace
     inputValue inputDisabled isWaitingForResponse currentConversationId
     chatTitle sidebar chatMessages emptyStateActive feedbackDisabled
     statusIndicator pending timers nextError recognition isRecording
     trace].

(** X22: a click on the feedback button does nothing without a conversation or
    while the button is disabled; otherwise it disables the button and
    sends one request to the feedback endpoint of the conversation.
    However that request ends, the button is enabled again. *)
Theorem feedback_request_disables_until_settled (o : FeedbackOutcome)
    (p : Page) :
  (idTruthy (currentConversationId (chat p)) = false
   \/ feedbackDisabled (chat p) = true -> requestFeedback p = p)
  /\ (idTruthy (currentConversationId (chat p)) = true ->
      feedbackDisabled (chat p) = false ->
      feedbackDisabled (chat (requestFeedback p)) = true
      /\ feedbackPending (requestFeedback p)
         = feedbackPending p
           ++ [("/chat/" ++ idString (currentConversationId (chat p))
                ++ "/feedback")%string]
      /\ requestFeedback (requestFeedback p) = requestFeedback p)
  /\ feedbackDisabled (chat (settleFeedback typeErrorMessage o p)) = false.
Proof.
  split; [|split].
  - intros [H|H]; unfold requestFeedback; rewrite H;
      now rewrite ?orb_true_r.
  - intros Hid Hd.
    assert (E : feedbackDisabled (chat (requestFeedback p)) = true
                /\ feedbackPending (requestFeedback p)
                   = feedbackPending p
                     ++ [("/chat/" ++ idString (currentConversationId (chat p))
                          ++ "/feedback")%string]).
    { unfold requestFeedback. rewrite Hid, Hd. cbn [negb orb].
      open_both p; run_page; split; reflexivity. }
    destruct E as (E1 & E2). repeat split; try assumption.
    unfold requestFeedback at 1. rewrite E1. now rewrite orb_true_r.
  - destruct o as [data|e].
    + unfold settleFeedback, onFeedbackData, showFeedbackModal.
      destruct (String.eqb (fstatus data) "success").
      * cbn [modalPresent contentPresent set_chat].
        destruct (negb (modalPresent p) || negb (contentPresent p)).
        -- open_both p; run_page; reflexivity.
        -- destruct (feedback data); open_both p; run_page; reflexivity.
      * open_both p; run_page; reflexivity.
    + open_both p; run_page; reflexivity.
Qed.

(** X23: the modal opens exactly on a successful response that carries a text,
    when both of its elements exist, and then shows that text formatted.
    A successful response without text ends in the error path; where the
    elements are missing a success is dropped silently.  In all other
    cases the modal is left as it is and an error element is shown. *)
Theorem modal_opens_only_for_feedback_text (o : FeedbackOutcome) (p : Page) :
  let p' := settleFeedback typeErrorMessage o p in
  let unchanged :=
    modalActive p' = modalActive p /\ bodyModalOpen p' = bodyModalOpen p
    /\ feedbackHTML p' = feedbackHTML p in
  let failedWith text :=
    unchanged
    /\ chatMessages (chat p')
       = chatMessages (chat p) ++ [ErrorNode (nextError (chat p)) text] in
  match o with
  | FeedbackFulfilled data =>
      if String.eqb (fstatus data) "success" then
        if modalPresent p && contentPresent p then
          match feedback data with
          | Some s =>
              modalActive p' = true /\ bodyModalOpen p' = true
              /\ feedbackHTML p' = formatFeedback s
              /\ chatMessages (chat p') = chatMessages (chat p)
          | None =>
              failedWith ("Error generating feedback: " ++ typeErrorMessage)%string
          end
        else unchanged /\ chatMessages (chat p') = chatMessages (chat p)
      else failedWith (orElse (ferror data) "Failed to generate feedback")
  | FeedbackRejected e =>
      failedWith ("Error generating feedback: " ++ e)%string
  end.
Proof.
  cbv zeta. destruct o as [data|e].
  - unfold settleFeedback, onFeedbackData, showFeedbackModal.
    destruct (String.eqb (fstatus data) "success").
    + cbn [modalPresent contentPresent set_chat].
      destruct (modalPresent p) eqn:Hm, (contentPresent p) eqn:Hc;
        cbn [negb orb andb];
        try (open_both p; run_page; repeat split; reflexivity).
      destruct (feedback data);
        open_both p; run_page; repeat split; reflexivity.
    + open_both p; run_page; repeat split; reflexivity.
  - open_both p; run_page; repeat split; reflexivity.
Qed.

(** X24: the close controls and a click outside the modal's content and the
    feedback button close an open modal and release the page scroll; a
    click inside either leaves it open.  Closing keeps the text.  Where
    the modal element is missing nothing happens. *)
Theorem modal_closes_on_its_controls_and_backdrop (p : Page) :
  (modalPresent p = true ->
   modalActive (closeFeedbackModal p) = false
   /\ bodyModalOpen (closeFeedbackModal p) = false
   /\ feedbackHTML (closeFeedbackModal p) = feedbackHTML p
   /\ (modalActive p = true ->
       documentClick false false p = closeFeedbackModal p))
  /\ (forall b, documentClick true b p = p /\ documentClick b true p = p)
  /\ (modalActive p = false -> forall a b, documentClick a b p = p)
  /\ (modalPresent p = false ->
      closeFeedbackModal p = p /\ forall a b, documentClick a b p = p).
Proof.
  unfold documentClick, closeFeedbackModal.
  split; [|split; [|split]].
  - intros H. rewrite H. cbn [negb andb]. repeat split.
    intros Ha. now rewrite Ha.
  - intros b. now rewrite ?andb_false_r.
  - intros H a b. rewrite H. now rewrite andb_false_r.
  - intros H. rewrite H. cbn [negb andb]. now split.
Qed.


(** *** The markup of the modal *)

Lemma substring_class (cls : ascii -> bool) (s : string) (n k : nat) :
  testClass cls s = false -> testClass cls (substring n k s) = false.
Proof.
  revert n k. induction s as [|c s IH]; intros n k H.
  - now destruct n, k.
  - cbn [testClass] in H. apply orb_false_iff in H. destruct H as [Hc Hs].
    destruct n as [|n]; destruct k as [|k]; cbn [substring testClass];
      try reflexivity; try now apply IH.
    rewrite Hc. now apply IH.
Qed.

(** Replacements that add none of the characters of a class keep a text
    free of it. *)
Lemma replaceFrom_class (cls : ascii -> bool) (r : regex)
    (f : string -> captures -> string) :
  (forall m caps, testClass cls m = false ->
                  testClass cls (f m caps) = false) ->
  forall s skip,
    testClass cls s = false ->
    testClass cls (replaceFrom r f skip s) = false.
Proof.
  intros Hf. induction s as [|c s IH]; intros skip H.
  - destruct skip; cbn [replaceFrom]; [|reflexivity].
    destruct (exec r EmptyString) as [[rest caps]|]; [|reflexivity].
    apply Hf. now apply substring_class.
  - pose proof H as Hcs.
    cbn [testClass] in H. apply orb_false_iff in H. destruct H as [Hc Hs].
    destruct skip as [|n]; cbn [replaceFrom]; [|now apply IH].
    destruct (exec r (String c s)) as [[rest caps]|].
    + assert (Hm : testClass cls (f (consumed (String c s) rest) caps)
                   = false)
        by (apply Hf; now apply substring_class).
      destruct (isEmpty (consumed (String c s) rest));
        rewrite testClass_append, Hm; cbn [orb testClass];
        rewrite ?Hc; now apply IH.
    + cbn [testClass]. rewrite Hc. now apply IH.
Qed.

Lemma wrapLists_no_line_feed (s : string) :
  testClass isLineFeed s = false ->
  testClass isLineFeed (wrapLists s) = false.
Proof.
  intros H. unfold wrapLists. destruct (includes "<li>" s); [|assumption].
  unfold replaceAll. apply replaceFrom_class; [reflexivity|].
  apply replaceFrom_class; [|assumption].
  intros m caps Hm. now rewrite !testClass_append, Hm.
Qed.

Lemma includes_lineBreaks (s : string) :
  testClass (Ascii.eqb "<"%char) s = false ->
  includes "<li>" (lineBreaks s) = false.
Proof.
  induction s as [|c s IH]; cbn [testClass lineBreaks]; intros H;
    [reflexivity|].
  apply orb_false_iff in H. destruct H as [Hc Hs].
  destruct (isLineFeed c).
  - cbn [append includes prefix]. cbn. now apply IH.
  - cbn [append includes prefix].
    destruct (ascii_dec "<"%char c) as [E|_];
      [subst c; now rewrite Ascii.eqb_refl in Hc|].
    now rewrite IH.
Qed.

(** X25: the modal's markup holds no line feed either.  On a text without [#],
    [-] and [<], and on bullet lines, it is the markup of a chat entry;
    the two chains of replacements are not the same function, though:
    they differ on a text that holds a list item's tags around a line
    feed. *)
Theorem modal_markup_compared_with_chat_markup :
  (forall s, testClass isLineFeed (formatFeedback s) = false)
  /\ (forall s, testClass markupStart s = false ->
                formatFeedback s = formatContent s)
  /\ (forall items, items <> [] -> forallb itemText items = true ->
                    formatFeedback (bulletLines items)
                    = formatContent (bulletLines items))
  /\ formatFeedback ("<li>a" ++ LF ++ "b</li>")%string
     <> formatContent ("<li>a" ++ LF ++ "b</li>")%string.
Proof.
  split; [|split; [|split]].
  - intros s. unfold formatFeedback. rewrite convertLineBreaks_lineBreaks.
    apply wrapLists_no_line_feed, lineBreaks_no_LF.
  - intros s H.
    assert (Hh : testClass (Ascii.eqb "#"%char) s = false
                 /\ testClass (Ascii.eqb "-"%char) s = false
                 /\ testClass (Ascii.eqb "<"%char) s = false).
    { repeat split; apply (testClass_weaken markupStart); try assumption;
        intros c Hc; apply Ascii.eqb_eq in Hc; now subst c. }
    destruct Hh as (H1 & H2 & H3).
    unfold formatFeedback, formatContent.
    rewrite !convertLineBreaks_lineBreaks.
    rewrite convertHeaders_absent, convertBullets_absent by assumption.
    rewrite (wrapLists_absent s H3).
    unfold wrapLists. now rewrite includes_lineBreaks.
  - intros items Hne Hit.
    unfold formatFeedback, formatContent.
    rewrite !convertLineBreaks_lineBreaks.
    rewrite convertHeaders_absent by now apply bulletLines_no_hash.
    rewrite convertBullets_lines by assumption.
    rewrite (lineBreaks_id (String.concat EmptyString (map listItem items)))
      by now apply items_no_line_feed.
    rewrite wrapLists_items by assumption.
    symmetry. apply lineBreaks_id.
    rewrite !testClass_append, items_no_line_feed by assumption.
    reflexivity.
  - vm_compute. discriminate.
Qed.

(** *** Feedback requests and chat replies *)

Lemma reply_enables_feedback (Q : Platform) (now : Z) (req : Request)
    (data : Response) (m : Message) (st : State) :
  status data = "success" ->
  reply data = Some m ->
  3 <= length (filter isMessageNode (chatMessages st)) ->
  refusal Q (message req) st = None ->
  feedbackDisabled (settle Q now req (Fulfilled data) st) = false
  /\ currentConversationId (settle Q now req (Fulfilled data) st)
     = currentConversationId st.
Proof.
  intros Hs Hr Hc Hn. rewrite (settle_success Q) by assumption.
  cbv zeta. rewrite Hn, Hr.
  set (st2 := fst (updateTitle Q (message req) _)).
  assert (C2 : chatMessages st2
               = chatMessages st
                 ++ [MessageNode (createMessageElement Q now m)]).
  { unfold st2. rewrite updateTitle_normal, addMessage_normal.
    reflexivity. }
  assert (I2 : currentConversationId st2 = currentConversationId st).
  { unfold st2. rewrite updateTitle_normal, addMessage_normal.
    reflexivity. }
  pose proof (entries_le_count Q st2) as L.
  rewrite C2, filter_app, length_app in L.
  cbn [filter isMessageNode length] in L.
  replace (4 <=? messageCount Q st2) with true
    by (symmetry; apply Nat.leb_le; lia).
  rewrite updateStatus_normal. split; [reflexivity|exact I2].
Qed.

(** X26: the disabled button does not keep feedback requests apart for
    good: a chat reply that brings the list to four message entries or
    more, and whose sidebar lookup is not refused, enables the button
    whatever feedback requests are still pending, and the next click
    sends another one. *)
Theorem chat_reply_reopens_the_feedback_button (now now' : Z)
    (data : Response) (m : Message) (req : Request) (p : Page) :
  status data = "success" ->
  reply data = Some m ->
  pending (chat p) = [req] ->
  3 <= length (filter isMessageNode (chatMessages (chat p))) ->
  idTruthy (currentConversationId (chat p)) = true ->
  refusal P (message req) (chat p) = None ->
  let p1 := pageStep P typeErrorMessage plainTextOf now
              (ChatEvent (SettleEvent 0 (Fulfilled data))) p in
  let p2 := pageStep P typeErrorMessage plainTextOf now' FeedbackClick p1 in
  feedbackDisabled (chat p1) = false
  /\ feedbackPending p1 = feedbackPending p
  /\ feedbackPending p2
     = feedbackPending p
       ++ [("/chat/" ++ idString (currentConversationId (chat p))
            ++ "/feedback")%string]
  /\ length (feedbackPending p2) = S (length (feedbackPending p)).
Proof.
  intros Hs Hr Hp Hc Hid Hn p1 p2.
  assert (E1 : chat p1 = settle (around P p) now req (Fulfilled data)
                           (set_pending [] (chat p))
               /\ feedbackPending p1 = feedbackPending p).
  { unfold p1. cbn [pageStep chat set_chat feedbackPending step].
    rewrite Hp. cbn [nth_error removeAt]. now split. }
  destruct E1 as (E1 & F1).
  destruct (reply_enables_feedback (around P p) now req data m
              (set_pending [] (chat p)) Hs Hr Hc Hn) as (D1 & C1).
  rewrite <- E1 in D1, C1. cbn [currentConversationId set_pending] in C1.
  assert (E2 : feedbackPending p2
               = feedbackPending p
                 ++ [("/chat/" ++ idString (currentConversationId (chat p))
                      ++ "/feedback")%string]).
  { unfold p2. cbn [pageStep]. unfold requestFeedback.
    rewrite C1, Hid, D1. cbn [negb orb].
    cbn [feedbackPending set_feedbackPending]. now rewrite F1. }
  repeat split; try assumption.
  rewrite E2, length_app. cbn [length]. lia.
Qed.

(** *** The download *)

Lemma filter_all {A} (f : A -> bool) (l : list A) :
  (forall x, In x l -> f x = true) -> filter f l = l.
Proof.
  induction l as [|x l IH]; intros H; [reflexivity|]. cbn [filter].
  rewrite (H x) by now left. f_equal. apply IH. intros y Hy. apply H.
  now right.
Qed.

(** X27: a download saves the plain text of the modal under the name
    [sales-feedback-] followed by the first ten characters of the ISO date
    and [.txt]; once its timer has run, the object URL is revoked and the
    anchor removed, so that nothing of it is left on the page.  Without
    the content element nothing happens. *)
Theorem download_leaves_nothing_behind (now now' : Z) (p : Page) :
  freshUrls p ->
  contentPresent p = true ->
  let d := {| objectUrl := nextUrl p;
              fileName := ("sales-feedback-"
                           ++ substring 0 10 (isoString P now)
                           ++ ".txt")%string;
              fileText := plainTextOf (feedbackHTML p) |} in
  let p1 := downloadFeedback P plainTextOf now p in
  let p2 := pageStep P typeErrorMessage plainTextOf now'
              (CleanupTimer (length (cleanups p))) p1 in
  saved p1 = saved p ++ [d]
  /\ liveUrls p1 = liveUrls p ++ [nextUrl p]
  /\ anchors p1 = anchors p ++ [d]
  /\ liveUrls p2 = liveUrls p
  /\ anchors p2 = anchors p
  /\ cleanups p2 = cleanups p
  /\ saved p2 = saved p ++ [d]
  /\ freshUrls p2.
Proof.
  intros (Hu & Ha) Hc d p1 p2.
  assert (E1 : saved p1 = saved p ++ [d]
               /\ liveUrls p1 = liveUrls p ++ [nextUrl p]
               /\ anchors p1 = anchors p ++ [d]
               /\ cleanups p1 = cleanups p ++ [d]
               /\ nextUrl p1 = S (nextUrl p)).
  { unfold p1, downloadFeedback. rewrite Hc. cbn [negb].
    repeat split. }
  destruct E1 as (S1 & U1 & A1 & C1 & N1).
  assert (E2 : liveUrls p2 = liveUrls p /\ anchors p2 = anchors p
               /\ cleanups p2 = cleanups p /\ saved p2 = saved p ++ [d]
               /\ nextUrl p2 = S (nextUrl p)).
  { unfold p2. cbn [pageStep]. rewrite C1, nth_error_snoc, removeAt_snoc.
    unfold cleanup.
    cbn [liveUrls anchors cleanups saved nextUrl set_downloads].
    rewrite U1, A1, S1, N1, !filter_app.
    cbn [filter objectUrl sameDownload d]. rewrite Nat.eqb_refl.
    cbn [negb]. rewrite !app_nil_r.
    assert (Fu : filter (fun u => negb (u =? nextUrl p)) (liveUrls p)
                 = liveUrls p).
    { apply filter_all. intros u Hin. apply Hu in Hin.
      apply negb_true_iff, Nat.eqb_neq. lia. }
    assert (Fa : filter (fun a => negb (sameDownload a d)) (anchors p)
                 = anchors p).
    { apply filter_all. intros a Hin. apply Ha in Hin. unfold sameDownload.
      cbn [objectUrl d]. apply negb_true_iff, Nat.eqb_neq. lia. }
    replace (sameDownload d d) with true
      by (unfold sameDownload; symmetry; apply Nat.eqb_refl).
    cbn [negb]. rewrite Fu, Fa, ?app_nil_r. repeat split. }
  destruct E2 as (U2 & A2 & C2 & S2 & N2).
  repeat split; try assumption.
  - intros u Hin. rewrite U2 in Hin. rewrite N2. apply Hu in Hin. lia.
  - intros a Hin. rewrite A2 in Hin. rewrite N2. apply Ha in Hin. lia.
Qed.

End FeedbackModal.

(* ------------------------------------------------------------------ *)
(** ** Concrete runs of the further properties *)

Lemma carousel_always_shows_one_witness :
  (0 <= 2 < Z.of_nat 3)%Z
  /\ exists j, (0 <= j < Z.of_nat 3)%Z
               /\ Landing.handle Landing.Next (Landing.showing 3 2)
                  = Landing.showing 3 j.
Proof.
  assert (H : (0 <= 2 < Z.of_nat 3)%Z) by (cbn; lia).
  split; [exact H|].
  exact (carousel_always_shows_one 3 2%Z Landing.Next H).
Defined.

Lemma carousel_steps_wrap_around_witness :
  (0 <= 2 < Z.of_nat 3)%Z
  /\ Nat.iter 3 Landing.next (Landing.showing 3 2) = Landing.showing 3 2.
Proof.
  assert (H : (0 <= 2 < Z.of_nat 3)%Z) by (cbn; lia).
  split; [exact H|].
  exact (proj2 (proj2 (proj2 (carousel_steps_wrap_around 3 2%Z H)))).
Defined.

Lemma empty_carousel_stays_witness :
  let c := {| Landing.testimonials := []; Landing.dots := [true; false];
              Landing.currentIndex := 0%Z |} in
  Landing.testimonials c = []
  /\ Landing.handle Landing.Tick c = c.
Proof.
  cbv zeta. split; [reflexivity|].
  exact (empty_carousel_stays
           {| Landing.testimonials := []; Landing.dots := [true; false];
              Landing.currentIndex := 0%Z |} Landing.Tick eq_refl).
Defined.

Lemma strong_password_is_long_enough_witness :
  Signup.strengthText (Signup.checkPasswordStrength 3 "Tr0ub4dor&3x")
  = "Strong"
  /\ 8 <= String.length "Tr0ub4dor&3x".
Proof.
  split; [reflexivity|].
  exact (strong_password_is_long_enough 3 "Tr0ub4dor&3x" eq_refl).
Defined.

Lemma registration_always_releases_the_button_witness :
  let f := SignupForm.filledForm in
  let p := SignupForm.servedPage in
  let r := {| SignupForm.regName := SignupForm.formName f;
              SignupForm.regEmail := SignupForm.formEmail f;
              SignupForm.regPassword := SignupForm.formPassword f;
              SignupForm.originalText := SignupForm.submitLabel p |} in
  SignupForm.validate f = None
  /\ SignupForm.submitDisabled
       (SignupForm.complete r SignupForm.Interrupted (SignupForm.submit f p))
     = false.
Proof.
  cbv zeta. split; [reflexivity|].
  exact (proj1 (registration_always_releases_the_button
                  SignupForm.filledForm SignupForm.Interrupted
                  SignupForm.servedPage eq_refl)).
Defined.

Lemma error_element_is_transient_witness :
  let st1 := showError "Failed to send message" samplePage in
  let st2 := step samplePlatform 5000 (TimerEvent 0) st1 in
  let st3 := step samplePlatform 5500 (TimerEvent 0) st2 in
  freshErrors samplePage
  /\ chatMessages st1 = [ErrorNode 0 "Failed to send message"]
  /\ chatMessages st2 = chatMessages st1
  /\ chatMessages st3 = [].
Proof.
  cbv zeta.
  assert (H : freshErrors samplePage) by (intros id html []).
  split; [exact H|].
  pose proof (error_element_is_transient samplePlatform
                "Failed to send message" 5000 5500 samplePage H) as T.
  cbv zeta in T.
  destruct T as (T1 & _ & T2 & _ & T3 & _).
  split; [exact T1|]. split; [exact T2|exact T3].
Defined.

Lemma dictated_text_is_sent_after_stop_witness :
  let st := set_isRecording true (set_inputValue " hello " samplePage) in
  let st' := run samplePlatform
               [(newYear2024, StopVoiceClick);
                (newYear2024 + 300, TimerEvent 0)%Z] st in
  recognition st = true
  /\ isRecording st = true
  /\ truthy (trim (inputValue st)) = true
  /\ isWaitingForResponse st = false
  /\ idTruthy (currentConversationId st) = true
  /\ pending st'
     = [{| url := "/chat/42/message"; message := "hello" |}].
Proof.
  cbv zeta. repeat (split; [reflexivity|]).
  exact (proj1 (dictated_text_is_sent_after_stop samplePlatform
                  newYear2024 (newYear2024 + 300)%Z
                  (set_isRecording true
                     (set_inputValue " hello " samplePage))
                  eq_refl eq_refl eq_refl eq_refl eq_refl)).
Defined.

Lemma derived_title_starts_the_message_witness :
  let req := {| url := "/chat/42/message";
                message := "what does it cost per seat and year" |} in
  status sampleReply = "success"
  /\ chatTitle samplePage = "New Conversation"
  /\ 2 < length (split " "%char (message req))
  /\ exists beginning rest,
       chatTitle (settle samplePlatform newYear2024 req
                    (Fulfilled sampleReply) samplePage)
       = (beginning ++ "...")%string
       /\ message req = (beginning ++ rest)%string
       /\ (length (split " "%char (message req)) <= 5
           -> rest = EmptyString).
Proof.
  cbv zeta.
  assert (H : 2 < length (split " "%char
                            "what does it cost per seat and year"))
    by (vm_compute; lia).
  split; [reflexivity|]. split; [reflexivity|]. split; [exact H|].
  exact (derived_title_starts_the_message samplePlatform newYear2024
           {| url := "/chat/42/message";
              message := "what does it cost per seat and year" |}
           sampleReply samplePage eq_refl eq_refl H).
Defined.

Lemma chat_reply_reopens_the_feedback_button_witness :
  let req := {| url := "/chat/42/message"; message := "and per seat" |} in
  let m := {| role := "assistant"; content := "Tell me more.";
              timestamp := "2024-01-01T00:00:00.000Z" |} in
  let shown := Feedback.pageStep samplePlatform "TypeError" (fun s => s) in
  let p1 := shown newYear2024
              (Feedback.ChatEvent (SettleEvent 0 (Fulfilled sampleReply)))
              Feedback.busyPage in
  let p2 := shown newYear2024 Feedback.FeedbackClick p1 in
  status sampleReply = "success"
  /\ reply sampleReply = Some m
  /\ pending (Feedback.chat Feedback.busyPage) = [req]
  /\ 3 <= length (filter isMessageNode
                    (chatMessages (Feedback.chat Feedback.busyPage)))
  /\ idTruthy (currentConversationId (Feedback.chat Feedback.busyPage))
     = true
  /\ refusal samplePlatform (message req)
       (Feedback.chat Feedback.busyPage) = None
  /\ feedbackDisabled (Feedback.chat p1) = false
  /\ Feedback.feedbackPending p2 = ["/chat/42/feedback"].
Proof.
  cbv zeta.
  assert (H : 3 <= length (filter isMessageNode
                             (chatMessages
                                (Feedback.chat Feedback.busyPage))))
    by (vm_compute; lia).
  split; [reflexivity|]. split; [reflexivity|]. split; [reflexivity|].
  split; [exact H|]. split; [reflexivity|]. split; [reflexivity|].
  pose proof (chat_reply_reopens_the_feedback_button samplePlatform
                "TypeError" (fun s => s) newYear2024 newYear2024
                sampleReply
                {| role := "assistant"; content := "Tell me more.";
                   timestamp := "2024-01-01T00:00:00.000Z" |}
                {| url := "/chat/42/message"; message := "and per seat" |}
                Feedback.busyPage eq_refl eq_refl eq_refl H eq_refl
                eq_refl) as T.
  cbv zeta in T. destruct T as (T1 & _ & T2 & _).
  split; [exact T1|exact T2].
Defined.

Lemma download_leaves_nothing_behind_witness :
  let p1 := Feedback.downloadFeedback samplePlatform (fun s => s)
              newYear2024 Feedback.servedPage in
  let p2 := Feedback.pageStep samplePlatform "TypeError" (fun s => s)
              (newYear2024 + 100)%Z (Feedback.CleanupTimer 0) p1 in
  Feedback.freshUrls Feedback.servedPage
  /\ Feedback.contentPresent Feedback.servedPage = true
  /\ map Feedback.fileName (Feedback.saved p1)
     = ["sales-feedback-2024-01-01.txt"]
  /\ Feedback.liveUrls p2 = []
  /\ Feedback.anchors p2 = [].
Proof.
  cbv zeta.
  assert (H : Feedback.freshUrls Feedback.servedPage)
    by (split; intros ? []).
  split; [exact H|]. split; [reflexivity|].
  pose proof (download_leaves_nothing_behind samplePlatform "TypeError"
                (fun s => s) newYear2024 (newYear2024 + 100)%Z
                Feedback.servedPage H eq_refl) as T.
  cbv zeta in T. destruct T as (T1 & _ & _ & T2 & T3 & _).
  split; [now rewrite T1|]. split; [exact T2|exact T3].
Defined.
